(** * SMOKED_MONEY: a shallow embedding of [main.py]

    The bot keeps two SQLite tables ([users], [usage]), a per-user dictionary
    of pending-input flags and a two-step onboarding conversation.  The
    development follows the layout of [main.py]: the Python runtime the code
    calls into (calendar arithmetic of [datetime], [isoformat], the parsers
    [float], [int] and [strptime]), the database helpers, the aggregation
    helpers, the dashboard, the handlers, and the handler registration of
    [main()]. *)

From Stdlib Require Import ZArith Lia Bool List Ascii String.
From Stdlib Require Import Floats.
From stdpp Require Import base option gmap strings list fin_maps pretty.

Local Open Scope Z_scope.

(** ** Python's [datetime.date]: the proleptic Gregorian calendar *)

Module Calendar.

Record date := mkdate { year : Z; month : Z; day : Z }.

Definition MINYEAR : Z := 1.
Definition MAXYEAR : Z := 9999.

(** [_is_leap]: year % 4 == 0 and (year % 100 != 0 or year % 400 == 0). *)
Definition is_leap (y : Z) : bool :=
  (y mod 4 =? 0) && (negb (y mod 100 =? 0) || (y mod 400 =? 0)).

(** [_DAYS_IN_MONTH], indexed from 1. *)
Definition DAYS_IN_MONTH (m : Z) : Z :=
  match m with
  | 1 => 31 | 2 => 28 | 3 => 31 | 4 => 30 | 5 => 31 | 6 => 30
  | 7 => 31 | 8 => 31 | 9 => 30 | 10 => 31 | 11 => 30 | 12 => 31
  | _ => -1
  end.

(** [_DAYS_BEFORE_MONTH], indexed from 1. *)
Definition DAYS_BEFORE_MONTH (m : Z) : Z :=
  match m with
  | 1 => 0 | 2 => 31 | 3 => 59 | 4 => 90 | 5 => 120 | 6 => 151
  | 7 => 181 | 8 => 212 | 9 => 243 | 10 => 273 | 11 => 304 | 12 => 334
  | _ => -1
  end.

Definition days_before_year (y : Z) : Z :=
  let y1 := y - 1 in y1 * 365 + y1 / 4 - y1 / 100 + y1 / 400.

Definition days_in_month (y m : Z) : Z :=
  if (m =? 2) && is_leap y then 29 else DAYS_IN_MONTH m.

Definition days_before_month (y m : Z) : Z :=
  DAYS_BEFORE_MONTH m + (if (2 <? m) && is_leap y then 1 else 0).

(** [_ymd2ord]: January 1 of year 1 is day 1. *)
Definition ymd2ord (y m d : Z) : Z :=
  days_before_year y + days_before_month y m + d.

Definition toordinal (d : date) : Z := ymd2ord (year d) (month d) (day d).

(** The range check of the [date] constructor ([_check_date_fields]). *)
Definition date_valid (d : date) : bool :=
  (MINYEAR <=? year d) && (year d <=? MAXYEAR)
  && (1 <=? month d) && (month d <=? 12)
  && (1 <=? day d) && (day d <=? days_in_month (year d) (month d)).

(** [date(y, m, d)]: [None] stands for the [ValueError] of the constructor. *)
Definition make_date (y m d : Z) : option date :=
  let r := mkdate y m d in if date_valid r then Some r else None.

(** Comparison of dates is the comparison of the triples (year, month, day). *)
Definition date_compare (a b : date) : comparison :=
  match year a ?= year b with
  | Eq => match month a ?= month b with
          | Eq => day a ?= day b
          | c => c
          end
  | c => c
  end.

Definition date_gtb (a b : date) : bool :=
  match date_compare a b with Gt => true | _ => false end.

Definition date_leb (a b : date) : bool := negb (date_gtb a b).

Definition date_ltb (a b : date) : bool :=
  match date_compare a b with Lt => true | _ => false end.

(** [(a - b).days] *)
Definition days_between (a b : date) : Z := toordinal a - toordinal b.

(** The day after and the day before in the calendar. *)
Definition next_day (d : date) : date :=
  if day d <? days_in_month (year d) (month d)
  then mkdate (year d) (month d) (day d + 1)
  else if month d <? 12
       then mkdate (year d) (month d + 1) 1
       else mkdate (year d + 1) 1 1.

Definition prev_day (d : date) : date :=
  if 1 <? day d
  then mkdate (year d) (month d) (day d - 1)
  else if 1 <? month d
       then mkdate (year d) (month d - 1) (days_in_month (year d) (month d - 1))
       else mkdate (year d - 1) 12 31.

(** [d - timedelta(days=n)]: the date [n] days earlier; [None] stands for the
    [OverflowError] raised when the result would precede year 1. *)
Fixpoint minus_days (n : nat) (d : date) : option date :=
  match n with
  | O => Some d
  | S k => let p := prev_day d in
           if date_valid p then minus_days k p else None
  end.

Definition end_of_year (d : date) : date := mkdate (year d) 12 31.

(** The dates strictly after [d], up to and including [stop], listed by
    stepping through the calendar (at most [fuel] of them). *)
Fixpoint days_after (fuel : nat) (d stop : date) : list date :=
  match fuel with
  | O => []
  | S k => if date_ltb d stop
           then next_day d :: days_after k (next_day d) stop
           else []
  end.

End Calendar.

Import Calendar.

(** ** Python's [datetime.datetime] (naive) and [isoformat] *)

Module DateTime.

Record datetime := mkdatetime
  { dt_date : date; hour : Z; minute : Z; second : Z; microsecond : Z }.

Definition datetime_valid (t : datetime) : bool :=
  date_valid (dt_date t)
  && (0 <=? hour t) && (hour t <? 24)
  && (0 <=? minute t) && (minute t <? 60)
  && (0 <=? second t) && (second t <? 60)
  && (0 <=? microsecond t) && (microsecond t <? 1000000).

(** Comparison of datetimes is the comparison of the tuples
    (year, month, day, hour, minute, second, microsecond). *)
Definition datetime_compare (a b : datetime) : comparison :=
  match date_compare (dt_date a) (dt_date b) with
  | Eq => match hour a ?= hour b with
          | Eq => match minute a ?= minute b with
                  | Eq => match second a ?= second b with
                          | Eq => microsecond a ?= microsecond b
                          | c => c
                          end
                  | c => c
                  end
          | c => c
          end
  | c => c
  end.

Definition datetime_leb (a b : datetime) : bool :=
  match datetime_compare a b with Gt => false | _ => true end.

(** [now.replace(hour=0, minute=0, second=0, microsecond=0)] *)
Definition replace_midnight (t : datetime) : datetime :=
  mkdatetime (dt_date t) 0 0 0 0.

(** [now.replace(day=1, hour=0, minute=0, second=0, microsecond=0)] *)
Definition replace_first_of_month (t : datetime) : datetime :=
  mkdatetime (mkdate (year (dt_date t)) (month (dt_date t)) 1) 0 0 0 0.

(** [now.replace(month=1, day=1, hour=0, minute=0, second=0, microsecond=0)] *)
Definition replace_first_of_year (t : datetime) : datetime :=
  mkdatetime (mkdate (year (dt_date t)) 1 1) 0 0 0 0.

(** [now - timedelta(days=n)]: the time of day is kept. *)
Definition minus_timedelta_days (n : nat) (t : datetime) : option datetime :=
  match minus_days n (dt_date t) with
  | Some d => Some (mkdatetime d (hour t) (minute t) (second t) (microsecond t))
  | None => None
  end.

(** The decimal digit of [n mod 10]. *)
Definition digit (n : Z) : ascii := ascii_of_N (Z.to_N (48 + n mod 10)).

(** ["%0wd" % n] for [0 <= n < 10^w], which holds of every field of a date or
    a datetime: the [w] digits of [n], most significant first. *)
Fixpoint fixed_dec (w : nat) (n : Z) : string :=
  match w with
  | O => EmptyString
  | S k => String (digit (n / 10 ^ Z.of_nat k)) (fixed_dec k n)
  end.

(** [date.isoformat()]: "%04d-%02d-%02d". *)
Definition date_isoformat (d : date) : string :=
  (fixed_dec 4 (year d) ++ "-" ++ fixed_dec 2 (month d) ++ "-"
     ++ fixed_dec 2 (day d))%string.

(** [datetime.isoformat()]: the date, "T", "%02d:%02d:%02d", and ".%06d"
    only when the microsecond is not zero. *)
Definition isoformat (t : datetime) : string :=
  (date_isoformat (dt_date t) ++ "T" ++ fixed_dec 2 (hour t) ++ ":"
     ++ fixed_dec 2 (minute t) ++ ":" ++ fixed_dec 2 (second t)
     ++ (if Z.eqb (microsecond t) 0 then ""
         else "." ++ fixed_dec 6 (microsecond t)))%string.

End DateTime.

Import DateTime.

(** ** Python's [float] (IEEE 754 binary64) *)

Module PyFloat.

(** [float(n)] for a Python integer: the nearest binary64 value, ties to
    even.  Every integer converted by [main.py] is an SQLite INTEGER or a day
    count, far below the range where Python raises [OverflowError]. *)
Definition float_of_Z (n : Z) : float :=
  SF2Prim (binary_normalize prec emax n 0 false).

(** [x * n] with [x] a float and [n] an int. *)
Definition mul_int (x : float) (n : Z) : float := PrimFloat.mul x (float_of_Z n).

(** [x <= 0] and [x > 0] on floats; both are [False] on NaN. *)
Definition le0 (x : float) : bool := PrimFloat.leb x PrimFloat.zero.
Definition gt0 (x : float) : bool := PrimFloat.ltb PrimFloat.zero x.

End PyFloat.

Import PyFloat.

(** ** The runtime functions [main.py] calls

    The text functions of Python ([str.strip], [str.lower], [float], [int],
    the regular expression [strptime] builds for "%Y-%m-%d") and the [SUM]
    of SQLite over REAL values are parameters of the model: every theorem
    below holds whatever they compute.  [None] stands for [ValueError].
    [Reference] further down instantiates them on ASCII text. *)

Class PyRuntime := {
  (** [s.strip()] *)
  str_strip : string -> string;
  (** [s.lower()] *)
  str_lower : string -> string;
  (** [float(s)] *)
  py_float : string -> option float;
  (** [int(s)] *)
  py_int : string -> option Z;
  (** The fields (year, month, day) that the format "%Y-%m-%d" reads off a
      string, before the [date] constructor checks their ranges. *)
  strptime_fields : string -> option (Z * Z * Z);
  (** [SUM(cost)] over at least one row, in row order. *)
  sql_sum_real : list float -> float;
}.

(** [datetime.strptime(s, "%Y-%m-%d").date()] *)
Definition strptime_ymd `{PyRuntime} (s : string) : option date :=
  match strptime_fields s with
  | Some (y, m, d) => make_date y m d
  | None => None
  end.

(** ** The database, the chat transport and the clock *)

Module Store.

(** A row of [users]; [user_id] is the key of the table.  SQLite's INTEGER
    and REAL columns are modelled as [Z] and binary64 values, NULL as
    [None].  A REAL column never holds a NaN: SQLite stores NULL when a NaN
    is bound, and the row is read back with [None] in its place.  The NaN of
    [unit_price] stands for that NULL; the two places where [main.py]
    computes with the value read raise [TypeError] on it. *)
Record user_row := mkuser {
  unit_price : float;
  stock : Z;
  dashboard_message_id : option Z;
  start_smoking_date : option string;
}.

(** A row of [usage].  The NaN of [cost] stands for NULL, as for
    [unit_price]. *)
Record usage_row := mkusage {
  usage_id : Z;
  usage_user_id : Z;
  timestamp : string;
  quantity : Z;
  cost : float;
}.

(** The four (quantity, cost) pairs [get_aggregates] returns. *)
Record aggregates := mkaggr {
  daily : Z * float;
  weekly : Z * float;
  monthly : Z * float;
  yearly : Z * float;
}.

(** What the dashboard text is made of; the Markdown layout is not modelled.
    The start date and the theoretical total are printed only when the start
    date is a non-empty string, the forecast only when it is positive. *)
Record dashboard := mkdashboard {
  shown_aggregates : aggregates;
  shown_stock : Z;
  shown_unit_price : float;
  shown_start_date : option string;
  shown_theoretical_total : float;
  shown_forecast : float;
}.

Inductive message_text :=
| AskUnitPriceText
| UnitPriceSetText (price : float)
| InvalidNumberText
| InvalidDateText
| DashboardText (d : dashboard).

(** Calls made on the chat transport. *)
Inductive outbound :=
| SendMessage (chat_id : Z) (text : message_text)
| EditMessageText (chat_id message_id : Z) (text : message_text) (delivered : bool)
| AnswerCallbackQuery.

(** Return values of the conversation handlers. *)
Inductive conversation_state := ASKING_UNIT_PRICE | ASKING_START_DATE | END.

(** What the program does not decide: the successive readings of the clock,
    the identifiers the transport gives to the messages it sends, and
    whether each attempt to edit a message succeeds. *)
Record environment := mkenv {
  clock : nat -> datetime;
  message_ids : nat -> Z;
  edit_succeeds : nat -> bool;
}.

(** The state the handlers run on: the two tables, [context.user_data] of
    every user, the conversation states kept by the [ConversationHandler]
    (keyed by chat and user), the calls made on the transport so far, and
    how much of the environment has been consumed. *)
Record world := mkworld {
  users : gmap Z user_row;
  usage : list usage_row;
  user_data : gmap Z (gmap string bool);
  conversations : gmap (Z * Z) conversation_state;
  outbox : list outbound;
  clock_reads : nat;
  sends : nat;
  edit_attempts : nat;
}.

Definition with_users (f : gmap Z user_row -> gmap Z user_row) (w : world) : world :=
  mkworld (f (users w)) (usage w) (user_data w) (conversations w) (outbox w)
          (clock_reads w) (sends w) (edit_attempts w).

Definition with_usage (f : list usage_row -> list usage_row) (w : world) : world :=
  mkworld (users w) (f (usage w)) (user_data w) (conversations w) (outbox w)
          (clock_reads w) (sends w) (edit_attempts w).

Definition with_user_data
    (f : gmap Z (gmap string bool) -> gmap Z (gmap string bool)) (w : world) : world :=
  mkworld (users w) (usage w) (f (user_data w)) (conversations w) (outbox w)
          (clock_reads w) (sends w) (edit_attempts w).

Definition with_conversations
    (f : gmap (Z * Z) conversation_state -> gmap (Z * Z) conversation_state)
    (w : world) : world :=
  mkworld (users w) (usage w) (user_data w) (f (conversations w)) (outbox w)
          (clock_reads w) (sends w) (edit_attempts w).

Definition with_outbox (f : list outbound -> list outbound) (w : world) : world :=
  mkworld (users w) (usage w) (user_data w) (conversations w) (f (outbox w))
          (clock_reads w) (sends w) (edit_attempts w).

Definition tick_clock (w : world) : world :=
  mkworld (users w) (usage w) (user_data w) (conversations w) (outbox w)
          (S (clock_reads w)) (sends w) (edit_attempts w).

Definition tick_sends (w : world) : world :=
  mkworld (users w) (usage w) (user_data w) (conversations w) (outbox w)
          (clock_reads w) (S (sends w)) (edit_attempts w).

Definition tick_edits (w : world) : world :=
  mkworld (users w) (usage w) (user_data w) (conversations w) (outbox w)
          (clock_reads w) (sends w) (S (edit_attempts w)).

(** The tables of a fresh installation, before any update is handled. *)
Definition initial_world : world := mkworld ∅ [] ∅ ∅ [] 0 0 0.

(** Exceptions that leave a handler. *)
Inductive exn := IntegrityError | OverflowError | TypeError.

Inductive result (A : Type) :=
| Ok (a : A)
| Raised (e : exn).
Arguments Ok {A} a.
Arguments Raised {A} e.

(** Handlers are state transformers that may raise; every write is committed
    as it is made, so the state survives an exception. *)
Definition M (A : Type) : Type := world -> result A * world.

Definition ret {A} (a : A) : M A := fun w => (Ok a, w).

Definition bind {A B} (m : M A) (k : A -> M B) : M B :=
  fun w => match m w with
           | (Ok a, w') => k a w'
           | (Raised e, w') => (Raised e, w')
           end.

Definition raise {A} (e : exn) : M A := fun w => (Raised e, w).

Definition gets {A} (f : world -> A) : M A := fun w => (Ok (f w), w).

Definition modify (f : world -> world) : M unit := fun w => (Ok tt, f w).

(** The state a computation leaves, whether it returned or raised. *)
Definition exec {A} (m : M A) (w : world) : world := snd (m w).

End Store.

Import Store.

Notation "x <- m ;; k" := (bind m (fun x => k))
  (at level 100, m at next level, right associativity).
Notation "m ;;; k" := (bind m (fun _ => k))
  (at level 100, right associativity).

(** ** The program *)

Section Bot.

Context `{PyRuntime} (E : environment).

(** *** The clock and the transport *)

(** [datetime.now()] *)
Definition datetime_now : M datetime :=
  fun w => (Ok (clock E (clock_reads w)), tick_clock w).

(** [date.today()] *)
Definition date_today : M date :=
  now <- datetime_now ;; ret (dt_date now).

(** [context.bot.send_message(...)]: returns the identifier of the message. *)
Definition send_message (chat_id : Z) (text : message_text) : M Z :=
  fun w => (Ok (message_ids E (sends w)),
            tick_sends (with_outbox (fun o => o ++ [SendMessage chat_id text]) w)).

(** [context.bot.edit_message_text(...)]: [false] when the transport raises. *)
Definition edit_message_text (chat_id message_id : Z) (text : message_text) : M bool :=
  fun w => let ok := edit_succeeds E (edit_attempts w) in
           (Ok ok,
            tick_edits (with_outbox
                          (fun o => o ++ [EditMessageText chat_id message_id text ok]) w)).

(** [query.answer()] *)
Definition answer_callback_query : M unit :=
  modify (with_outbox (fun o => o ++ [AnswerCallbackQuery])).

(** *** Database helpers *)

Definition get_user (user_id : Z) : M (option user_row) :=
  gets (fun w => users w !! user_id).

(** INSERT into a table whose primary key is [user_id]. *)
Definition create_user (user_id : Z) (unit_price : float) : M unit :=
  row <- get_user user_id ;;
  match row with
  | Some _ => raise IntegrityError
  | None => modify (with_users (insert user_id (mkuser unit_price 0 None None)))
  end.

Definition update_dashboard_message_id (user_id message_id : Z) : M unit :=
  modify (with_users (alter (fun r =>
    mkuser (unit_price r) (stock r) (Some message_id) (start_smoking_date r)) user_id)).

Definition update_user_price (user_id : Z) (new_price : float) : M unit :=
  modify (with_users (alter (fun r =>
    mkuser new_price (stock r) (dashboard_message_id r) (start_smoking_date r)) user_id)).

Definition update_user_stock (user_id new_stock : Z) : M unit :=
  modify (with_users (alter (fun r =>
    mkuser (unit_price r) new_stock (dashboard_message_id r) (start_smoking_date r)) user_id)).

Definition update_user_start_date (user_id : Z) (start_date_str : string) : M unit :=
  modify (with_users (alter (fun r =>
    mkuser (unit_price r) (stock r) (dashboard_message_id r) (Some start_date_str)) user_id)).

(** AUTOINCREMENT: one more than the largest id of the table. *)
Definition next_usage_id (rows : list usage_row) : Z :=
  1 + fold_right (fun r acc => Z.max (usage_id r) acc) 0 rows.

Definition log_smoke_event (user_id quantity : Z) (cost : float) : M unit :=
  now <- datetime_now ;;
  modify (with_usage (fun rows =>
    rows ++ [mkusage (next_usage_id rows) user_id (isoformat now) quantity cost])).

(** *** Aggregation helpers *)

(** [WHERE user_id = ? AND timestamp BETWEEN ? AND ?]: the TEXT column is
    compared byte by byte with the two bounds. *)
Definition in_window (user_id : Z) (start_iso end_iso : string) (r : usage_row) : bool :=
  Z.eqb (usage_user_id r) user_id
  && String.leb start_iso (timestamp r) && String.leb (timestamp r) end_iso.

(** [SELECT IFNULL(SUM(quantity), 0), IFNULL(SUM(cost), 0)]: both sums are
    NULL when no row is selected. *)
Definition sum_rows (rows : list usage_row) : Z * float :=
  match rows with
  | [] => (0, PrimFloat.zero)
  | _ => (fold_right Z.add 0 (map quantity rows), sql_sum_real (map cost rows))
  end.

Definition _aggregate_usage (user_id : Z) (start_dt end_dt : datetime) : M (Z * float) :=
  let start_iso := isoformat start_dt in
  let end_iso := isoformat end_dt in
  gets (fun w => sum_rows (List.filter (in_window user_id start_iso end_iso) (usage w))).

Definition get_aggregates (user_id : Z) : M aggregates :=
  now <- datetime_now ;;
  let daily_start := replace_midnight now in
  match minus_timedelta_days 7 now with
  | None => raise OverflowError
  | Some weekly_start =>
    let monthly_start := replace_first_of_month now in
    let yearly_start := replace_first_of_year now in
    d <- _aggregate_usage user_id daily_start now ;;
    w <- _aggregate_usage user_id weekly_start now ;;
    m <- _aggregate_usage user_id monthly_start now ;;
    y <- _aggregate_usage user_id yearly_start now ;;
    ret (mkaggr d w m y)
  end.

Definition calculate_forecast (daily_cost : float) : M float :=
  if le0 daily_cost then ret PrimFloat.zero
  else
    today <- date_today ;;
    let remaining_days := days_between (end_of_year today) today in
    ret (mul_int daily_cost remaining_days).

(** [not start_date_str]: NULL or the empty string. *)
Definition falsy (s : option string) : bool :=
  match s with
  | None => true
  | Some EmptyString => true
  | Some _ => false
  end.

Definition theoretical_spent_since_start (user_id : Z) (start_date_str : option string)
  : M float :=
  match start_date_str with
  | None => ret PrimFloat.zero
  | Some s =>
    if falsy (Some s) then ret PrimFloat.zero
    else match strptime_ymd s with
         | None => ret PrimFloat.zero
         | Some start_dt =>
           aggr <- get_aggregates user_id ;;
           let daily_cost := snd (daily aggr) in
           today_date <- date_today ;;
           if date_gtb start_dt today_date then ret PrimFloat.zero
           else
             let days_diff := days_between today_date start_dt + 1 in
             ret (mul_int daily_cost days_diff)
         end
  end.

(** *** Dashboard update logic *)

Definition update_dashboard (user_id chat_id : Z) (is_new_message : bool) : M unit :=
  row <- get_user user_id ;;
  match row with
  | None => ret tt
  | Some r =>
    aggr <- get_aggregates user_id ;;
    forecast_val <- calculate_forecast (snd (daily aggr)) ;;
    theoretical_total <- theoretical_spent_since_start user_id (start_smoking_date r) ;;
    (* the format [unit_price:.2f] on the [None] read for a NULL price *)
    if PrimFloat.is_nan (unit_price r) then raise TypeError else
    let text := DashboardText
      (mkdashboard aggr (stock r) (unit_price r) (start_smoking_date r)
                   theoretical_total forecast_val) in
    match is_new_message, dashboard_message_id r with
    | false, Some dashboard_msg_id =>
      edited <- edit_message_text chat_id dashboard_msg_id text ;;
      if edited then ret tt
      else
        msg_id <- send_message chat_id text ;;
        update_dashboard_message_id user_id msg_id
    | _, _ =>
      msg_id <- send_message chat_id text ;;
      update_dashboard_message_id user_id msg_id
    end
  end.

(** *** Pending-input flags in [context.user_data] *)

Definition awaiting_new_price_key (user_id : Z) : string :=
  "awaiting_new_price_" +:+ pretty user_id.

Definition awaiting_smoked_more_key (user_id : Z) : string :=
  "awaiting_smoked_more_" +:+ pretty user_id.

(** Whether [key] is set to a true value in the dictionary of the user. *)
Definition flag_set (user_id : Z) (key : string) (w : world) : bool :=
  match user_data w !! user_id with
  | Some d => match d !! key with Some b => b | None => false end
  | None => false
  end.

(** [context.user_data.get(key)], read as a condition. *)
Definition user_data_get (user_id : Z) (key : string) : M bool :=
  gets (flag_set user_id key).

(** [context.user_data[key] = True] *)
Definition user_data_set (user_id : Z) (key : string) : M unit :=
  modify (with_user_data (fun ud =>
    <[user_id := <[key := true]> (default ∅ (ud !! user_id))]> ud)).

(** [context.user_data.pop(key, None)] *)
Definition user_data_pop (user_id : Z) (key : string) : M unit :=
  modify (with_user_data (alter (delete key) user_id)).

(** *** Onboarding *)

Definition start (user_id chat_id : Z) : M conversation_state :=
  user_data_row <- get_user user_id ;;
  match user_data_row with
  | None =>
    send_message chat_id AskUnitPriceText ;;;
    ret ASKING_UNIT_PRICE
  | Some _ =>
    update_dashboard user_id chat_id true ;;;
    ret END
  end.

Definition ask_unit_price (user_id chat_id : Z) (message_text : string)
  : M conversation_state :=
  let text := str_strip message_text in
  match py_float text with
  | Some price =>
    if le0 price then
      send_message chat_id InvalidNumberText ;;;
      ret ASKING_UNIT_PRICE
    else
      create_user user_id price ;;;
      send_message chat_id (UnitPriceSetText price) ;;;
      ret ASKING_START_DATE
  | None =>
    send_message chat_id InvalidNumberText ;;;
    ret ASKING_UNIT_PRICE
  end.

Definition ask_start_date (user_id chat_id : Z) (message_text : string)
  : M conversation_state :=
  let text := str_lower (str_strip message_text) in
  if String.eqb text "skip" then
    update_dashboard user_id chat_id true ;;;
    ret END
  else
    match strptime_ymd text with
    | Some dt =>
      let iso_str := date_isoformat dt in
      update_user_start_date user_id iso_str ;;;
      update_dashboard user_id chat_id true ;;;
      ret END
    | None =>
      send_message chat_id InvalidDateText ;;;
      ret ASKING_START_DATE
    end.

(** *** Inline button callbacks *)

Definition menu_callback (user_id chat_id : Z) (choice : string) : M unit :=
  answer_callback_query ;;;
  user_row <- get_user user_id ;;
  match user_row with
  | None => ret tt
  | Some r =>
    let unit_price := unit_price r in
    let stock := stock r in
    if String.eqb choice "ADD_PACK" then
      update_user_stock user_id (stock + 20) ;;;
      update_dashboard user_id chat_id false
    else if String.eqb choice "ADD_CIG" then
      update_user_stock user_id (stock + 1) ;;;
      update_dashboard user_id chat_id false
    else if String.eqb choice "SMOKE_ONE" then
      (if 0 <? stock then
         update_user_stock user_id (stock - 1) ;;;
         log_smoke_event user_id 1 unit_price
       else ret tt) ;;;
      update_dashboard user_id chat_id false
    else if String.eqb choice "SMOKE_MORE" then
      user_data_set user_id (awaiting_smoked_more_key user_id)
    else if String.eqb choice "CHANGE_PRICE" then
      user_data_set user_id (awaiting_new_price_key user_id)
    else
      update_dashboard user_id chat_id false
  end.

(** *** Free text *)

Definition handle_text_message (user_id chat_id : Z) (message_text : string) : M unit :=
  let text := str_lower (str_strip message_text) in
  awaiting_price <- user_data_get user_id (awaiting_new_price_key user_id) ;;
  if awaiting_price then
    match py_float text with
    | Some new_price =>
      if gt0 new_price then update_user_price user_id new_price else ret tt
    | None => ret tt
    end ;;;
    user_data_pop user_id (awaiting_new_price_key user_id) ;;;
    update_dashboard user_id chat_id false
  else
    awaiting_more <- user_data_get user_id (awaiting_smoked_more_key user_id) ;;
    if awaiting_more then
      user_row <- get_user user_id ;;
      match user_row with
      | None => ret tt
      | Some r =>
        let unit_price := unit_price r in
        let stock := stock r in
        match py_int text with
        | Some qty =>
          if (0 <? qty) && (qty <=? stock) then
            update_user_stock user_id (stock - qty) ;;;
            (* [unit_price * qty] on the [None] read for a NULL price *)
            if PrimFloat.is_nan unit_price then raise TypeError else
            let total_cost := mul_int unit_price qty in
            log_smoke_event user_id qty total_cost
          else ret tt
        | None => ret tt
        end ;;;
        user_data_pop user_id (awaiting_smoked_more_key user_id) ;;;
        update_dashboard user_id chat_id false
      end
    else ret tt.

Definition cancel (user_id : Z) : M conversation_state :=
  user_data_pop user_id (awaiting_new_price_key user_id) ;;;
  user_data_pop user_id (awaiting_smoked_more_key user_id) ;;;
  ret END.

End Bot.

(** ** The handler registration of [main()] *)

Section Application.

Context `{PyRuntime} (E : environment).

(** The updates the registered handlers react to: the two commands, a text
    message that is not a command, and the press of an inline button. *)
Inductive update :=
| CommandStart (user_id chat_id : Z)
| CommandCancel (user_id chat_id : Z)
| TextMessage (user_id chat_id : Z) (text : string)
| CallbackQuery (user_id chat_id : Z) (data : string).

(** The state of the conversation of a user in a chat; a conversation that
    ended has none. *)
Definition conversation_of (chat_id user_id : Z) (w : world) : option conversation_state :=
  match conversations w !! (chat_id, user_id) with
  | Some END => None
  | s => s
  end.

(** The [ConversationHandler] records the state a callback returns; when the
    callback raises, the conversation stays where it was. *)
Definition run_conversation (chat_id user_id : Z) (callback : M conversation_state)
  : M unit :=
  fun w => match callback w with
           | (Ok END, w') => (Ok tt, with_conversations (delete (chat_id, user_id)) w')
           | (Ok s, w') => (Ok tt, with_conversations (insert (chat_id, user_id) s) w')
           | (Raised e, w') => (Raised e, w')
           end.

(** The handlers in the order [main()] adds them: the conversation (entry
    point [/start] with [allow_reentry], one text handler per state,
    fallback [/cancel]), then [menu_callback], then [handle_text_message].
    The first handler that accepts the update runs, and only that one. *)
Definition process_update (u : update) : M unit :=
  match u with
  | CommandStart user_id chat_id =>
    run_conversation chat_id user_id (start E user_id chat_id)
  | CommandCancel user_id chat_id =>
    st <- gets (conversation_of chat_id user_id) ;;
    match st with
    | Some _ => run_conversation chat_id user_id (cancel user_id)
    | None => ret tt
    end
  | TextMessage user_id chat_id text =>
    st <- gets (conversation_of chat_id user_id) ;;
    match st with
    | Some ASKING_UNIT_PRICE =>
      run_conversation chat_id user_id (ask_unit_price E user_id chat_id text)
    | Some ASKING_START_DATE =>
      run_conversation chat_id user_id (ask_start_date E user_id chat_id text)
    | _ => handle_text_message E user_id chat_id text
    end
  | CallbackQuery user_id chat_id data => menu_callback E user_id chat_id data
  end.

(** The state after one update, whether its handler returned or raised. *)
Definition step (w : world) (u : update) : world := exec (process_update u) w.

(** The state after a sequence of updates. *)
Definition run (us : list update) (w : world) : world := fold_left step us w.

(** The states of the running bot. *)
Inductive reachable : world -> Prop :=
| reachable_initial : reachable initial_world
| reachable_step w u : reachable w -> reachable (step w u).

End Application.

(** ** A reference runtime on ASCII text

    The parameters of [PyRuntime] as CPython computes them on ASCII input. *)

Module Reference.

Definition code (c : ascii) : Z := Z.of_N (N_of_ascii c).

(** The ASCII characters [str.strip] removes. *)
Definition is_space (c : ascii) : bool :=
  let n := code c in
  ((9 <=? n) && (n <=? 13)) || ((28 <=? n) && (n <=? 32)).

Definition is_empty (s : string) : bool :=
  match s with EmptyString => true | _ => false end.

Fixpoint lstrip (s : string) : string :=
  match s with
  | String c r => if is_space c then lstrip r else s
  | EmptyString => EmptyString
  end.

Fixpoint rstrip (s : string) : string :=
  match s with
  | String c r =>
    let r' := rstrip r in
    if is_space c && is_empty r' then EmptyString else String c r'
  | EmptyString => EmptyString
  end.

Definition strip (s : string) : string := rstrip (lstrip s).

Definition lower_char (c : ascii) : ascii :=
  let n := code c in
  if (65 <=? n) && (n <=? 90) then ascii_of_N (Z.to_N (n + 32)) else c.

Fixpoint lower (s : string) : string :=
  match s with
  | String c r => String (lower_char c) (lower r)
  | EmptyString => EmptyString
  end.

Definition digit_value (c : ascii) : option Z :=
  let n := code c in
  if (48 <=? n) && (n <=? 57) then Some (n - 48) else None.

(** The rest of a run of digits in which single underscores may separate
    digits: the value read, the number of digits, and what follows. *)
Fixpoint digits_go (acc count : Z) (s : string) : Z * Z * string :=
  match s with
  | String c r =>
    match digit_value c with
    | Some v => digits_go (10 * acc + v) (count + 1) r
    | None =>
      if Ascii.eqb c "_" then
        match r with
        | String c2 r2 =>
          match digit_value c2 with
          | Some v => digits_go (10 * acc + v) (count + 1) r2
          | None => (acc, count, s)
          end
        | EmptyString => (acc, count, s)
        end
      else (acc, count, s)
    end
  | EmptyString => (acc, count, s)
  end.

(** A run of digits, which starts with a digit. *)
Definition digits (s : string) : option (Z * Z * string) :=
  match s with
  | String c r =>
    match digit_value c with
    | Some v => Some (digits_go v 1 r)
    | None => None
    end
  | EmptyString => None
  end.

(** An optional sign: [true] for "-". *)
Definition sign (s : string) : bool * string :=
  match s with
  | String c r =>
    if Ascii.eqb c "-" then (true, r)
    else if Ascii.eqb c "+" then (false, r)
    else (false, s)
  | EmptyString => (false, s)
  end.

(** [int(s)] in base 10. *)
Definition int_of_string (s : string) : option Z :=
  let (neg, r) := sign (strip s) in
  match digits r with
  | Some (v, _, EmptyString) => Some (if neg then - v else v)
  | _ => None
  end.

(** The binary64 value nearest to [num / den] (ties to even), for
    [0 <= num] and [0 < den]: the quotient is computed with more than 64
    bits, a sticky bit records an inexact division, and the result is
    rounded once. *)
Definition float_of_ratio (num den : Z) : float :=
  if num =? 0 then PrimFloat.zero
  else
    let k := Z.max 0 (Z.log2 den - Z.log2 num + 66) in
    let scaled := num * 2 ^ k in
    let q := scaled / den in
    let sticky := if scaled mod den =? 0 then 0 else 1 in
    SF2Prim (binary_normalize prec emax (2 * q + sticky) (- (k + 1)) false).

(** The value of the decimal [mantissa * 10^exponent]. *)
Definition float_of_decimal (mantissa exponent : Z) : float :=
  if 0 <=? exponent then float_of_ratio (mantissa * 10 ^ exponent) 1
  else float_of_ratio mantissa (10 ^ (- exponent)).

(** An optional exponent part: "e" or "E", an optional sign, digits. *)
Definition exponent_part (s : string) : option (Z * string) :=
  match s with
  | String c r =>
    if Ascii.eqb (lower_char c) "e" then
      let (neg, r') := sign r in
      match digits r' with
      | Some (v, _, rest) => Some (if neg then - v else v, rest)
      | None => None
      end
    else Some (0, s)
  | EmptyString => Some (0, s)
  end.

(** A decimal literal without sign: digits, an optional point and fraction,
    an optional exponent; at least one digit before the exponent. *)
Definition decimal_literal (s : string) : option float :=
  let '(int_value, int_count, after_int) :=
    match digits s with
    | Some r => r
    | None => (0, 0, s)
    end in
  let '(mantissa, frac_count, after_frac) :=
    match after_int with
    | String "." r =>
      match digits r with
      | Some (v, n, rest) => (int_value * 10 ^ n + v, n, rest)
      | None => (int_value, 0, r)
      end
    | _ => (int_value, 0, after_int)
    end in
  if (int_count =? 0) && (frac_count =? 0) then None
  else
    match exponent_part after_frac with
    | Some (e, EmptyString) => Some (float_of_decimal mantissa (e - frac_count))
    | _ => None
    end.

(** [float(s)] *)
Definition float_of_string (s : string) : option float :=
  let (neg, r) := sign (strip s) in
  let negate x := if neg then PrimFloat.opp x else x in
  let name := lower r in
  if String.eqb name "inf" || String.eqb name "infinity"
  then Some (negate PrimFloat.infinity)
  else if String.eqb name "nan" then Some PrimFloat.nan
  else option_map negate (decimal_literal r).

(** The alternatives of the month pattern [1[0-2]|0[1-9]|[1-9]], in order,
    each with what follows it. *)
Definition month_matches (s : string) : list (Z * string) :=
  match s with
  | String c1 r1 =>
    let two :=
      match r1 with
      | String c2 r2 =>
        match digit_value c1, digit_value c2 with
        | Some 1, Some v => if v <=? 2 then [(10 + v, r2)] else []
        | Some 0, Some v => if 1 <=? v then [(v, r2)] else []
        | _, _ => []
        end
      | EmptyString => []
      end in
    let one :=
      match digit_value c1 with
      | Some v => if 1 <=? v then [(v, r1)] else []
      | None => []
      end in
    two ++ one
  | EmptyString => []
  end.

(** The alternatives of the day pattern [3[0-1]|[1-2]\d|0[1-9]|[1-9]| [1-9]]. *)
Definition day_matches (s : string) : list (Z * string) :=
  match s with
  | String c1 r1 =>
    let two :=
      match r1 with
      | String c2 r2 =>
        match digit_value c1, digit_value c2 with
        | Some 3, Some v => if v <=? 1 then [(30 + v, r2)] else []
        | Some 1, Some v => [(10 + v, r2)]
        | Some 2, Some v => [(20 + v, r2)]
        | Some 0, Some v => if 1 <=? v then [(v, r2)] else []
        | None, Some v => if Ascii.eqb c1 " " && (1 <=? v) then [(v, r2)] else []
        | _, _ => []
        end
      | EmptyString => []
      end in
    let one :=
      match digit_value c1 with
      | Some v => if 1 <=? v then [(v, r1)] else []
      | None => []
      end in
    two ++ one
  | EmptyString => []
  end.

(** The first way to read "-", a month, "-" and a day, as the backtracking
    matcher finds it: the month, the day, and the text left over. *)
Definition month_day (s : string) : option (Z * Z * string) :=
  match s with
  | String "-" r =>
    head (omap (fun '(m, after_month) =>
                  match after_month with
                  | String "-" r' =>
                    match day_matches r' with
                    | (d, rest) :: _ => Some (m, d, rest)
                    | [] => None
                    end
                  | _ => None
                  end) (month_matches r))
  | _ => None
  end.

(** The format "%Y-%m-%d": four digits of year, month and day; text left
    over after the match is an error. *)
Definition ymd_fields (s : string) : option (Z * Z * Z) :=
  match s with
  | String y1 (String y2 (String y3 (String y4 r))) =>
    match digit_value y1, digit_value y2, digit_value y3, digit_value y4 with
    | Some a, Some b, Some c, Some d =>
      match month_day r with
      | Some (m, dd, EmptyString) => Some (1000 * a + 100 * b + 10 * c + d, m, dd)
      | _ => None
      end
    | _, _, _, _ => None
    end
  | _ => None
  end.

(** [SUM] over REAL values: a running binary64 sum in row order; a NULL
    (here a NaN) is skipped. *)
Definition sum_real (xs : list float) : float :=
  fold_left PrimFloat.add
            (List.filter (fun x => negb (PrimFloat.is_nan x)) xs) PrimFloat.zero.

Definition runtime : PyRuntime := {|
  str_strip := strip;
  str_lower := lower;
  py_float := float_of_string;
  py_int := int_of_string;
  strptime_fields := ymd_fields;
  sql_sum_real := sum_real;
|}.

(** A clock that stands at one instant, a transport that numbers its messages
    from 1 and accepts every edit. *)
Definition fixed_environment (now : datetime) : environment :=
  mkenv (fun _ => now) (fun n => Z.of_nat (S n)) (fun _ => true).

End Reference.

(** ** Specification-side definitions *)

Module Spec.

(** A relation between states that every step of a computation respects is
    respected by the computation, whether it returns or raises. *)
Definition respects {A} (R : relation world) (m : M A) : Prop :=
  forall w, R w (exec m w).

(** The relation of two states that agree on an observation. *)
Definition same_on {A} (obs : world -> A) : relation world :=
  fun w w' => obs w' = obs w.

(** The usage table only grows, by rows stamped with readings of the clock. *)
Definition appends (E : environment) (w w' : world) : Prop :=
  exists rows, usage w' = usage w ++ rows
               /\ Forall (fun r => exists n, timestamp r = isoformat (clock E n)) rows.

(** What a profile is besides the reference to its dashboard message:
    unit price, stock and start date. *)
Definition profile_of (r : user_row) : float * Z * option string :=
  (unit_price r, stock r, start_smoking_date r).

(** The profiles and the usage history. *)
Definition records (w : world) : gmap Z (float * Z * option string) * list usage_row :=
  (profile_of <$> users w, usage w).


(** The records, the pending flags and the conversations. *)
Definition persisted (w : world)
  : gmap Z (float * Z * option string) * list usage_row
    * gmap Z (gmap string bool) * gmap (Z * Z) conversation_state :=
  (profile_of <$> users w, usage w, user_data w, conversations w).

(** Everything but the counters of the environment. *)
Definition data (w : world)
  : gmap Z user_row * list usage_row * gmap Z (gmap string bool)
    * gmap (Z * Z) conversation_state * list outbound :=
  (users w, usage w, user_data w, conversations w, outbox w).

(** A property of every profile. *)
Definition all_rows (P : user_row -> Prop) (w : world) : Prop :=
  forall u r, users w !! u = Some r -> P r.

(** A step from a state where every profile has the property leads to such
    a state. *)
Definition keeps_rows (P : user_row -> Prop) : relation world :=
  fun w w' => all_rows P w -> all_rows P w'.

(** No profile has a negative stock. *)
Definition stock_nonneg (w : world) : Prop :=
  all_rows (fun r => 0 <= stock r) w.

(** Every stored start date is the ISO form of a valid calendar date. *)
Definition start_dates_valid (w : world) : Prop :=
  all_rows (fun r => forall s, start_smoking_date r = Some s ->
                               exists d, date_valid d = true /\ s = date_isoformat d) w.

(** Every stored start date is the ISO form of a valid calendar date that is
    not after [today]. *)
Definition start_dates_not_after (today : date) (w : world) : Prop :=
  all_rows (fun r => forall s, start_smoking_date r = Some s ->
                               exists d, date_valid d = true /\ s = date_isoformat d
                                         /\ date_gtb d today = false) w.

(** A usage event with its instant as a [datetime], and the row that
    [log_smoke_event] stores for it. *)
Record usage_event := mkevent {
  ev_id : Z;
  ev_user : Z;
  ev_time : datetime;
  ev_quantity : Z;
  ev_cost : float;
}.

Definition row_of_event (e : usage_event) : usage_row :=
  mkusage (ev_id e) (ev_user e) (isoformat (ev_time e)) (ev_quantity e) (ev_cost e).

(** The event of [user_id] lies in the closed interval from [start] to [stop]. *)
Definition event_in (user_id : Z) (start stop : datetime) (e : usage_event) : bool :=
  Z.eqb (ev_user e) user_id
  && datetime_leb start (ev_time e) && datetime_leb (ev_time e) stop.

(** The sums of quantity and cost over the events of a user in a closed
    interval; (0, 0.0) when there is none. *)
Definition window_sums `{PyRuntime} (user_id : Z) (start stop : datetime)
           (events : list usage_event) : Z * float :=
  match List.filter (event_in user_id start stop) events with
  | [] => (0, PrimFloat.zero)
  | sel => (fold_right Z.add 0 (map ev_quantity sel), sql_sum_real (map ev_cost sel))
  end.

(** What [_aggregate_usage] returns on a table. *)
Definition aggregate_rows `{PyRuntime} (user_id : Z) (start_dt end_dt : datetime)
           (rows : list usage_row) : Z * float :=
  sum_rows (List.filter (in_window user_id (isoformat start_dt) (isoformat end_dt)) rows).

(** [remaining_days] of [calculate_forecast]: the days from [today] to
    December 31 of its year. *)
Definition remaining_days (today : date) : Z :=
  days_between (end_of_year today) today.

(** The valid dates after [a], up to and including [b]. *)
Definition strictly_after_upto (a b x : date) : Prop :=
  date_valid x = true /\ date_ltb a x = true /\ date_leb x b = true.

End Spec.

Import Spec.

(** ** Example runs on the reference runtime *)

Module Examples.

(** Noon of June 15, 2024 and noon of December 31, 2024. *)
Definition june_15 : datetime := mkdatetime (mkdate 2024 6 15) 12 0 0 0.
Definition december_31 : datetime := mkdatetime (mkdate 2024 12 31) 12 0 0 0.

Definition in_june : environment := Reference.fixed_environment june_15.
Definition in_december : environment := Reference.fixed_environment december_31.

Definition run_in (E : environment) (us : list update) : world :=
  @run Reference.runtime E us initial_world.

(** User 7 in chat 7 starts, gives the unit price 1.5 and skips the start
    date. *)
Definition onboarding : list update :=
  [CommandStart 7 7; TextMessage 7 7 "1.5"; TextMessage 7 7 "skip"].

(** Then adds a pack and presses "Smoked More". *)
Definition awaiting_quantity : world :=
  run_in in_june (onboarding ++ [CallbackQuery 7 7 "ADD_PACK";
                                 CallbackQuery 7 7 "SMOKE_MORE"]).

(** Or adds a pack, presses "Change Price" and then "Smoked More". *)
Definition awaiting_both : world :=
  run_in in_june (onboarding ++ [CallbackQuery 7 7 "ADD_PACK";
                                 CallbackQuery 7 7 "CHANGE_PRICE";
                                 CallbackQuery 7 7 "SMOKE_MORE"]).

(** Or smokes three, one by one, out of a pack. *)
Definition three_smoked : world :=
  run_in in_june (onboarding ++ [CallbackQuery 7 7 "ADD_PACK";
                                 CallbackQuery 7 7 "SMOKE_ONE";
                                 CallbackQuery 7 7 "SMOKE_ONE";
                                 CallbackQuery 7 7 "SMOKE_ONE"]).

(** The events behind the usage rows of [three_smoked]. *)
Definition three_events : list usage_event :=
  [mkevent 1 7 june_15 1 1.5%float; mkevent 2 7 june_15 1 1.5%float;
   mkevent 3 7 june_15 1 1.5%float].

(** User 7 starts and gives a start date in the future. *)
Definition future_start : world :=
  run_in in_june [CommandStart 7 7; TextMessage 7 7 "1.5"; TextMessage 7 7 "2099-01-01"].

(** User 7 starts and answers "nan" to the question of the unit price. *)
Definition nan_price : world :=
  run_in in_december [CommandStart 7 7; TextMessage 7 7 "nan"].

(** User 7 starts, gives the unit price "inf", skips the start date, adds a
    cigarette and smokes it, on December 31. *)
Definition infinite_price : world :=
  run_in in_december [CommandStart 7 7; TextMessage 7 7 "inf"; TextMessage 7 7 "skip";
                      CallbackQuery 7 7 "ADD_CIG"; CallbackQuery 7 7 "SMOKE_ONE"].

(** The forecast of the dashboard last sent or edited. *)
Definition last_forecast (w : world) : option float :=
  match last (outbox w) with
  | Some (SendMessage _ (DashboardText d)) => Some (shown_forecast d)
  | Some (EditMessageText _ _ (DashboardText d) _) => Some (shown_forecast d)
  | _ => None
  end.

(** User 7 has been asked for a unit price in chat 7. *)
Definition asked_price : world := run_in in_june [CommandStart 7 7].

End Examples.

(** ** Further specification-side definitions *)

Module Coverage.

(** A clock whose every reading is a valid instant after the first week of
    year 1, so that [now - timedelta(days=7)] never raises. *)
Definition sane_clock (E : environment) : Prop :=
  forall n, datetime_valid (clock E n) = true /\ 7 < toordinal (dt_date (clock E n)).

(** Two states that differ at most in the number of clock readings. *)
Definition quiet (w w1 : world) : Prop :=
  users w1 = users w /\ usage w1 = usage w /\ user_data w1 = user_data w
  /\ conversations w1 = conversations w /\ outbox w1 = outbox w
  /\ sends w1 = sends w /\ edit_attempts w1 = edit_attempts w.

(** A computation that returns, having at most read the clock. *)
Definition returns_quietly {A} (m : M A) : Prop :=
  forall w, exists a w1, m w = (Ok a, w1) /\ quiet w w1.

(** The row with its dashboard reference replaced. *)
Definition with_dashboard_id (message_id : Z) (r : user_row) : user_row :=
  mkuser (unit_price r) (stock r) (Some message_id) (start_smoking_date r).

(** The dashboard shows the stock, the unit price and the start date of the
    row. *)
Definition shows (r : user_row) (d : dashboard) : Prop :=
  shown_stock d = stock r /\ shown_unit_price d = unit_price r
  /\ shown_start_date d = start_smoking_date r.

(** No dashboard is among the calls on the transport. *)
Definition is_dashboard_call (o : outbound) : bool :=
  match o with
  | SendMessage _ (DashboardText _) => true
  | EditMessageText _ _ (DashboardText _) _ => true
  | _ => false
  end.

(** The dashboard a call on the transport carries, and the dashboard of the
    last call. *)
Definition dashboard_of_call (o : outbound) : option dashboard :=
  match o with
  | SendMessage _ (DashboardText d) => Some d
  | EditMessageText _ _ (DashboardText d) _ => Some d
  | _ => None
  end.

Definition last_shown (w : world) : option dashboard :=
  match last (outbox w) with
  | Some o => dashboard_of_call o
  | None => None
  end.

(** What the start-date step stores for an answer it accepts: nothing for
    "skip", the ISO form of the date it parses otherwise. *)
Definition accepted_start_date `{PyRuntime} (message_text : string)
  : option (option string) :=
  let text := str_lower (str_strip message_text) in
  if String.eqb text "skip" then Some None
  else match strptime_ymd text with
       | Some dt => Some (Some (date_isoformat dt))
       | None => None
       end.

(** The row after the start-date step has accepted an answer. *)
Definition with_start_date (answer : option string) (r : user_row) : user_row :=
  match answer with
  | Some s => mkuser (unit_price r) (stock r) (dashboard_message_id r) (Some s)
  | None => r
  end.

(** The user and the chat of an update. *)
Definition update_user (upd : update) : Z :=
  match upd with
  | CommandStart u _ | CommandCancel u _ | TextMessage u _ _ | CallbackQuery u _ _ => u
  end.

Definition update_chat (upd : update) : Z :=
  match upd with
  | CommandStart _ c | CommandCancel _ c | TextMessage _ c _ | CallbackQuery _ c _ => c
  end.

(** The number of cigarettes a button adds to the stock. *)
Definition added_by (upd : update) : option Z :=
  match upd with
  | CallbackQuery _ _ data =>
    if String.eqb data "ADD_PACK" then Some 20
    else if String.eqb data "ADD_CIG" then Some 1
    else None
  | _ => None
  end.

(** What a handler that acts for [actor] may change without notice: the
    dashboard reference of the actor, the calls on the transport and the
    counters of the environment.  The rest is observed here. *)
Definition stored (actor : Z) (w : world)
  : gmap Z user_row
    * (gmap Z (float * Z * option string) * list usage_row
       * gmap Z (gmap string bool) * gmap (Z * Z) conversation_state) :=
  (delete actor (users w), persisted w).

(** The cigarettes a user has recorded as smoked, and the cigarettes the
    user has had in all: those in stock and those smoked. *)
Definition consumed (u : Z) (w : world) : Z :=
  fold_right Z.add 0
    (map quantity (List.filter (fun row => Z.eqb (usage_user_id row) u) (usage w))).

Definition accounted (u : Z) (w : world) : Z :=
  match users w !! u with Some r => stock r | None => 0 end + consumed u w.

(** What belongs to the user [v]: the profile, the flags, the usage rows and
    the conversation in the chat [c]. *)
Definition belongings (v c : Z) (w : world)
  : option user_row * option (gmap string bool) * list usage_row
    * option conversation_state :=
  (users w !! v, user_data w !! v,
   List.filter (fun row => Z.eqb (usage_user_id row) v) (usage w),
   conversations w !! (c, v)).

(** A step from a state with the property leads to a state with it. *)
Definition keeps (I : world -> Prop) : relation world :=
  fun w w' => I w -> I w'.

(** A pending flag belongs to a user with a profile. *)
Definition flags_have_profile (w : world) : Prop :=
  forall u k, flag_set u k w = true -> is_Some (users w !! u).

(** No stored unit price passes the test [price <= 0]. *)
Definition prices_pass_guard (w : world) : Prop :=
  all_rows (fun r => le0 (unit_price r) = false) w.

(** The usage rows are numbered 1, 2, ... in the order of the table, each
    records at least one cigarette, and each belongs to a user with a
    profile. *)
Definition usage_sound (w : world) : Prop :=
  map usage_id (usage w) = map Z.of_nat (seq 1 (length (usage w)))
  /\ Forall (fun row => 1 <= quantity row /\ is_Some (users w !! usage_user_id row))
            (usage w).

(** A call on the transport that concerns the chat [c]; the acknowledgement
    of a button names no chat. *)
Definition addressed_to (c : Z) (o : outbound) : Prop :=
  match o with
  | SendMessage c' _ => c' = c
  | EditMessageText c' _ _ _ => c' = c
  | AnswerCallbackQuery => True
  end.

(** The messages sent among the calls, each with the identifier the
    transport gave it, when [k] messages were sent before. *)
Fixpoint sent_from (E : environment) (k : nat) (o : list outbound)
  : list (Z * Z * message_text) :=
  match o with
  | [] => []
  | SendMessage c t :: o' => (message_ids E k, c, t) :: sent_from E (S k) o'
  | _ :: o' => sent_from E k o'
  end.

Fixpoint count_sends (o : list outbound) : nat :=
  match o with
  | [] => O
  | SendMessage _ _ :: o' => S (count_sends o')
  | _ :: o' => count_sends o'
  end.

(** Every stored dashboard reference is the identifier of a dashboard that
    was sent. *)
Definition references_sent (E : environment) (w : world) : Prop :=
  sends w = count_sends (outbox w)
  /\ forall u r i,
       users w !! u = Some r -> dashboard_message_id r = Some i ->
       exists c d, In (i, c, DashboardText d) (sent_from E 0 (outbox w)).

End Coverage.

Import Coverage.

(** ** Further runs *)

Module Scenarios.

Import Examples.

(** User 7 in chat 7 after the onboarding, and after one pack more. *)
Definition onboarded : world := run_in in_june onboarding.

Definition with_pack : world :=
  run_in in_june (onboarding ++ [CallbackQuery 7 7 "ADD_PACK"]).

(** User 7 at the start-date step. *)
Definition asked_date : world :=
  run_in in_june [CommandStart 7 7; TextMessage 7 7 "1.5"].

(** User 7 starts in the chats 7 and 8 and gives the price in chat 7: chat 8
    is still at the price step. *)
Definition two_chats : world :=
  run_in in_june [CommandStart 7 7; CommandStart 7 8; TextMessage 7 7 "1.5"].

(** The environment of [in_june] with a transport that refuses every edit. *)
Definition edits_fail : environment :=
  mkenv (fun _ => june_15) (fun n => Z.of_nat (S n)) (fun _ => false).

(** The profile of user 7 after the onboarding. *)
Definition profile_7 : user_row := mkuser 1.5%float 0 (Some 3) None.

(** User 7 starts, answers "nan" to the question of the unit price, leaves
    the onboarding with /cancel, adds a pack and presses "Smoked More". *)
Definition null_price_smoker : world :=
  run_in in_june [CommandStart 7 7; TextMessage 7 7 "nan"; CommandCancel 7 7;
                  CallbackQuery 7 7 "ADD_PACK"; CallbackQuery 7 7 "SMOKE_MORE"].

End Scenarios.

(** * Properties *)

(** ** Effects of computations on the state *)

Section Effects.

#[global] Instance same_on_refl {A} (obs : world -> A) : Reflexive (same_on obs).
Proof. intros w. reflexivity. Qed.

#[global] Instance same_on_trans {A} (obs : world -> A) : Transitive (same_on obs).
Proof. intros a b c Hab Hbc. unfold same_on in *. congruence. Qed.

Lemma exec_bind {A B} (m : M A) (k : A -> M B) w :
  exec (bind m k) w =
  match m w with
  | (Ok a, w1) => exec (k a) w1
  | (Raised e, w1) => w1
  end.
Proof. unfold exec, bind. destruct (m w) as [[a|e] w1]; reflexivity. Qed.

Lemma respects_ret {A} (R : relation world) `{!Reflexive R} (a : A) :
  respects R (ret a).
Proof. intros w. unfold exec, ret. simpl. reflexivity. Qed.

Lemma respects_raise {A} (R : relation world) `{!Reflexive R} (e : exn) :
  respects R (@raise A e).
Proof. intros w. unfold exec, raise. simpl. reflexivity. Qed.

Lemma respects_gets {A} (R : relation world) `{!Reflexive R} (f : world -> A) :
  respects R (gets f).
Proof. intros w. unfold exec, gets. simpl. reflexivity. Qed.

Lemma respects_bind {A B} (R : relation world) `{!Transitive R}
      (m : M A) (k : A -> M B) :
  respects R m -> (forall a, respects R (k a)) -> respects R (bind m k).
Proof.
  intros Hm Hk w. specialize (Hm w). rewrite exec_bind. unfold exec in Hm.
  destruct (m w) as [[a|e] w1]; simpl in Hm.
  - transitivity w1; [exact Hm | apply Hk].
  - exact Hm.
Qed.

(** After a read the continuation runs in the state that was read. *)
Lemma respects_bind_gets {A B} (R : relation world) (f : world -> A) (k : A -> M B) :
  (forall w, R w (exec (k (f w)) w)) -> respects R (bind (gets f) k).
Proof. intros Hk w. apply Hk. Qed.

Lemma respects_weaken {A} (R R' : relation world) (m : M A) :
  (forall w w', R w w' -> R' w w') -> respects R m -> respects R' m.
Proof. intros HR Hm w. apply HR, Hm. Qed.

Lemma same_on_coarser {A B} (obs : world -> A) (obs' : world -> B) (g : A -> B) w w' :
  (forall x, obs' x = g (obs x)) -> same_on obs w w' -> same_on obs' w w'.
Proof. unfold same_on. intros Hg Hw. rewrite !Hg. by f_equal. Qed.

Lemma fmap_alter_same {A B} (f : A -> B) (g : A -> A) (k : Z) (m : gmap Z A) :
  (forall a, f (g a) = f a) -> f <$> alter g k m = f <$> m.
Proof.
  intros Hfg. apply map_eq. intros i. rewrite !lookup_fmap.
  destruct (decide (k = i)) as [->|Hne].
  - rewrite lookup_alter_eq. destruct (m !! i); simpl; [by rewrite Hfg | done].
  - by rewrite lookup_alter_ne.
Qed.

Lemma data_persisted w w' : same_on data w w' -> same_on persisted w w'.
Proof.
  apply (same_on_coarser data persisted
           (fun '(u, g, d, c, _) => (profile_of <$> u, g, d, c))).
  reflexivity.
Qed.

Lemma persisted_records w w' : same_on persisted w w' -> same_on records w w'.
Proof.
  apply (same_on_coarser persisted records (fun '(u, g, _, _) => (u, g))).
  reflexivity.
Qed.


Lemma records_lookup w w' u :
  same_on records w w' ->
  profile_of <$> (users w' !! u) = profile_of <$> (users w !! u).
Proof.
  unfold same_on, records. intros Hr. injection Hr as Hu _.
  by rewrite <- !lookup_fmap, Hu.
Qed.

Lemma records_usage w w' : same_on records w w' -> usage w' = usage w.
Proof. unfold same_on, records. intros Hr. by injection Hr. Qed.

End Effects.

(** ** What the aggregation helpers and the dashboard leave unchanged *)

Section Frames.

Context `{PyRuntime} (E : environment).

Ltac frame_step R :=
  first
    [ apply (respects_ret R)
    | apply (respects_raise R)
    | apply (respects_gets R)
    | apply (respects_bind R) ].

Lemma datetime_now_data : respects (same_on data) (datetime_now E).
Proof. intros w. reflexivity. Qed.

Lemma date_today_data : respects (same_on data) (date_today E).
Proof.
  unfold date_today. frame_step (same_on data); [apply datetime_now_data|].
  intros now. frame_step (same_on data).
Qed.

Lemma aggregate_usage_data u a b : respects (same_on data) (_aggregate_usage u a b).
Proof. apply respects_gets. typeclasses eauto. Qed.

Lemma get_aggregates_data u : respects (same_on data) (get_aggregates E u).
Proof.
  unfold get_aggregates. frame_step (same_on data); [apply datetime_now_data|].
  intros now. destruct (minus_timedelta_days 7 now); [|frame_step (same_on data)].
  repeat (frame_step (same_on data); [apply aggregate_usage_data | intros ?]).
  frame_step (same_on data).
Qed.

Lemma calculate_forecast_data c : respects (same_on data) (calculate_forecast E c).
Proof.
  unfold calculate_forecast. destruct (le0 c); [frame_step (same_on data)|].
  frame_step (same_on data); [apply date_today_data|].
  intros today. frame_step (same_on data).
Qed.

Lemma theoretical_spent_since_start_data u s :
  respects (same_on data) (theoretical_spent_since_start E u s).
Proof.
  unfold theoretical_spent_since_start.
  destruct s as [s|]; [|frame_step (same_on data)].
  destruct (falsy (Some s)); [frame_step (same_on data)|].
  destruct (strptime_ymd s); [|frame_step (same_on data)].
  frame_step (same_on data); [apply get_aggregates_data|].
  intros aggr. frame_step (same_on data); [apply date_today_data|].
  intros today. destruct (date_gtb _ today); frame_step (same_on data).
Qed.

Lemma send_message_persisted c t : respects (same_on persisted) (send_message E c t).
Proof. intros w. reflexivity. Qed.

Lemma edit_message_text_persisted c i t :
  respects (same_on persisted) (edit_message_text E c i t).
Proof. intros w. reflexivity. Qed.

Lemma update_dashboard_message_id_persisted u i :
  respects (same_on persisted) (update_dashboard_message_id u i).
Proof.
  intros w. unfold same_on, persisted, exec, update_dashboard_message_id, modify, with_users.
  simpl. rewrite fmap_alter_same; [done | by intros []].
Qed.

(** Refreshing the dashboard changes no profile (only the reference to the
    dashboard message), no usage row, no flag and no conversation. *)
Lemma update_dashboard_persisted u c b :
  respects (same_on persisted) (update_dashboard E u c b).
Proof.
  unfold update_dashboard.
  frame_step (same_on persisted); [frame_step (same_on persisted)|].
  intros [r|]; [|frame_step (same_on persisted)].
  frame_step (same_on persisted);
    [eapply respects_weaken; [apply data_persisted | apply get_aggregates_data]|].
  intros aggr. frame_step (same_on persisted);
    [eapply respects_weaken; [apply data_persisted | apply calculate_forecast_data]|].
  intros forecast_val. frame_step (same_on persisted);
    [eapply respects_weaken;
       [apply data_persisted | apply theoretical_spent_since_start_data]|].
  intros theoretical_total.
  assert (Hsend : forall t, respects (same_on persisted)
            (msg_id <- send_message E c t ;; update_dashboard_message_id u msg_id)).
  { intros t. frame_step (same_on persisted); [apply send_message_persisted|].
    intros msg_id. apply update_dashboard_message_id_persisted. }
  destruct (PrimFloat.is_nan (unit_price r)); [frame_step (same_on persisted)|].
  destruct b; [apply Hsend|].
  destruct (dashboard_message_id r); [|apply Hsend].
  frame_step (same_on persisted); [apply edit_message_text_persisted|].
  intros [|]; [frame_step (same_on persisted) | apply Hsend].
Qed.

Lemma update_dashboard_records u c b :
  respects (same_on records) (update_dashboard E u c b).
Proof.
  eapply respects_weaken; [apply persisted_records | apply update_dashboard_persisted].
Qed.

End Frames.

(** ** Invariants of the profiles *)

Section RowInvariant.

Context `{PyRuntime} (E : environment).

(** A property of profiles that does not depend on the dashboard reference,
    holds of a new profile, and is kept by a new price, by adding to the
    stock, by setting the stock to a value that is not negative, and by a
    start date that is the ISO form of a valid date. *)
Variable P : user_row -> Prop.
Hypothesis P_profile : forall r r', profile_of r = profile_of r' -> P r -> P r'.
Hypothesis P_new : forall price, P (mkuser price 0 None None).
Hypothesis P_price : forall r price,
    P r -> P (mkuser price (stock r) (dashboard_message_id r) (start_smoking_date r)).
Hypothesis P_add : forall r n,
    0 <= n ->
    P r -> P (mkuser (unit_price r) (stock r + n) (dashboard_message_id r)
                     (start_smoking_date r)).
Hypothesis P_set : forall r n,
    0 <= n ->
    P r -> P (mkuser (unit_price r) n (dashboard_message_id r) (start_smoking_date r)).
Hypothesis P_start : forall r d,
    date_valid d = true ->
    P r -> P (mkuser (unit_price r) (stock r) (dashboard_message_id r)
                     (Some (date_isoformat d))).

#[local] Instance keeps_rows_refl : Reflexive (keeps_rows P).
Proof. intros w Hw. exact Hw. Qed.

#[local] Instance keeps_rows_trans : Transitive (keeps_rows P).
Proof. intros a b c Hab Hbc Ha. apply Hbc, Hab, Ha. Qed.

Lemma records_keeps_rows w w' : same_on records w w' -> keeps_rows P w w'.
Proof.
  intros Hrec Hw u r Hr.
  pose proof (records_lookup _ _ u Hrec) as Hu. rewrite Hr in Hu. simpl in Hu.
  destruct (users w !! u) as [r0|] eqn:Er0; simpl in Hu; [|discriminate].
  apply (P_profile r0 r); [unfold profile_of in *; congruence | exact (Hw _ _ Er0)].
Qed.

Lemma alter_keeps_rows (g : user_row -> user_row) u :
  (forall r, P r -> P (g r)) ->
  respects (keeps_rows P) (modify (with_users (alter g u))).
Proof.
  intros Hg w Hw v r. unfold exec, modify, with_users. simpl.
  destruct (decide (u = v)) as [->|Hne].
  - rewrite lookup_alter_eq.
    destruct (users w !! v) as [r0|] eqn:Er0; simpl; [|discriminate].
    intros [= <-]. apply Hg. exact (Hw _ _ Er0).
  - rewrite lookup_alter_ne by done. apply Hw.
Qed.

Lemma create_user_rows u p : respects (keeps_rows P) (create_user u p).
Proof.
  unfold create_user, get_user. apply respects_bind_gets. intros w.
  destruct (users w !! u) eqn:Eu; [reflexivity|].
  intros Hw v r. unfold exec, modify, with_users. simpl.
  destruct (decide (u = v)) as [->|Hne].
  - rewrite lookup_insert_eq. intros [= <-]. apply P_new.
  - rewrite lookup_insert_ne by done. apply Hw.
Qed.

Lemma same_users_rows (f : world -> world) :
  (forall w, users (f w) = users w) -> respects (keeps_rows P) (modify f).
Proof. intros Hf w Hw v r. unfold exec, modify. simpl. rewrite Hf. apply Hw. Qed.

Lemma log_smoke_event_rows u q c : respects (keeps_rows P) (log_smoke_event E u q c).
Proof. intros w Hw. exact Hw. Qed.

Lemma send_message_rows c t : respects (keeps_rows P) (send_message E c t).
Proof. intros w Hw. exact Hw. Qed.

Lemma update_dashboard_rows u c b : respects (keeps_rows P) (update_dashboard E u c b).
Proof.
  eapply respects_weaken; [apply records_keeps_rows | apply update_dashboard_records].
Qed.

Lemma update_user_price_rows u p : respects (keeps_rows P) (update_user_price u p).
Proof. apply alter_keeps_rows. intros r. apply P_price. Qed.

Lemma update_user_stock_add_rows u r n :
  0 <= n ->
  forall w, users w !! u = Some r ->
            keeps_rows P w (exec (update_user_stock u (stock r + n)) w).
Proof.
  intros Hn w Hr Hw v r'. unfold exec, update_user_stock, modify, with_users. simpl.
  destruct (decide (u = v)) as [->|Hne].
  - rewrite lookup_alter_eq, Hr. simpl. intros [= <-].
    apply (P_add r n Hn). exact (Hw _ _ Hr).
  - rewrite lookup_alter_ne by done. apply Hw.
Qed.

Lemma update_user_stock_set_rows u n :
  0 <= n -> respects (keeps_rows P) (update_user_stock u n).
Proof. intros Hn. apply alter_keeps_rows. intros r. by apply P_set. Qed.

Lemma update_user_start_date_rows u d :
  date_valid d = true ->
  respects (keeps_rows P) (update_user_start_date u (date_isoformat d)).
Proof. intros Hd. apply alter_keeps_rows. intros r. by apply P_start. Qed.

Ltac rows_step :=
  first
    [ apply (respects_ret (keeps_rows P))
    | apply update_dashboard_rows
    | apply send_message_rows
    | apply log_smoke_event_rows
    | apply create_user_rows
    | apply update_user_price_rows
    | apply same_users_rows; intros; reflexivity
    | apply (respects_gets (keeps_rows P))
    | apply (respects_bind (keeps_rows P)); [ | intros ? ] ].

(** In the state [w], where the property holds, run a computation that
    keeps it. *)
Ltac rows_from w :=
  match goal with
  | |- all_rows P w -> all_rows P (exec ?m w) =>
    let Hm := fresh "Hm" in
    enough (Hm : respects (keeps_rows P) m) by exact (Hm w)
  end.

Lemma start_rows u c : respects (keeps_rows P) (start E u c).
Proof.
  unfold start, get_user. apply (respects_bind (keeps_rows P)); [rows_step|].
  intros [r|]; repeat rows_step.
Qed.

Lemma ask_unit_price_rows u c t : respects (keeps_rows P) (ask_unit_price E u c t).
Proof.
  unfold ask_unit_price. destruct (py_float _) as [p|]; [destruct (le0 p)|];
    repeat rows_step.
Qed.

Lemma make_date_valid y m d r : make_date y m d = Some r -> date_valid r = true.
Proof.
  unfold make_date. destruct (date_valid (mkdate y m d)) eqn:Ev; [|discriminate].
  by intros [= <-].
Qed.

Lemma strptime_ymd_valid s d : strptime_ymd s = Some d -> date_valid d = true.
Proof.
  unfold strptime_ymd. destruct (strptime_fields s) as [[[y m] dd]|]; [|discriminate].
  apply make_date_valid.
Qed.

(** The only write of a start date: the ISO form of the date that
    [strptime] and the [date] constructor accepted. *)
Lemma ask_start_date_rows u c t : respects (keeps_rows P) (ask_start_date E u c t).
Proof.
  unfold ask_start_date.
  destruct (String.eqb _ _); [repeat rows_step|].
  destruct (strptime_ymd _) as [d|] eqn:Ed; [|repeat rows_step].
  apply strptime_ymd_valid in Ed.
  apply (respects_bind (keeps_rows P)); [by apply update_user_start_date_rows|].
  intros _. repeat rows_step.
Qed.

Lemma cancel_rows u : respects (keeps_rows P) (cancel u).
Proof. unfold cancel, user_data_pop. repeat rows_step. Qed.

(** Every write of a stock by a button: [stock + 20], [stock + 1], and
    [stock - 1] under the guard [stock > 0]. *)
Lemma menu_callback_rows u c d : respects (keeps_rows P) (menu_callback E u c d).
Proof.
  unfold menu_callback, answer_callback_query, get_user, user_data_set.
  apply (respects_bind (keeps_rows P)); [rows_step|]. intros _.
  apply respects_bind_gets. intros w Hw.
  destruct (users w !! u) as [r|] eqn:Er; [|exact Hw].
  revert Hw.
  repeat match goal with
         | |- context [if String.eqb ?a ?b then _ else _] => destruct (String.eqb a b)
         end.
  - intros Hw. rewrite exec_bind. unfold update_user_stock at 1, modify at 1.
    apply update_dashboard_rows.
    by apply (update_user_stock_add_rows u r 20 ltac:(lia) w Er).
  - intros Hw. rewrite exec_bind. unfold update_user_stock at 1, modify at 1.
    apply update_dashboard_rows.
    by apply (update_user_stock_add_rows u r 1 ltac:(lia) w Er).
  - rows_from w. rows_step; [|rows_step].
    destruct (0 <? stock r) eqn:Epos; [|rows_step].
    apply Z.ltb_lt in Epos.
    rows_step; [apply update_user_stock_set_rows; lia | rows_step].
  - rows_from w. rows_step.
  - rows_from w. rows_step.
  - rows_from w. rows_step.
Qed.

(** The write of a stock by a text: [stock - qty] under the guard
    [qty > 0 and qty <= stock]. *)
Lemma handle_text_message_rows u c t :
  respects (keeps_rows P) (handle_text_message E u c t).
Proof.
  unfold handle_text_message, user_data_get, user_data_pop, get_user.
  apply (respects_bind (keeps_rows P)); [rows_step|].
  intros [|].
  - rows_step; [|repeat rows_step].
    destruct (py_float _) as [p|]; [destruct (gt0 p)|]; repeat rows_step.
  - apply (respects_bind (keeps_rows P)); [rows_step|].
    intros [|]; [|rows_step].
    apply respects_bind_gets. intros w Hw.
    destruct (users w !! u) as [r|] eqn:Er; [|exact Hw].
    revert Hw. rows_from w.
    rows_step; [|repeat rows_step].
    destruct (py_int _) as [q|]; [|rows_step].
    destruct ((0 <? q) && (q <=? stock r)) eqn:Eq; [|rows_step].
    apply andb_true_iff in Eq as [Hq1 Hq2].
    apply Z.ltb_lt in Hq1. apply Z.leb_le in Hq2.
    rows_step; [apply update_user_stock_set_rows; lia|].
    destruct (PrimFloat.is_nan _); [apply (respects_raise (keeps_rows P)) | rows_step].
Qed.

Lemma run_conversation_rows c u (cb : M conversation_state) :
  respects (keeps_rows P) cb -> respects (keeps_rows P) (run_conversation c u cb).
Proof.
  intros Hcb w Hw. specialize (Hcb w Hw). unfold exec, run_conversation in *.
  destruct (cb w) as [[[| |]|e] w1]; simpl in *; exact Hcb.
Qed.

Lemma process_update_rows upd : respects (keeps_rows P) (process_update E upd).
Proof.
  destruct upd as [u c|u c|u c t|u c d]; simpl.
  - apply run_conversation_rows, start_rows.
  - apply (respects_bind (keeps_rows P)); [rows_step|].
    intros [s|]; [apply run_conversation_rows, cancel_rows | rows_step].
  - apply (respects_bind (keeps_rows P)); [rows_step|].
    intros [[| |]|].
    + apply run_conversation_rows, ask_unit_price_rows.
    + apply run_conversation_rows, ask_start_date_rows.
    + apply handle_text_message_rows.
    + apply handle_text_message_rows.
  - apply menu_callback_rows.
Qed.

(** Such a property of all profiles is kept by every update. *)
Lemma all_rows_step w upd : all_rows P w -> all_rows P (step E w upd).
Proof. apply process_update_rows. Qed.

(** It holds in every state of the running bot. *)
Lemma all_rows_reachable w : reachable E w -> all_rows P w.
Proof.
  induction 1 as [|w upd Hreach IH].
  - intros u r. unfold initial_world. simpl. by rewrite lookup_empty.
  - by apply all_rows_step.
Qed.

End RowInvariant.

Section Invariants.

Context `{PyRuntime} (E : environment).

(** C6.  From a state in which no profile has a negative stock, handling any
    update (the start and cancel commands, a text message in either
    onboarding step or after a pending flag, any button) leads to a state in
    which no profile has a negative stock: stocks are created at 0, raised by
    20 or by 1, and lowered only by an amount checked against the stock
    read. *)
Theorem stock_never_negative w upd :
  stock_nonneg w -> stock_nonneg (step E w upd).
Proof.
  apply (all_rows_step E (fun r => 0 <= stock r)); simpl; try lia.
  intros r r' Hp. unfold profile_of in Hp. injection Hp as _ Hs _. lia.
Qed.

(** C8 (as amended).  In every state of the running bot, the stored start
    date of a profile, if present, is the ISO form of a valid calendar date:
    the date that the start-date step read from the text.  Nothing compares
    it with the day it is submitted. *)
Theorem stored_start_date_is_valid_date w :
  reachable E w -> start_dates_valid w.
Proof.
  apply (all_rows_reachable E
           (fun r => forall s, start_smoking_date r = Some s ->
                               exists d, date_valid d = true /\ s = date_isoformat d));
    simpl; try (intros; assumption || discriminate || eauto; fail).
  - intros r r' Hp. unfold profile_of in Hp. injection Hp as _ _ Hs. by rewrite Hs.
  - intros r d Hd _ s [= <-]. eauto.
Qed.

End Invariants.

(** ** Consumption *)

Section Consumption.

Context `{PyRuntime} (E : environment).

(** The state in which the dashboard is refreshed after an accepted
    quantity, when the unit price read is a number. *)
Lemma handle_text_message_consume w user_id chat_id message_text q r :
  users w !! user_id = Some r ->
  PrimFloat.is_nan (unit_price r) = false ->
  flag_set user_id (awaiting_smoked_more_key user_id) w = true ->
  flag_set user_id (awaiting_new_price_key user_id) w = false ->
  py_int (str_lower (str_strip message_text)) = Some q ->
  1 <= q <= stock r ->
  exec (handle_text_message E user_id chat_id message_text) w
  = exec (update_dashboard E user_id chat_id false)
      (exec (user_data_pop user_id (awaiting_smoked_more_key user_id))
         (exec (log_smoke_event E user_id q (mul_int (unit_price r) q))
            (exec (update_user_stock user_id (stock r - q)) w))).
Proof.
  intros Hr Hnum Hmore Hprice Hq Hrange.
  unfold handle_text_message.
  rewrite exec_bind. unfold user_data_get at 1, gets at 1. rewrite Hprice.
  rewrite exec_bind. unfold user_data_get at 1, gets at 1. rewrite Hmore.
  rewrite exec_bind. unfold get_user at 1, gets at 1. rewrite Hr, Hq, Hnum.
  replace ((0 <? q) && (q <=? stock r)) with true
    by (symmetry; apply andb_true_iff; split; [apply Z.ltb_lt | apply Z.leb_le]; lia).
  reflexivity.
Qed.







End Consumption.

(** ** Buttons without a profile, and the cancel command *)

Section Dispatch.

Context `{PyRuntime} (E : environment).

Lemma menu_callback_no_profile w user_id chat_id data :
  users w !! user_id = None ->
  menu_callback E user_id chat_id data w
  = (Ok tt, with_outbox (fun o => o ++ [AnswerCallbackQuery]) w).
Proof.
  intros Hnone.
  unfold menu_callback, bind, answer_callback_query, modify, get_user, gets.
  simpl. rewrite Hnone. reflexivity.
Qed.

(** C9.  When the user has no row in [users], the press of any button (the
    five of the dashboard or any other callback data) is acknowledged and
    nothing else happens: the tables, the flags and the conversations are
    unchanged, no message is sent or edited, and the clock is not read. *)
Theorem button_without_profile w user_id chat_id data :
  users w !! user_id = None ->
  let w' := step E w (CallbackQuery user_id chat_id data) in
  users w' = users w /\ usage w' = usage w /\ user_data w' = user_data w
  /\ conversations w' = conversations w
  /\ outbox w' = outbox w ++ [AnswerCallbackQuery]
  /\ sends w' = sends w /\ edit_attempts w' = edit_attempts w
  /\ clock_reads w' = clock_reads w.
Proof.
  intros Hnone. unfold step, process_update, exec.
  rewrite (menu_callback_no_profile _ _ _ _ Hnone). simpl.
  repeat split; reflexivity.
Qed.

Lemma cancel_eq w user_id :
  cancel user_id w
  = (Ok END,
     with_user_data
       (fun ud => alter (delete (awaiting_smoked_more_key user_id)) user_id
                    (alter (delete (awaiting_new_price_key user_id)) user_id ud)) w).
Proof. reflexivity. Qed.

Lemma ask_unit_price_accepts w user_id chat_id text price :
  users w !! user_id = None ->
  py_float (str_strip text) = Some price ->
  le0 price = false ->
  ask_unit_price E user_id chat_id text w
  = (Ok ASKING_START_DATE,
     tick_sends
       (with_outbox (fun o => o ++ [SendMessage chat_id (UnitPriceSetText price)])
          (with_users (insert user_id (mkuser price 0 None None)) w))).
Proof.
  intros Hnone Hp Hle. unfold ask_unit_price. rewrite Hp, Hle.
  unfold bind, create_user, get_user, gets, bind. rewrite Hnone. reflexivity.
Qed.

Lemma ask_unit_price_rejects w user_id chat_id text :
  (forall price, py_float (str_strip text) = Some price -> le0 price = true) ->
  ask_unit_price E user_id chat_id text w
  = (Ok ASKING_UNIT_PRICE,
     tick_sends (with_outbox (fun o => o ++ [SendMessage chat_id InvalidNumberText]) w)).
Proof.
  intros Hbad. unfold ask_unit_price.
  destruct (py_float _) as [p|]; [rewrite (Hbad p eq_refl)|]; reflexivity.
Qed.

(** The price step of the onboarding, as the conversation handler runs it. *)
Lemma step_price_accepted w user_id chat_id text price :
  conversation_of chat_id user_id w = Some ASKING_UNIT_PRICE ->
  users w !! user_id = None ->
  py_float (str_strip text) = Some price ->
  le0 price = false ->
  step E w (TextMessage user_id chat_id text)
  = with_conversations (insert (chat_id, user_id) ASKING_START_DATE)
      (tick_sends
         (with_outbox (fun o => o ++ [SendMessage chat_id (UnitPriceSetText price)])
            (with_users (insert user_id (mkuser price 0 None None)) w))).
Proof.
  intros Hconv Hnone Hp Hle. unfold step, process_update. rewrite exec_bind.
  unfold gets at 1. rewrite Hconv. unfold exec, run_conversation.
  by rewrite (ask_unit_price_accepts _ _ _ _ _ Hnone Hp Hle).
Qed.

(** C10.  The cancel command pops the two pending-input flags of the user
    and changes nothing else: not the profiles, not the usage rows, nothing
    sent.  Issued after a valid price and before the start-date step is
    completed, it ends the conversation and the profile created by the price
    step stays, with that unit price, stock 0, no dashboard message and no
    start date; the usage table is the one from before the price step. *)
Theorem cancel_only_clears_flags :
  (forall w user_id,
      let w' := exec (cancel user_id) w in
      users w' = users w /\ usage w' = usage w
      /\ conversations w' = conversations w /\ outbox w' = outbox w
      /\ user_data w'
         = alter (fun d => delete (awaiting_smoked_more_key user_id)
                             (delete (awaiting_new_price_key user_id) d))
                 user_id (user_data w))
  /\ (forall w user_id chat_id text price,
         conversation_of chat_id user_id w = Some ASKING_UNIT_PRICE ->
         users w !! user_id = None ->
         py_float (str_strip text) = Some price ->
         le0 price = false ->
         let w1 := step E w (TextMessage user_id chat_id text) in
         let w2 := step E w1 (CommandCancel user_id chat_id) in
         conversation_of chat_id user_id w1 = Some ASKING_START_DATE
         /\ conversation_of chat_id user_id w2 = None
         /\ users w2 !! user_id = Some (mkuser price 0 None None)
         /\ usage w2 = usage w).
Proof.
  split.
  - intros w u. unfold exec. rewrite cancel_eq. simpl.
    repeat split. by rewrite alter_alter_eq.
  - intros w u c t p Hconv Hnone Hp Hle w1 w2.
    pose proof (step_price_accepted _ _ _ _ _ Hconv Hnone Hp Hle) as Hw1.
    fold w1 in Hw1.
    assert (Hc1 : conversation_of c u w1 = Some ASKING_START_DATE).
    { rewrite Hw1. unfold conversation_of. simpl. by rewrite lookup_insert_eq. }
    split; [exact Hc1|].
    assert (Hw2 : w2 = with_conversations (delete (c, u))
              (with_user_data
                 (fun ud => alter (delete (awaiting_smoked_more_key u)) u
                              (alter (delete (awaiting_new_price_key u)) u ud)) w1)).
    { subst w2. unfold step, process_update. rewrite exec_bind.
      unfold gets at 1. rewrite Hc1. unfold exec, run_conversation.
      by rewrite cancel_eq. }
    rewrite Hw2, Hw1. simpl.
    split; [|split].
    + unfold conversation_of. simpl. by rewrite lookup_delete_eq.
    + by rewrite lookup_insert_eq.
    + reflexivity.
Qed.

End Dispatch.

(** ** Calendar arithmetic *)

Section CalendarFacts.

Lemma days_before_year_succ y :
  days_before_year (y + 1) = days_before_year y + (if is_leap y then 366 else 365).
Proof.
  unfold days_before_year, is_leap.
  replace (y + 1 - 1) with y by lia.
  destruct (Z.eqb_spec (y mod 4) 0) as [H4|H4];
    destruct (Z.eqb_spec (y mod 100) 0) as [H100|H100];
    destruct (Z.eqb_spec (y mod 400) 0) as [H400|H400]; simpl;
    Z.div_mod_to_equations; lia.
Qed.

Lemma days_before_year_mono y y' : y <= y' -> days_before_year y <= days_before_year y'.
Proof. unfold days_before_year. intros Hy. Z.div_mod_to_equations. lia. Qed.

Lemma valid_fields d :
  date_valid d = true ->
  1 <= year d <= 9999 /\ 1 <= month d <= 12
  /\ 1 <= day d <= days_in_month (year d) (month d).
Proof.
  unfold date_valid, MINYEAR, MAXYEAR. rewrite !andb_true_iff, !Z.leb_le. lia.
Qed.

Lemma valid_intro y m d :
  1 <= y <= 9999 -> 1 <= m <= 12 -> 1 <= d <= days_in_month y m ->
  date_valid (mkdate y m d) = true.
Proof.
  unfold date_valid, MINYEAR, MAXYEAR. simpl. rewrite !andb_true_iff, !Z.leb_le. lia.
Qed.

Ltac month_cases m :=
  let Hm := fresh "Hm" in
  assert (Hm : m = 1 \/ m = 2 \/ m = 3 \/ m = 4 \/ m = 5 \/ m = 6 \/ m = 7
               \/ m = 8 \/ m = 9 \/ m = 10 \/ m = 11 \/ m = 12) by lia;
  repeat (destruct Hm as [Hm|Hm]; [subst m|]); [..|subst m].

Lemma days_in_month_bounds y m :
  1 <= m <= 12 -> 28 <= days_in_month y m <= 31.
Proof.
  intros Hm. unfold days_in_month. month_cases m; simpl; destruct (is_leap y); simpl; lia.
Qed.

Lemma days_before_month_succ y m :
  1 <= m <= 11 -> days_before_month y (m + 1) = days_before_month y m + days_in_month y m.
Proof.
  intros Hm. unfold days_before_month, days_in_month.
  month_cases m; try lia; simpl; destruct (is_leap y); simpl; lia.
Qed.

Lemma days_before_month_december y :
  days_before_month y 12 + 31 = if is_leap y then 366 else 365.
Proof. unfold days_before_month. simpl. destruct (is_leap y); lia. Qed.

Lemma days_before_month_mono y m m' :
  1 <= m -> m < m' -> m' <= 12 ->
  days_before_month y m + days_in_month y m <= days_before_month y m'.
Proof.
  intros H1 H2 H3. unfold days_before_month, days_in_month.
  month_cases m; try lia; month_cases m'; try lia; simpl; destruct (is_leap y); simpl; lia.
Qed.

Lemma toordinal_next_day d :
  date_valid d = true -> toordinal (next_day d) = toordinal d + 1.
Proof.
  intros Hv. apply valid_fields in Hv as (Hy & Hm & Hd).
  destruct d as [y m dd]. simpl in *. unfold next_day, toordinal, ymd2ord. simpl.
  destruct (Z.ltb_spec dd (days_in_month y m)); simpl; [lia|].
  destruct (Z.ltb_spec m 12); simpl.
  - rewrite days_before_month_succ by lia. lia.
  - assert (m = 12) by lia. subst m.
    assert (dd = 31) by (unfold days_in_month in *; simpl in *; lia). subst dd.
    rewrite days_before_year_succ.
    pose proof (days_before_month_december y). unfold days_before_month at 1. simpl. lia.
Qed.

Lemma next_day_valid d :
  date_valid d = true -> d <> mkdate 9999 12 31 -> date_valid (next_day d) = true.
Proof.
  intros Hv Hmax. apply valid_fields in Hv as (Hy & Hm & Hd).
  destruct d as [y m dd]. simpl in *. unfold next_day. simpl.
  destruct (Z.ltb_spec dd (days_in_month y m)); simpl; [apply valid_intro; lia|].
  destruct (Z.ltb_spec m 12); simpl.
  - apply valid_intro; try lia. pose proof (days_in_month_bounds y (m + 1)). lia.
  - assert (m = 12) by lia. subst m.
    assert (dd = 31) by (unfold days_in_month in *; simpl in *; lia). subst dd.
    assert (y <> 9999) by congruence.
    apply valid_intro; try lia. unfold days_in_month. simpl. lia.
Qed.

Lemma day_of_year_bounds y m dd :
  1 <= m <= 12 -> 1 <= dd <= days_in_month y m ->
  1 <= days_before_month y m + dd <= (if is_leap y then 366 else 365).
Proof.
  intros Hm Hd. unfold days_before_month, days_in_month in *.
  month_cases m; simpl in *; destruct (is_leap y); simpl in *; lia.
Qed.

Lemma date_compare_toordinal a b :
  date_valid a = true -> date_valid b = true ->
  date_compare a b = (toordinal a ?= toordinal b).
Proof.
  intros Ha Hb. apply valid_fields in Ha as (Hya & Hma & Hda).
  apply valid_fields in Hb as (Hyb & Hmb & Hdb).
  destruct a as [ya ma da], b as [yb mb db]. simpl in *.
  unfold date_compare, toordinal, ymd2ord. simpl.
  pose proof (day_of_year_bounds ya ma da Hma Hda) as Ba.
  pose proof (day_of_year_bounds yb mb db Hmb Hdb) as Bb.
  destruct (Z.compare_spec ya yb) as [Ey|Ly|Ly].
  - subst yb. destruct (Z.compare_spec ma mb) as [Em|Lm|Lm].
    + subst mb. destruct (Z.compare_spec da db); symmetry;
        [apply Z.compare_eq_iff | apply Z.compare_lt_iff | apply Z.compare_gt_iff]; lia.
    + symmetry. apply Z.compare_lt_iff.
      pose proof (days_before_month_mono ya ma mb). lia.
    + symmetry. apply Z.compare_gt_iff.
      pose proof (days_before_month_mono ya mb ma). lia.
  - symmetry. apply Z.compare_lt_iff.
    pose proof (days_before_year_succ ya).
    pose proof (days_before_year_mono (ya + 1) yb). lia.
  - symmetry. apply Z.compare_gt_iff.
    pose proof (days_before_year_succ yb).
    pose proof (days_before_year_mono (yb + 1) ya). lia.
Qed.

Lemma date_compare_eq a b : date_compare a b = Eq -> a = b.
Proof.
  destruct a as [ya ma da], b as [yb mb db]. unfold date_compare. simpl.
  destruct (Z.compare_spec ya yb); try discriminate.
  destruct (Z.compare_spec ma mb); try discriminate.
  destruct (Z.compare_spec da db); try discriminate.
  intros _. congruence.
Qed.

Lemma toordinal_inj a b :
  date_valid a = true -> date_valid b = true -> toordinal a = toordinal b -> a = b.
Proof.
  intros Ha Hb Heq. apply date_compare_eq.
  rewrite date_compare_toordinal by assumption. by apply Z.compare_eq_iff.
Qed.

Lemma date_ltb_toordinal a b :
  date_valid a = true -> date_valid b = true ->
  date_ltb a b = (toordinal a <? toordinal b).
Proof.
  intros Ha Hb. unfold date_ltb, Z.ltb. by rewrite date_compare_toordinal.
Qed.

Lemma date_gtb_toordinal a b :
  date_valid a = true -> date_valid b = true ->
  date_gtb a b = (toordinal b <? toordinal a).
Proof.
  intros Ha Hb. unfold date_gtb, Z.ltb. rewrite date_compare_toordinal by assumption.
  rewrite (Z.compare_antisym (toordinal a)). by destruct (toordinal a ?= toordinal b).
Qed.

Lemma toordinal_max d : date_valid d = true -> toordinal d <= toordinal (mkdate 9999 12 31).
Proof.
  intros Hv. pose proof (date_compare_toordinal d (mkdate 9999 12 31) Hv eq_refl) as Hc.
  apply valid_fields in Hv as (Hy & Hm & Hd). unfold Z.le. rewrite <- Hc.
  destruct d as [y m dd]. simpl in *. unfold date_compare. simpl.
  pose proof (days_in_month_bounds y m Hm).
  destruct (Z.compare_spec y 9999); try lia; try discriminate.
  destruct (Z.compare_spec m 12); try lia; try discriminate.
  destruct (Z.compare_spec dd 31); try lia; discriminate.
Qed.

(** The dates listed by [days_after] are the valid dates after [d] up to
    [stop], each once, and there are [toordinal stop - toordinal d] of them. *)
Lemma days_after_spec fuel d stop :
  date_valid d = true -> date_valid stop = true ->
  toordinal stop - toordinal d <= Z.of_nat fuel ->
  Z.of_nat (length (days_after fuel d stop)) = Z.max 0 (toordinal stop - toordinal d)
  /\ NoDup (days_after fuel d stop)
  /\ (forall x, In x (days_after fuel d stop) <->
                date_valid x = true /\ toordinal d < toordinal x <= toordinal stop).
Proof.
  revert d. induction fuel as [|k IH]; intros d Hd Hstop Hfuel.
  - simpl. split; [lia|]. split; [constructor|]. intros x. split; [tauto|lia].
  - simpl. rewrite date_ltb_toordinal by assumption.
    destruct (Z.ltb_spec (toordinal d) (toordinal stop)) as [Hlt|Hge].
    + assert (Hne : d <> mkdate 9999 12 31).
      { intros ->. pose proof (toordinal_max stop Hstop). lia. }
      pose proof (next_day_valid d Hd Hne) as Hn.
      pose proof (toordinal_next_day d Hd) as Ho.
      destruct (IH (next_day d) Hn Hstop) as (Hlen & Hnd & Hin); [lia|].
      split; [simpl length; lia|]. split.
      * constructor; [|exact Hnd]. rewrite list_elem_of_In, Hin. lia.
      * intros x. simpl. rewrite Hin. split.
        -- intros [<-|[Hx Hr]]; split; try assumption; lia.
        -- intros [Hx Hr]. destruct (Z.eq_dec (toordinal x) (toordinal d + 1)) as [He|He].
           ++ left. apply toordinal_inj; try assumption. lia.
           ++ right. split; [assumption|lia].
    + split; [simpl; lia|]. split; [constructor|]. intros x. split; [simpl; tauto|lia].
Qed.

Lemma toordinal_min d : date_valid d = true -> 1 <= toordinal d.
Proof.
  intros Hv. apply valid_fields in Hv as (Hy & Hm & Hd).
  destruct d as [y m dd]. simpl in *. unfold toordinal, ymd2ord. simpl.
  pose proof (day_of_year_bounds y m dd Hm Hd) as Hdoy.
  pose proof (days_before_year_mono 1 y) as Hmono.
  change (days_before_year 1) with 0 in Hmono. lia.
Qed.

Lemma prev_day_spec d :
  date_valid d = true -> 1 < toordinal d ->
  date_valid (prev_day d) = true /\ toordinal (prev_day d) = toordinal d - 1.
Proof.
  intros Hv Hord. pose proof Hv as Hv'. apply valid_fields in Hv as (Hy & Hm & Hd).
  destruct d as [y m dd]. simpl in *. unfold prev_day. simpl.
  destruct (Z.ltb_spec 1 dd); simpl.
  - split; [apply valid_intro; lia|]. unfold toordinal, ymd2ord. simpl. lia.
  - assert (dd = 1) by lia. subst dd.
    destruct (Z.ltb_spec 1 m); simpl.
    + pose proof (days_in_month_bounds y (m - 1)).
      split; [apply valid_intro; lia|]. unfold toordinal, ymd2ord. simpl.
      pose proof (days_before_month_succ y (m - 1)).
      replace (m - 1 + 1) with m in * by lia. lia.
    + assert (m = 1) by lia. subst m.
      assert (y <> 1).
      { intros ->. vm_compute in Hord. discriminate. }
      split; [apply valid_intro; try lia; unfold days_in_month; simpl; lia|].
      unfold toordinal, ymd2ord. simpl.
      pose proof (days_before_year_succ (y - 1)).
      replace (y - 1 + 1) with y in * by lia.
      pose proof (days_before_month_december (y - 1)).
      unfold days_before_month at 2. simpl. lia.
Qed.

Lemma minus_days_spec n d :
  date_valid d = true -> Z.of_nat n < toordinal d ->
  exists d', minus_days n d = Some d' /\ date_valid d' = true
             /\ toordinal d' = toordinal d - Z.of_nat n.
Proof.
  revert d. induction n as [|k IH]; intros d Hv Hord.
  - exists d. simpl. split; [reflexivity|]. split; [assumption|lia].
  - destruct (prev_day_spec d Hv) as [Hpv Hpo]; [lia|].
    simpl. rewrite Hpv. destruct (IH (prev_day d) Hpv) as (d' & He & Hv' & Ho); [lia|].
    exists d'. split; [exact He|]. split; [exact Hv'|]. lia.
Qed.

End CalendarFacts.

(** ** Binary64 arithmetic *)

Section FloatFacts.

Lemma float_of_Z_0 : float_of_Z 0 = PrimFloat.zero.
Proof. reflexivity. Qed.

(** A finite value has a finite or zero specification. *)
Lemma finite_spec x :
  PrimFloat.is_finite x = true ->
  (exists s, Prim2SF x = S754_zero s) \/ (exists s m e, Prim2SF x = S754_finite s m e).
Proof.
  unfold PrimFloat.is_finite. rewrite negb_true_iff, orb_false_iff. intros [Hn Hi].
  unfold Prim2SF. rewrite Hn, Hi.
  destruct (PrimFloat.is_zero x); [left; eauto|].
  destruct (Z.frexp x) as [r ex].
  destruct (shr_fexp _ _ _ _ _) as [shr e'].
  destruct (shr_m shr); eauto.
Qed.

(** A positive finite value times zero is zero. *)
Lemma mul_int_0 x :
  PrimFloat.is_finite x = true -> le0 x = false -> mul_int x 0 = PrimFloat.zero.
Proof.
  intros Hfin Hle. unfold mul_int. rewrite float_of_Z_0.
  apply Prim2SF_inj. rewrite mul_spec.
  unfold le0 in Hle. rewrite leb_spec in Hle.
  change (Prim2SF PrimFloat.zero) with (S754_zero false) in *.
  destruct (finite_spec x Hfin) as [[s Hs]|(s & m & e & Hs)]; rewrite Hs in *.
  - discriminate.
  - destruct s; [discriminate | reflexivity].
Qed.

(** A value that is neither NaN nor at most 0 is greater than 0: NaN is the
    only value on which the tests [x <= 0] and [x > 0] both fail. *)
Lemma not_le0_gt0 x :
  PrimFloat.is_nan x = false -> le0 x = false -> gt0 x = true.
Proof.
  unfold PrimFloat.is_nan, le0, gt0.
  rewrite FloatAxioms.eqb_spec, FloatAxioms.leb_spec, FloatAxioms.ltb_spec.
  change (Prim2SF PrimFloat.zero) with (S754_zero false).
  destruct (Prim2SF x) as [s|s| |s m e]; try destruct s;
    cbv [SFleb SFltb SFcompare]; simpl; congruence.
Qed.

End FloatFacts.

(** ** The price step of the onboarding *)

Section PriceStep.

Context `{PyRuntime} (E : environment).

(** For a user without a profile, a text that [float] reads as a value on
    which [price <= 0] is false creates the profile with exactly that unit
    price, stock 0, no dashboard message and no start date; the price is
    greater than 0 unless it is NaN. *)
Lemma ask_unit_price_creates w user_id chat_id text price :
  users w !! user_id = None ->
  py_float (str_strip text) = Some price ->
  le0 price = false ->
  fst (ask_unit_price E user_id chat_id text w) = Ok ASKING_START_DATE
  /\ users (exec (ask_unit_price E user_id chat_id text) w) !! user_id
     = Some (mkuser price 0 None None)
  /\ (PrimFloat.is_nan price = false -> gt0 price = true).
Proof.
  intros Hnone Hp Hle. unfold exec.
  rewrite (ask_unit_price_accepts E _ _ _ _ _ Hnone Hp Hle). simpl.
  split; [reflexivity|]. split; [by rewrite lookup_insert_eq|].
  intros Hnan. by apply not_le0_gt0.
Qed.

(** A text that [float] does not read, or reads as a value at most 0, creates
    no profile and asks again. *)
Lemma ask_unit_price_asks_again w user_id chat_id text :
  (forall price, py_float (str_strip text) = Some price -> le0 price = true) ->
  fst (ask_unit_price E user_id chat_id text w) = Ok ASKING_UNIT_PRICE
  /\ users (exec (ask_unit_price E user_id chat_id text) w) = users w
  /\ outbox (exec (ask_unit_price E user_id chat_id text) w)
     = outbox w ++ [SendMessage chat_id InvalidNumberText].
Proof.
  intros Hbad. unfold exec. rewrite (ask_unit_price_rejects E _ _ _ _ Hbad). simpl.
  repeat split; reflexivity.
Qed.

End PriceStep.

(** ** The order of ISO strings *)

Section IsoFacts.

Lemma string_app_cons c (a b : string) : (String c a ++ b = String c (a ++ b))%string.
Proof. reflexivity. Qed.

Lemma string_app_nil_l (a : string) : ("" ++ a = a)%string.
Proof. reflexivity. Qed.

Lemma compare_cons c d s t :
  String.compare (String c s) (String d t)
  = match Ascii.compare c d with
    | Eq => String.compare s t
    | ne => ne
    end.
Proof. reflexivity. Qed.

Lemma string_app_assoc (a b c : string) : ((a ++ b) ++ c = a ++ (b ++ c))%string.
Proof.
  induction a as [|x a IH]; [reflexivity|]. by rewrite !string_app_cons, IH.
Qed.

Lemma string_app_nil_r (a : string) : (a ++ "" = a)%string.
Proof.
  induction a as [|x a IH]; [reflexivity|]. by rewrite string_app_cons, IH.
Qed.

Lemma ascii_compare_refl c : Ascii.compare c c = Eq.
Proof. unfold Ascii.compare. apply N.compare_refl. Qed.

Lemma compare_cons_same c s t :
  String.compare (String c s) (String c t) = String.compare s t.
Proof. by rewrite compare_cons, ascii_compare_refl. Qed.

Lemma digit_compare x y :
  Ascii.compare (digit x) (digit y) = (x mod 10 ?= y mod 10).
Proof.
  unfold Ascii.compare, digit.
  pose proof (Z.mod_pos_bound x 10 ltac:(lia)).
  pose proof (Z.mod_pos_bound y 10 ltac:(lia)).
  rewrite !N_ascii_embedding by lia.
  rewrite Z2N.inj_compare by lia.
  rewrite Z.add_compare_mono_l. reflexivity.
Qed.

Lemma mod_pow10_succ a k :
  0 <= k -> a mod 10 ^ (k + 1) = a mod 10 ^ k + 10 ^ k * ((a / 10 ^ k) mod 10).
Proof.
  intros Hk. rewrite Z.pow_add_r, Z.pow_1_r by lia.
  apply Z.rem_mul_r; [|lia]. pose proof (Z.pow_pos_nonneg 10 k). lia.
Qed.

(** Fixed-width decimals compare as the numbers they write. *)
Lemma fixed_dec_compare w a b s t :
  String.compare (fixed_dec w a ++ s) (fixed_dec w b ++ t)
  = match a mod 10 ^ Z.of_nat w ?= b mod 10 ^ Z.of_nat w with
    | Eq => String.compare s t
    | c => c
    end.
Proof.
  induction w as [|k IH].
  - simpl. rewrite !Z.mod_1_r. reflexivity.
  - cbn [fixed_dec]. rewrite !string_app_cons, compare_cons, digit_compare, IH.
    replace (Z.of_nat (S k)) with (Z.of_nat k + 1) by lia.
    rewrite !mod_pow10_succ by lia.
    set (p := 10 ^ Z.of_nat k).
    assert (Hp : 0 < p) by (apply Z.pow_pos_nonneg; lia).
    pose proof (Z.mod_pos_bound a p Hp) as Ba.
    pose proof (Z.mod_pos_bound b p Hp) as Bb.
    set (la := a mod p) in *. set (lb := b mod p) in *.
    set (ha := (a / p) mod 10). set (hb := (b / p) mod 10).
    destruct (Z.compare_spec ha hb) as [Eh|Lh|Lh].
    + rewrite Eh, (Z.add_comm la), (Z.add_comm lb), Z.add_compare_mono_l. reflexivity.
    + replace (la + p * ha ?= lb + p * hb) with Lt; [reflexivity|].
      symmetry. apply Z.compare_lt_iff. nia.
    + replace (la + p * ha ?= lb + p * hb) with Gt; [reflexivity|].
      symmetry. apply Z.compare_gt_iff. nia.
Qed.

Lemma fixed_dec_compare_small w a b s t :
  0 <= a < 10 ^ Z.of_nat w -> 0 <= b < 10 ^ Z.of_nat w ->
  String.compare (fixed_dec w a ++ s) (fixed_dec w b ++ t)
  = match a ?= b with
    | Eq => String.compare s t
    | c => c
    end.
Proof. intros Ha Hb. rewrite fixed_dec_compare, !Z.mod_small by assumption. done. Qed.

Lemma datetime_fields t :
  datetime_valid t = true ->
  date_valid (dt_date t) = true /\ 0 <= hour t < 24 /\ 0 <= minute t < 60
  /\ 0 <= second t < 60 /\ 0 <= microsecond t < 1000000.
Proof.
  unfold datetime_valid. rewrite !andb_true_iff, !Z.leb_le, !Z.ltb_lt. intuition lia.
Qed.

(** ISO strings of dates compare as the dates. *)
Lemma date_isoformat_compare a b s t :
  date_valid a = true -> date_valid b = true ->
  String.compare (date_isoformat a ++ s) (date_isoformat b ++ t)
  = match date_compare a b with
    | Eq => String.compare s t
    | c => c
    end.
Proof.
  intros Ha Hb. apply valid_fields in Ha as (Hya & Hma & Hda).
  apply valid_fields in Hb as (Hyb & Hmb & Hdb).
  pose proof (days_in_month_bounds (year a) (month a) Hma).
  pose proof (days_in_month_bounds (year b) (month b) Hmb).
  unfold date_isoformat, date_compare. rewrite !string_app_assoc.
  rewrite fixed_dec_compare_small by (simpl; lia).
  destruct (year a ?= year b); try reflexivity.
  rewrite ?string_app_cons, ?string_app_nil_l, compare_cons_same.
  rewrite fixed_dec_compare_small by (simpl; lia).
  destruct (month a ?= month b); try reflexivity.
  rewrite ?string_app_cons, ?string_app_nil_l, compare_cons_same.
  rewrite fixed_dec_compare_small by (simpl; lia).
  reflexivity.
Qed.

(** ISO strings of datetimes compare as the datetimes. *)
Lemma isoformat_compare a b :
  datetime_valid a = true -> datetime_valid b = true ->
  String.compare (isoformat a) (isoformat b) = datetime_compare a b.
Proof.
  intros Ha Hb. apply datetime_fields in Ha as (Hda & Hha & Hma & Hsa & Hua).
  apply datetime_fields in Hb as (Hdb & Hhb & Hmb & Hsb & Hub).
  unfold isoformat, datetime_compare.
  rewrite date_isoformat_compare by assumption.
  destruct (date_compare (dt_date a) (dt_date b)); try reflexivity.
  rewrite ?string_app_cons, ?string_app_nil_l, compare_cons_same.
  rewrite fixed_dec_compare_small by (simpl; lia).
  destruct (hour a ?= hour b); try reflexivity.
  rewrite ?string_app_cons, ?string_app_nil_l, compare_cons_same.
  rewrite fixed_dec_compare_small by (simpl; lia).
  destruct (minute a ?= minute b); try reflexivity.
  rewrite ?string_app_cons, ?string_app_nil_l, compare_cons_same.
  rewrite fixed_dec_compare_small by (simpl; lia).
  destruct (second a ?= second b); try reflexivity.
  destruct (Z.eqb_spec (microsecond a) 0) as [Ea|Ea];
    destruct (Z.eqb_spec (microsecond b) 0) as [Eb|Eb].
  - rewrite Ea, Eb. reflexivity.
  - rewrite Ea, ?string_app_cons. symmetry. apply Z.compare_lt_iff. lia.
  - rewrite Eb, ?string_app_cons. symmetry. apply Z.compare_gt_iff. lia.
  - rewrite ?string_app_cons, ?string_app_nil_l, compare_cons_same.
    rewrite <- (string_app_nil_r (fixed_dec 6 (microsecond a))).
    rewrite <- (string_app_nil_r (fixed_dec 6 (microsecond b))).
    rewrite fixed_dec_compare_small by (simpl; lia).
    by destruct (microsecond a ?= microsecond b).
Qed.

Lemma isoformat_leb a b :
  datetime_valid a = true -> datetime_valid b = true ->
  String.leb (isoformat a) (isoformat b) = datetime_leb a b.
Proof.
  intros Ha Hb. unfold String.leb, datetime_leb. rewrite isoformat_compare by assumption.
  by destruct (datetime_compare a b).
Qed.

End IsoFacts.

(** ** The usage history *)

Section UsageHistory.

Context `{PyRuntime} (E : environment).

#[local] Instance appends_refl : Reflexive (appends E).
Proof. intros w. exists []. by rewrite app_nil_r. Qed.

#[local] Instance appends_trans : Transitive (appends E).
Proof.
  intros a b c (r1 & E1 & F1) (r2 & E2 & F2). exists (r1 ++ r2).
  split; [by rewrite E2, E1, app_assoc | by apply Forall_app].
Qed.

Lemma same_usage_appends (f : world -> world) :
  (forall w, usage (f w) = usage w) -> respects (appends E) (modify f).
Proof. intros Hf w. exists []. unfold exec, modify. simpl. by rewrite Hf, app_nil_r. Qed.

Lemma records_appends w w' : same_on records w w' -> appends E w w'.
Proof. intros Hrec. exists []. by rewrite (records_usage _ _ Hrec), app_nil_r. Qed.

Lemma log_smoke_event_appends u q c : respects (appends E) (log_smoke_event E u q c).
Proof.
  intros w. eexists. split; [reflexivity|]. repeat constructor. by eexists.
Qed.

Lemma run_conversation_appends c u (cb : M conversation_state) :
  respects (appends E) cb -> respects (appends E) (run_conversation c u cb).
Proof.
  intros Hcb w. specialize (Hcb w). unfold exec, run_conversation in *.
  destruct (cb w) as [[[| |]|e] w1]; simpl in *; exact Hcb.
Qed.

(** One step of the decomposition of a handler. *)
Ltac appends_step :=
  first
    [ apply (respects_ret (appends E))
    | apply (respects_raise (appends E))
    | apply (respects_gets (appends E))
    | apply log_smoke_event_appends
    | apply same_usage_appends; intros; reflexivity
    | eapply respects_weaken; [apply records_appends | apply update_dashboard_records]
    | apply run_conversation_appends
    | apply (respects_bind (appends E)); [ | intros ? ]
    | match goal with
      | |- respects (appends E) (match ?x with _ => _ end) => destruct x
      end ].

Lemma send_message_appends c t : respects (appends E) (send_message E c t).
Proof. intros w. exists []. unfold exec, send_message. simpl. by rewrite app_nil_r. Qed.

Lemma process_update_appends upd : respects (appends E) (process_update E upd).
Proof.
  destruct upd; unfold process_update, start, cancel, ask_unit_price, ask_start_date,
    menu_callback, handle_text_message, create_user, get_user, user_data_get,
    user_data_set, user_data_pop, update_user_stock, update_user_price,
    update_user_start_date, answer_callback_query;
    repeat first [apply send_message_appends | appends_step].
Qed.

Lemma stamped_rows_of_events rows :
  (forall n, datetime_valid (clock E n) = true) ->
  Forall (fun r => exists n, timestamp r = isoformat (clock E n)) rows ->
  exists events, rows = map row_of_event events
                 /\ Forall (fun e => datetime_valid (ev_time e) = true) events.
Proof.
  intros Hclock. induction 1 as [|r rows [n Hn] _ (events & Hu & Hall)].
  - exists []. split; [reflexivity | constructor].
  - exists (mkevent (usage_id r) (usage_user_id r) (clock E n) (quantity r) (cost r)
              :: events).
    split; [|constructor; [apply Hclock | exact Hall]].
    simpl. rewrite <- Hu. f_equal. destruct r. unfold row_of_event. simpl in *.
    by rewrite Hn.
Qed.

(** In every state of the running bot, with a clock that reads valid instants,
    the usage rows are those of events stamped with valid instants. *)
Lemma reachable_usage_rows_of_events w :
  (forall n, datetime_valid (clock E n) = true) ->
  reachable E w ->
  exists events, usage w = map row_of_event events
                 /\ Forall (fun e => datetime_valid (ev_time e) = true) events.
Proof.
  intros Hclock. induction 1 as [|w upd Hreach (events & Hu & Hall)].
  - exists []. split; [reflexivity | constructor].
  - destruct (process_update_appends upd w) as (rows & Hrows & Hstamped).
    destruct (stamped_rows_of_events rows Hclock Hstamped) as (events' & Hu' & Hall').
    exists (events ++ events'). split; [|by apply Forall_app].
    unfold step. by rewrite Hrows, Hu, Hu', map_app.
Qed.

End UsageHistory.

(** ** The forecast and the theoretical spend *)

Section Forecast.

Context `{PyRuntime} (E : environment).

Lemma end_of_year_valid d : date_valid d = true -> date_valid (end_of_year d) = true.
Proof.
  intros Hv. apply valid_fields in Hv as (Hy & _ & _).
  apply valid_intro; try lia. unfold days_in_month. simpl. lia.
Qed.

(** Leap years count: the days left are the length of the year minus the
    day of the year. *)
Lemma remaining_days_eq d :
  remaining_days d
  = (if is_leap (year d) then 366 else 365) - (days_before_month (year d) (month d) + day d).
Proof.
  unfold remaining_days, days_between, end_of_year, toordinal, ymd2ord. simpl.
  pose proof (days_before_month_december (year d)). lia.
Qed.

Lemma remaining_days_bounds d : date_valid d = true -> 0 <= remaining_days d <= 365.
Proof.
  intros Hv. apply valid_fields in Hv as (_ & Hm & Hd).
  pose proof (day_of_year_bounds _ _ _ Hm Hd). rewrite remaining_days_eq.
  destruct (is_leap (year d)); lia.
Qed.

Lemma date_leb_toordinal a b :
  date_valid a = true -> date_valid b = true ->
  date_leb a b = (toordinal a <=? toordinal b).
Proof.
  intros Ha Hb. unfold date_leb. rewrite date_gtb_toordinal by assumption.
  destruct (Z.ltb_spec (toordinal b) (toordinal a)), (Z.leb_spec (toordinal a) (toordinal b));
    simpl; lia || reflexivity.
Qed.

Lemma strictly_after_upto_toordinal a b x :
  date_valid a = true -> date_valid b = true ->
  strictly_after_upto a b x
  <-> date_valid x = true /\ toordinal a < toordinal x <= toordinal b.
Proof.
  intros Ha Hb. unfold strictly_after_upto. split.
  - intros (Hx & Hlt & Hle).
    rewrite date_ltb_toordinal in Hlt by assumption.
    rewrite date_leb_toordinal in Hle by assumption.
    apply Z.ltb_lt in Hlt. apply Z.leb_le in Hle. auto.
  - intros (Hx & Hlt & Hle).
    rewrite date_ltb_toordinal, date_leb_toordinal by assumption.
    split; [assumption|]. split; [apply Z.ltb_lt | apply Z.leb_le]; assumption.
Qed.

Lemma calculate_forecast_nonpositive w daily_cost :
  le0 daily_cost = true -> calculate_forecast E daily_cost w = (Ok PrimFloat.zero, w).
Proof. intros Hle. unfold calculate_forecast. by rewrite Hle. Qed.

Lemma calculate_forecast_positive w daily_cost :
  le0 daily_cost = false ->
  calculate_forecast E daily_cost w
  = (Ok (mul_int daily_cost (remaining_days (dt_date (clock E (clock_reads w))))),
     tick_clock w).
Proof. intros Hle. unfold calculate_forecast. by rewrite Hle. Qed.

(** C2 (as amended).  [calculate_forecast(D)] returns 0 whenever [D <= 0],
    without reading the clock; otherwise it returns [D * remaining_days].
    [remaining_days] is the number of calendar days after today up to and
    including December 31 of the year of today: the dates reached by stepping
    day by day are exactly those, each once.  It is the length of the year
    (366 in a leap year) minus the day of the year, and 0 on December 31,
    where the forecast is [D * 0]: 0 for every finite [D]. *)
Theorem forecast_is_daily_cost_times_remaining_days w daily_cost :
  let today := dt_date (clock E (clock_reads w)) in
  (le0 daily_cost = true ->
   calculate_forecast E daily_cost w = (Ok PrimFloat.zero, w))
  /\ (le0 daily_cost = false ->
      calculate_forecast E daily_cost w
      = (Ok (mul_int daily_cost (remaining_days today)), tick_clock w))
  /\ (date_valid today = true ->
      let listed := days_after 366 today (end_of_year today) in
      remaining_days today = Z.of_nat (length listed)
      /\ NoDup listed
      /\ (forall x, In x listed <-> strictly_after_upto today (end_of_year today) x)
      /\ remaining_days today
         = (if is_leap (year today) then 366 else 365)
           - (days_before_month (year today) (month today) + day today)
      /\ (month today = 12 -> day today = 31 ->
          remaining_days today = 0
          /\ (PrimFloat.is_finite daily_cost = true -> le0 daily_cost = false ->
              calculate_forecast E daily_cost w = (Ok PrimFloat.zero, tick_clock w)))).
Proof.
  intros today. split; [apply calculate_forecast_nonpositive|].
  split; [apply calculate_forecast_positive|].
  intros Hv listed.
  pose proof (end_of_year_valid today Hv) as Hev.
  pose proof (remaining_days_bounds today Hv) as Hb.
  destruct (days_after_spec 366 today (end_of_year today) Hv Hev) as (Hlen & Hnd & Hin).
  { fold (days_between (end_of_year today) today). fold (remaining_days today). lia. }
  fold (days_between (end_of_year today) today) in Hlen.
  fold (remaining_days today) in Hlen. fold listed in Hlen, Hnd, Hin.
  split; [lia|]. split; [exact Hnd|]. split.
  - intros x. rewrite Hin. symmetry. by apply strictly_after_upto_toordinal.
  - split; [apply remaining_days_eq|].
    intros Hm Hd.
    assert (Hz : remaining_days today = 0).
    { rewrite remaining_days_eq, Hm, Hd.
      pose proof (days_before_month_december (year today)). lia. }
    split; [exact Hz|]. intros Hfin Hle.
    rewrite (calculate_forecast_positive _ _ Hle). fold today. rewrite Hz.
    by rewrite (mul_int_0 _ Hfin Hle).
Qed.

End Forecast.

Section Aggregation.

Context `{PyRuntime} (E : environment).

Lemma get_aggregates_eq w user_id weekly_start :
  let now := clock E (clock_reads w) in
  minus_timedelta_days 7 now = Some weekly_start ->
  get_aggregates E user_id w
  = (Ok (mkaggr (aggregate_rows user_id (replace_midnight now) now (usage w))
                (aggregate_rows user_id weekly_start now (usage w))
                (aggregate_rows user_id (replace_first_of_month now) now (usage w))
                (aggregate_rows user_id (replace_first_of_year now) now (usage w))),
     tick_clock w).
Proof.
  intros now Hweek. unfold get_aggregates, bind, datetime_now. fold now.
  rewrite Hweek. reflexivity.
Qed.

(** Seven days before a valid instant later than the first week of year 1:
    the same time of day, seven days earlier. *)
Lemma minus_timedelta_days_7 now :
  datetime_valid now = true -> 7 < toordinal (dt_date now) ->
  exists weekly_start,
    minus_timedelta_days 7 now = Some weekly_start
    /\ datetime_valid weekly_start = true
    /\ toordinal (dt_date weekly_start) = toordinal (dt_date now) - 7
    /\ hour weekly_start = hour now /\ minute weekly_start = minute now
    /\ second weekly_start = second now /\ microsecond weekly_start = microsecond now.
Proof.
  intros Hv Hord. pose proof Hv as Hf. apply datetime_fields in Hf as (Hd & Hh & Hm & Hs & Hu).
  destruct (minus_days_spec 7 (dt_date now) Hd) as (d' & He & Hv' & Ho); [simpl; lia|].
  unfold minus_timedelta_days. rewrite He. eexists. split; [reflexivity|].
  simpl. split; [|split; [|tauto]].
  - unfold datetime_valid. simpl. rewrite Hv'. simpl.
    rewrite !andb_true_iff, !Z.leb_le, !Z.ltb_lt. lia.
  - change (Z.of_nat 7) with 7 in Ho. exact Ho.
Qed.

Lemma get_aggregates_returns w user_id :
  let now := clock E (clock_reads w) in
  datetime_valid now = true -> 7 < toordinal (dt_date now) ->
  exists aggr, get_aggregates E user_id w = (Ok aggr, tick_clock w).
Proof.
  intros now Hv Hord.
  destruct (minus_timedelta_days_7 now Hv Hord) as (ws & Hws & _).
  eexists. apply (get_aggregates_eq w user_id ws Hws).
Qed.

Lemma days_between_self d : days_between d d = 0.
Proof. unfold days_between. lia. Qed.

Lemma date_compare_refl d : date_compare d d = Eq.
Proof. unfold date_compare. by rewrite !Z.compare_refl. Qed.

(** The number of days between two dates is the number of steps through the
    calendar from the earlier to the later. *)
Lemma days_between_steps n a b :
  date_valid a = true -> date_valid b = true ->
  days_between b a = Z.of_nat n ->
  Nat.iter n prev_day b = a.
Proof.
  revert b. induction n as [|k IH]; intros b Ha Hb Hn; unfold days_between in Hn.
  - simpl. symmetry. apply toordinal_inj; try assumption. lia.
  - pose proof (toordinal_min a Ha).
    destruct (prev_day_spec b Hb) as [Hpv Hpo]; [lia|].
    rewrite Nat.iter_succ_r. apply IH; try assumption. unfold days_between. lia.
Qed.

(** C3.  [theoretical_spent_since_start] returns 0.0, without reading the
    clock or the table, when the start date is absent (NULL or empty) or is
    not read by the format "%Y-%m-%d" as a date.  Otherwise, with a clock
    that reads valid instants after the first week of year 1, it reads the
    aggregates, then the date of today, and returns
    [daily_cost * ((today - start_date).days + 1)] when the start date is not
    after today, which is [daily_cost * 1] when the start date is today, and
    0.0 when the start date is after today. *)
Theorem theoretical_spend_since_start w user_id start_date_str :
  (falsy start_date_str = true ->
   theoretical_spent_since_start E user_id start_date_str w = (Ok PrimFloat.zero, w))
  /\ (forall s, start_date_str = Some s -> strptime_ymd s = None ->
        theoretical_spent_since_start E user_id start_date_str w
        = (Ok PrimFloat.zero, w))
  /\ (forall s start_dt,
        start_date_str = Some s -> falsy start_date_str = false ->
        strptime_ymd s = Some start_dt ->
        datetime_valid (clock E (clock_reads w)) = true ->
        7 < toordinal (dt_date (clock E (clock_reads w))) ->
        let today := dt_date (clock E (S (clock_reads w))) in
        exists aggr,
          get_aggregates E user_id w = (Ok aggr, tick_clock w)
          /\ let daily_cost := snd (daily aggr) in
             let run := theoretical_spent_since_start E user_id start_date_str w in
             (date_gtb start_dt today = false ->
              run = (Ok (mul_int daily_cost (days_between today start_dt + 1)),
                     tick_clock (tick_clock w)))
             /\ (start_dt = today ->
                 run = (Ok (mul_int daily_cost 1), tick_clock (tick_clock w)))
             /\ (date_gtb start_dt today = true ->
                 run = (Ok PrimFloat.zero, tick_clock (tick_clock w)))).
Proof.
  split; [|split].
  - intros Hf. unfold theoretical_spent_since_start.
    destruct start_date_str as [s|]; [|reflexivity]. by rewrite Hf.
  - intros s -> Hp. unfold theoretical_spent_since_start.
    destruct (falsy (Some s)); [reflexivity|]. by rewrite Hp.
  - intros s start_dt -> Hf Hp Hv Hord today.
    destruct (get_aggregates_returns w user_id Hv Hord) as [aggr Haggr].
    exists aggr. split; [exact Haggr|]. intros daily_cost run.
    assert (Hrun : run = (Ok (if date_gtb start_dt today then PrimFloat.zero
                              else mul_int daily_cost (days_between today start_dt + 1)),
                          tick_clock (tick_clock w))).
    { subst run. unfold theoretical_spent_since_start. rewrite Hf, Hp.
      unfold bind at 1. rewrite Haggr.
      unfold bind, date_today, datetime_now, bind, ret. simpl. fold today.
      fold daily_cost. by destruct (date_gtb start_dt today). }
    split; [|split].
    + intros Hle. by rewrite Hrun, Hle.
    + intros ->. rewrite Hrun. unfold date_gtb. rewrite date_compare_refl.
      by rewrite days_between_self.
    + intros Hgt. by rewrite Hrun, Hgt.
Qed.

Lemma datetime_compare_refl t : datetime_compare t t = Eq.
Proof. unfold datetime_compare. by rewrite date_compare_refl, !Z.compare_refl. Qed.

Lemma datetime_leb_refl t : datetime_leb t t = true.
Proof. unfold datetime_leb. by rewrite datetime_compare_refl. Qed.

(** The comparison of the stored text with the bounds selects the events of
    the closed interval. *)
Lemma in_window_event user_id a b e :
  datetime_valid a = true -> datetime_valid b = true ->
  datetime_valid (ev_time e) = true ->
  in_window user_id (isoformat a) (isoformat b) (row_of_event e) = event_in user_id a b e.
Proof.
  intros Ha Hb He. unfold in_window, event_in, row_of_event. simpl.
  by rewrite !isoformat_leb.
Qed.

Lemma filter_rows_of_events user_id a b events :
  datetime_valid a = true -> datetime_valid b = true ->
  Forall (fun e => datetime_valid (ev_time e) = true) events ->
  List.filter (in_window user_id (isoformat a) (isoformat b)) (map row_of_event events)
  = map row_of_event (List.filter (event_in user_id a b) events).
Proof.
  intros Ha Hb Hall. induction Hall as [|e l He Hl IH]; [reflexivity|].
  simpl. rewrite (in_window_event _ _ _ _ Ha Hb He), IH.
  by destruct (event_in user_id a b e).
Qed.

Lemma aggregate_rows_of_events user_id a b events :
  datetime_valid a = true -> datetime_valid b = true ->
  Forall (fun e => datetime_valid (ev_time e) = true) events ->
  aggregate_rows user_id a b (map row_of_event events) = window_sums user_id a b events.
Proof.
  intros Ha Hb Hall. unfold aggregate_rows, window_sums.
  rewrite (filter_rows_of_events _ _ _ _ Ha Hb Hall).
  destruct (List.filter (event_in user_id a b) events) as [|e sel]; [reflexivity|].
  unfold sum_rows. cbn [map]. rewrite <- !map_cons, !map_map. reflexivity.
Qed.

Lemma replace_midnight_valid t :
  datetime_valid t = true -> datetime_valid (replace_midnight t) = true.
Proof.
  intros Hv. apply datetime_fields in Hv as (Hd & _).
  unfold datetime_valid, replace_midnight. simpl. by rewrite Hd.
Qed.

Lemma replace_first_of_month_valid t :
  datetime_valid t = true -> datetime_valid (replace_first_of_month t) = true.
Proof.
  intros Hv. apply datetime_fields in Hv as (Hd & _).
  apply valid_fields in Hd as (Hy & Hm & _).
  pose proof (days_in_month_bounds (year (dt_date t)) (month (dt_date t)) Hm).
  unfold datetime_valid, replace_first_of_month. simpl.
  rewrite valid_intro by lia. reflexivity.
Qed.

Lemma replace_first_of_year_valid t :
  datetime_valid t = true -> datetime_valid (replace_first_of_year t) = true.
Proof.
  intros Hv. apply datetime_fields in Hv as (Hd & _).
  apply valid_fields in Hd as (Hy & _ & _).
  unfold datetime_valid, replace_first_of_year. simpl.
  rewrite valid_intro; [reflexivity | lia | lia | unfold days_in_month; simpl; lia].
Qed.

(** C4.  On a usage table whose timestamps are the ISO strings of valid
    instants, and at a valid instant [now] read from the clock (after the
    first week of year 1), [get_aggregates] returns, for the user, the sums
    of quantity and cost over exactly the events whose instant lies in the
    closed interval from the window start to [now]: daily from midnight of
    the day of [now], weekly from the same time of day seven days earlier,
    monthly from midnight of the 1st of the month, yearly from midnight of
    January 1st.  An event stamped exactly at a window start is among those
    summed, a window without events gives (0, 0.0), and the call changes
    nothing but the count of clock readings. *)
Theorem aggregates_sum_closed_windows w user_id events :
  let now := clock E (clock_reads w) in
  usage w = map row_of_event events ->
  Forall (fun e => datetime_valid (ev_time e) = true) events ->
  datetime_valid now = true ->
  7 < toordinal (dt_date now) ->
  exists weekly_start,
    (minus_timedelta_days 7 now = Some weekly_start
     /\ toordinal (dt_date weekly_start) = toordinal (dt_date now) - 7
     /\ hour weekly_start = hour now /\ minute weekly_start = minute now
     /\ second weekly_start = second now /\ microsecond weekly_start = microsecond now)
    /\ get_aggregates E user_id w
       = (Ok (mkaggr
                (window_sums user_id (mkdatetime (dt_date now) 0 0 0 0) now events)
                (window_sums user_id weekly_start now events)
                (window_sums user_id
                   (mkdatetime (mkdate (year (dt_date now)) (month (dt_date now)) 1)
                               0 0 0 0) now events)
                (window_sums user_id
                   (mkdatetime (mkdate (year (dt_date now)) 1 1) 0 0 0 0) now events)),
          tick_clock w)
    /\ (forall start e,
          In e events -> ev_user e = user_id -> ev_time e = start ->
          datetime_leb start now = true ->
          In e (List.filter (event_in user_id start now) events))
    /\ (forall start,
          List.filter (event_in user_id start now) events = [] ->
          window_sums user_id start now events = (0, PrimFloat.zero))
    /\ data (tick_clock w) = data w.
Proof.
  intros now Husage Hall Hv Hord.
  destruct (minus_timedelta_days_7 now Hv Hord) as (ws & Hws & Hwv & Hwo & Hwt).
  exists ws. split; [tauto|]. split; [|split; [|split]].
  - rewrite (get_aggregates_eq w user_id ws Hws). fold now. rewrite Husage.
    rewrite !aggregate_rows_of_events;
      auto using replace_midnight_valid, replace_first_of_month_valid,
                 replace_first_of_year_valid.
  - intros start e Hin Hu Ht Hle. apply filter_In. split; [exact Hin|].
    unfold event_in. rewrite Hu, Z.eqb_refl, Ht, datetime_leb_refl, Hle. reflexivity.
  - intros start Hnone. unfold window_sums. by rewrite Hnone.
  - reflexivity.
Qed.

End Aggregation.

(** ** The properties on the example runs *)

Section OnExamples.

Import Examples.

Lemma reachable_run `{PyRuntime} (E : environment) us w :
  reachable E w -> reachable E (run E us w).
Proof.
  revert w. induction us as [|u us IH]; intros w Hw; [exact Hw|].
  simpl. apply IH. by constructor.
Qed.

Lemma run_in_reachable E us : @reachable Reference.runtime E (run_in E us).
Proof. apply reachable_run. constructor. Qed.

Lemma forecast_is_daily_cost_times_remaining_days_witness :
  le0 4.5%float = false
  /\ PrimFloat.is_finite 4.5%float = true
  /\ date_valid (mkdate 2024 6 15) = true
  /\ remaining_days (mkdate 2024 6 15) = 199
  /\ length (days_after 366 (mkdate 2024 6 15) (mkdate 2024 12 31)) = 199%nat
  /\ @calculate_forecast in_june 4.5%float initial_world
     = (Ok 895.5%float, tick_clock initial_world)
  /\ @calculate_forecast in_december 4.5%float initial_world
     = (Ok PrimFloat.zero, tick_clock initial_world).
Proof.
  assert (Hle : le0 4.5%float = false) by reflexivity.
  assert (Hfin : PrimFloat.is_finite 4.5%float = true) by reflexivity.
  assert (Hv : date_valid (mkdate 2024 6 15) = true) by reflexivity.
  destruct (forecast_is_daily_cost_times_remaining_days in_june
              initial_world 4.5%float) as (_ & Hpos & Hcal).
  destruct (Hcal Hv) as (Hlen & _ & _ & Heq & _).
  destruct (forecast_is_daily_cost_times_remaining_days in_december
              initial_world 4.5%float) as (_ & _ & Hdec).
  destruct (Hdec eq_refl) as (_ & _ & _ & _ & Hlast).
  destruct (Hlast eq_refl eq_refl) as (_ & Hzero).
  split; [exact Hle|]. split; [exact Hfin|]. split; [exact Hv|].
  split; [etransitivity; [exact Heq | reflexivity]|].
  split; [apply Nat2Z.inj; etransitivity; [symmetry; exact Hlen|];
          etransitivity; [exact Heq | reflexivity]|].
  split; [rewrite (Hpos Hle); vm_compute; reflexivity | exact (Hzero Hfin Hle)].
Defined.

(** C2 as stated fails for an infinite daily cost, which the bot reaches
    after the unit price "inf": on December 31 the forecast is
    [infinity * 0], which is NaN and not 0. *)
Lemma forecast_on_december_31_of_infinite_cost :
  @reachable Reference.runtime in_december infinite_price
  /\ map cost (usage infinite_price) = [PrimFloat.infinity]
  /\ dt_date (clock in_december (clock_reads initial_world)) = mkdate 2024 12 31
  /\ le0 PrimFloat.infinity = false
  /\ @calculate_forecast in_december PrimFloat.infinity initial_world
     = (Ok PrimFloat.nan, tick_clock initial_world)
  /\ PrimFloat.eqb PrimFloat.nan PrimFloat.zero = false
  /\ last_forecast infinite_price = Some PrimFloat.nan.
Proof.
  split; [apply run_in_reachable|]. vm_compute. repeat split; reflexivity.
Qed.

Lemma theoretical_spend_since_start_witness :
  @strptime_ymd Reference.runtime "2024-06-10" = Some (mkdate 2024 6 10)
  /\ datetime_valid (clock in_june (clock_reads three_smoked)) = true
  /\ 7 < toordinal (dt_date (clock in_june (clock_reads three_smoked)))
  /\ @theoretical_spent_since_start Reference.runtime in_june 7 (Some "2024-06-10")
       three_smoked
     = (Ok 27%float, tick_clock (tick_clock three_smoked))
  /\ @theoretical_spent_since_start Reference.runtime in_june 7 (Some "not-a-date")
       three_smoked
     = (Ok PrimFloat.zero, three_smoked).
Proof.
  assert (Hp : @strptime_ymd Reference.runtime "2024-06-10" = Some (mkdate 2024 6 10))
    by reflexivity.
  assert (Hv : datetime_valid (clock in_june (clock_reads three_smoked)) = true)
    by reflexivity.
  assert (Ho : 7 < toordinal (dt_date (clock in_june (clock_reads three_smoked))))
    by reflexivity.
  repeat (split; [assumption|]).
  destruct (@theoretical_spend_since_start Reference.runtime in_june three_smoked 7
              (Some "2024-06-10")) as (_ & _ & Hparsed).
  destruct (Hparsed _ _ eq_refl eq_refl Hp Hv Ho) as (aggr & Haggr & Hle & _).
  destruct (@theoretical_spend_since_start Reference.runtime in_june three_smoked 7
              (Some "not-a-date")) as (_ & Hbad & _).
  split; [|exact (Hbad _ eq_refl eq_refl)].
  rewrite (Hle eq_refl).
  vm_compute in Haggr. injection Haggr as <-. vm_compute. reflexivity.
Defined.

Lemma aggregates_sum_closed_windows_witness :
  usage three_smoked = map row_of_event three_events
  /\ Forall (fun e => datetime_valid (ev_time e) = true) three_events
  /\ datetime_valid (clock in_june (clock_reads three_smoked)) = true
  /\ 7 < toordinal (dt_date (clock in_june (clock_reads three_smoked)))
  /\ @get_aggregates Reference.runtime in_june 7 three_smoked
     = (Ok (mkaggr (3, 4.5%float) (3, 4.5%float) (3, 4.5%float) (3, 4.5%float)),
        tick_clock three_smoked).
Proof.
  assert (Hu : usage three_smoked = map row_of_event three_events)
    by (vm_compute; reflexivity).
  assert (Hall : Forall (fun e => datetime_valid (ev_time e) = true) three_events)
    by (repeat constructor).
  assert (Hv : datetime_valid (clock in_june (clock_reads three_smoked)) = true)
    by reflexivity.
  assert (Ho : 7 < toordinal (dt_date (clock in_june (clock_reads three_smoked))))
    by reflexivity.
  repeat (split; [assumption|]).
  destruct (@aggregates_sum_closed_windows Reference.runtime in_june three_smoked 7
              three_events Hu Hall Hv Ho) as (ws & (Hws & _) & Heq & _).
  rewrite Heq. vm_compute in Hws. injection Hws as <-. vm_compute. reflexivity.
Defined.


Lemma awaiting_quantity_users :
  users awaiting_quantity = {[ 7 := mkuser 1.5%float 20 (Some 3) None ]}.
Proof. vm_compute. reflexivity. Qed.

Lemma stock_never_negative_witness :
  stock_nonneg awaiting_quantity
  /\ stock_nonneg (@step Reference.runtime in_june awaiting_quantity
                         (TextMessage 7 7 "3")).
Proof.
  assert (Hw : stock_nonneg awaiting_quantity).
  { intros u r. rewrite awaiting_quantity_users. intros Hr.
    apply lookup_singleton_Some in Hr as [_ <-]. simpl. lia. }
  split; [exact Hw|].
  exact (@stock_never_negative Reference.runtime in_june awaiting_quantity
           (TextMessage 7 7 "3") Hw).
Defined.

Lemma stored_start_date_is_valid_date_witness :
  @reachable Reference.runtime in_june future_start
  /\ (start_smoking_date <$> (users future_start !! 7)) = Some (Some "2099-01-01")
  /\ start_dates_valid future_start.
Proof.
  assert (Hr : @reachable Reference.runtime in_june future_start)
    by apply run_in_reachable.
  split; [exact Hr|]. split; [vm_compute; reflexivity|].
  exact (@stored_start_date_is_valid_date Reference.runtime in_june future_start Hr).
Defined.

Lemma string_compare_refl s : String.compare s s = Eq.
Proof.
  induction s as [|c s IH]; [reflexivity|]. by rewrite compare_cons_same.
Qed.

Lemma date_isoformat_inj a b :
  date_valid a = true -> date_valid b = true ->
  date_isoformat a = date_isoformat b -> a = b.
Proof.
  intros Ha Hb Heq. apply date_compare_eq.
  pose proof (date_isoformat_compare a b "" "" Ha Hb) as Hc.
  rewrite !string_app_nil_r, Heq in Hc.
  rewrite string_compare_refl in Hc. by destruct (date_compare a b).
Qed.

(** C8 as stated fails: the start-date step stores a date of the year 2099
    that is submitted in June 2024. *)
Lemma future_start_date_is_stored :
  @reachable Reference.runtime in_june future_start
  /\ (start_smoking_date <$> (users future_start !! 7)) = Some (Some "2099-01-01")
  /\ ~ start_dates_not_after (dt_date june_15) future_start.
Proof.
  split; [apply run_in_reachable|]. split; [vm_compute; reflexivity|].
  intros Hall.
  destruct (Hall 7 (mkuser 1.5%float 0 (Some 3) (Some "2099-01-01"))
              ltac:(vm_compute; reflexivity) "2099-01-01" eq_refl) as (d & Hd & Hs & Hgt).
  assert (d = mkdate 2099 1 1) as ->.
  { symmetry. apply date_isoformat_inj; [reflexivity | exact Hd | exact Hs]. }
  vm_compute in Hgt. discriminate.
Qed.

Lemma button_without_profile_witness :
  users asked_price !! 7 = None
  /\ (let w' := @step Reference.runtime in_june asked_price (CallbackQuery 7 7 "ADD_PACK") in
      users w' = users asked_price /\ usage w' = usage asked_price
      /\ user_data w' = user_data asked_price
      /\ conversations w' = conversations asked_price
      /\ outbox w' = outbox asked_price ++ [AnswerCallbackQuery]
      /\ sends w' = sends asked_price /\ edit_attempts w' = edit_attempts asked_price
      /\ clock_reads w' = clock_reads asked_price).
Proof.
  assert (Hnone : users asked_price !! 7 = None) by (vm_compute; reflexivity).
  split; [exact Hnone|].
  exact (@button_without_profile Reference.runtime in_june asked_price 7 7 "ADD_PACK" Hnone).
Defined.

Lemma cancel_only_clears_flags_witness :
  @conversation_of 7 7 asked_price = Some ASKING_UNIT_PRICE
  /\ users asked_price !! 7 = None
  /\ Reference.float_of_string (Reference.strip "1.5") = Some 1.5%float
  /\ le0 1.5%float = false
  /\ (let w1 := @step Reference.runtime in_june asked_price (TextMessage 7 7 "1.5") in
      let w2 := @step Reference.runtime in_june w1 (CommandCancel 7 7) in
      conversation_of 7 7 w1 = Some ASKING_START_DATE
      /\ conversation_of 7 7 w2 = None
      /\ users w2 !! 7 = Some (mkuser 1.5%float 0 None None)
      /\ usage w2 = usage asked_price).
Proof.
  assert (Hc : conversation_of 7 7 asked_price = Some ASKING_UNIT_PRICE)
    by (vm_compute; reflexivity).
  assert (Hn : users asked_price !! 7 = None) by (vm_compute; reflexivity).
  assert (Hp : Reference.float_of_string (Reference.strip "1.5") = Some 1.5%float)
    by (vm_compute; reflexivity).
  assert (Hle : le0 1.5%float = false) by reflexivity.
  repeat (split; [assumption|]).
  exact (proj2 (@cancel_only_clears_flags Reference.runtime in_june)
               asked_price 7 7 "1.5" 1.5%float Hc Hn Hp Hle).
Defined.

(** C7 on the text "nan": [float] reads it as NaN, the test [price <= 0] is
    false of NaN, and the price step creates the profile with that unit
    price, which is not greater than 0, and moves to the start-date step.
    The change-price path, which tests [new_price > 0], leaves the price of a
    profile unchanged on the same text. *)
Theorem price_step_accepts_nan :
  conversation_of 7 7 (run_in in_december [CommandStart 7 7]) = Some ASKING_UNIT_PRICE
  /\ users (run_in in_december [CommandStart 7 7]) !! 7 = None
  /\ Reference.float_of_string (Reference.strip "nan") = Some PrimFloat.nan
  /\ le0 PrimFloat.nan = false
  /\ gt0 PrimFloat.nan = false
  /\ users nan_price !! 7 = Some (mkuser PrimFloat.nan 0 None None)
  /\ conversation_of 7 7 nan_price = Some ASKING_START_DATE
  /\ unit_price <$> (users (run_in in_june (onboarding ++ [CallbackQuery 7 7 "CHANGE_PRICE";
                                                           TextMessage 7 7 "nan"])) !! 7)
     = Some 1.5%float.
Proof. vm_compute. repeat split; reflexivity. Qed.

End OnExamples.

(** ** The render policy of the dashboard *)

Section Render.

Context `{PyRuntime} (E : environment).

Lemma quiet_refl w : quiet w w.
Proof. unfold quiet. tauto. Qed.

Lemma quiet_trans a b c : quiet a b -> quiet b c -> quiet a c.
Proof. unfold quiet. intuition congruence. Qed.

Lemma returns_quietly_ret {A} (a : A) : returns_quietly (ret a).
Proof. intros w. exists a, w. split; [reflexivity | apply quiet_refl]. Qed.

Lemma returns_quietly_bind {A B} (m : M A) (k : A -> M B) :
  returns_quietly m -> (forall a, returns_quietly (k a)) -> returns_quietly (bind m k).
Proof.
  intros Hm Hk w. destruct (Hm w) as (a & w1 & Em & Q1).
  destruct (Hk a w1) as (b & w2 & Ek & Q2).
  exists b, w2. split; [|by eapply quiet_trans].
  unfold bind. by rewrite Em.
Qed.

Lemma datetime_now_quiet : returns_quietly (datetime_now E).
Proof.
  intros w. eexists _, _. split; [reflexivity|]. unfold quiet. simpl. tauto.
Qed.

Lemma date_today_quiet : returns_quietly (date_today E).
Proof.
  apply returns_quietly_bind; [apply datetime_now_quiet|].
  intros now. apply returns_quietly_ret.
Qed.

Lemma get_aggregates_quiet u : sane_clock E -> returns_quietly (get_aggregates E u).
Proof.
  intros Hsane w. destruct (Hsane (clock_reads w)) as [Hv Ho].
  destruct (get_aggregates_returns E w u Hv Ho) as [aggr Ha].
  exists aggr, (tick_clock w). split; [exact Ha|]. unfold quiet. simpl. tauto.
Qed.

Lemma calculate_forecast_quiet c : returns_quietly (calculate_forecast E c).
Proof.
  unfold calculate_forecast. destruct (le0 c); [apply returns_quietly_ret|].
  apply returns_quietly_bind; [apply date_today_quiet|].
  intros today. apply returns_quietly_ret.
Qed.

Lemma theoretical_spent_since_start_quiet u s :
  sane_clock E -> returns_quietly (theoretical_spent_since_start E u s).
Proof.
  intros Hsane. unfold theoretical_spent_since_start.
  destruct s as [s|]; [|apply returns_quietly_ret].
  destruct (falsy (Some s)); [apply returns_quietly_ret|].
  destruct (strptime_ymd s); [|apply returns_quietly_ret].
  apply returns_quietly_bind; [by apply get_aggregates_quiet|].
  intros aggr. apply returns_quietly_bind; [apply date_today_quiet|].
  intros today. destruct (date_gtb _ today); apply returns_quietly_ret.
Qed.

(** What [update_dashboard] does for a user with a profile whose unit price
    is a number: it computes a dashboard from the row, reading only the
    clock, and then sends or edits. *)
Lemma update_dashboard_outcome w u c b r :
  users w !! u = Some r ->
  PrimFloat.is_nan (unit_price r) = false ->
  sane_clock E ->
  exists d w1,
    quiet w w1 /\ shows r d
    /\ update_dashboard E u c b w
       = (text <- ret (DashboardText d) ;;
          match b, dashboard_message_id r with
          | false, Some dashboard_msg_id =>
            edited <- edit_message_text E c dashboard_msg_id text ;;
            if edited then ret tt
            else
              msg_id <- send_message E c text ;;
              update_dashboard_message_id u msg_id
          | _, _ =>
            msg_id <- send_message E c text ;;
            update_dashboard_message_id u msg_id
          end) w1.
Proof.
  intros Hr Hnum Hsane. unfold update_dashboard.
  unfold bind at 1. unfold get_user at 1, gets at 1. rewrite Hr.
  destruct (get_aggregates_quiet u Hsane w) as (aggr & w1 & E1 & Q1).
  unfold bind at 1. rewrite E1.
  destruct (calculate_forecast_quiet (snd (daily aggr)) w1) as (fc & w2 & E2 & Q2).
  unfold bind at 1. rewrite E2.
  destruct (theoretical_spent_since_start_quiet u (start_smoking_date r) Hsane w2)
    as (th & w3 & E3 & Q3).
  unfold bind at 1. rewrite E3, Hnum.
  eexists _, w3. split; [eauto using quiet_trans|]. split; [|reflexivity].
  unfold shows. simpl. tauto.
Qed.

End Render.

Section RenderCases.

Context `{PyRuntime} (E : environment).

Lemma alter_existing {A} (f : A -> A) (k : Z) (m : gmap Z A) (a : A) :
  m !! k = Some a -> alter f k m = <[k := f a]> m.
Proof.
  intros Hk. apply map_eq. intros i. destruct (decide (k = i)) as [->|Hne].
  - by rewrite lookup_alter_eq, lookup_insert_eq, Hk.
  - by rewrite lookup_alter_ne, lookup_insert_ne.
Qed.

(** X1 (update_dashboard, new message): for a user with a profile whose unit
    price is a number, when a new message is asked for or no dashboard
    reference is stored, the call returns,
    sends exactly one message, the dashboard of the row, attempts no edit, and
    stores the identifier of the message sent as the dashboard reference;
    nothing else of the row, the usage history or the flags changes. *)
Theorem dashboard_sent_as_new_message w u c b r :
  users w !! u = Some r ->
  PrimFloat.is_nan (unit_price r) = false ->
  sane_clock E ->
  b = true \/ dashboard_message_id r = None ->
  exists d,
    shows r d
    /\ fst (update_dashboard E u c b w) = Ok tt
    /\ let w' := exec (update_dashboard E u c b) w in
       outbox w' = outbox w ++ [SendMessage c (DashboardText d)]
       /\ users w' = <[u := with_dashboard_id (message_ids E (sends w)) r]> (users w)
       /\ usage w' = usage w /\ user_data w' = user_data w
       /\ edit_attempts w' = edit_attempts w.
Proof.
  intros Hr Hnum Hsane Hnew.
  destruct (update_dashboard_outcome E w u c b r Hr Hnum Hsane) as (d & w1 & Q & Hd & Eq).
  destruct Q as (Qu & Qg & Qd & Qc & Qo & Qs & Qe).
  exists d. split; [exact Hd|].
  assert (Eq' : update_dashboard E u c b w
                = (Ok tt, with_users (alter (with_dashboard_id (message_ids E (sends w1))) u)
                            (tick_sends (with_outbox
                               (fun o => o ++ [SendMessage c (DashboardText d)]) w1)))).
  { rewrite Eq. destruct Hnew as [->| ->]; [|destruct b]; reflexivity. }
  unfold exec. rewrite Eq'. simpl.
  rewrite Qu, Qg, Qd, Qo, Qs, Qe. rewrite (alter_existing _ _ _ _ Hr). tauto.
Qed.

(** X2 (update_dashboard, edit): for a user with a stored dashboard reference
    and a unit price that is a number, when no new message is asked for and
    the transport accepts the edit, the
    call edits that message once and sends nothing; the tables and the flags
    are as before. *)
Theorem dashboard_edited_in_place w u c r dashboard_msg_id :
  users w !! u = Some r ->
  PrimFloat.is_nan (unit_price r) = false ->
  sane_clock E ->
  dashboard_message_id r = Some dashboard_msg_id ->
  edit_succeeds E (edit_attempts w) = true ->
  exists d,
    shows r d
    /\ fst (update_dashboard E u c false w) = Ok tt
    /\ let w' := exec (update_dashboard E u c false) w in
       outbox w' = outbox w ++ [EditMessageText c dashboard_msg_id (DashboardText d) true]
       /\ users w' = users w /\ usage w' = usage w /\ user_data w' = user_data w
       /\ sends w' = sends w.
Proof.
  intros Hr Hnum Hsane Hid Hok.
  destruct (update_dashboard_outcome E w u c false r Hr Hnum Hsane) as (d & w1 & Q & Hd & Eq).
  destruct Q as (Qu & Qg & Qd & Qc & Qo & Qs & Qe).
  exists d. split; [exact Hd|].
  assert (Eq' : update_dashboard E u c false w
                = (Ok tt, tick_edits (with_outbox
                     (fun o => o ++ [EditMessageText c dashboard_msg_id (DashboardText d) true])
                     w1))).
  { rewrite Eq, Hid. unfold bind, ret, edit_message_text. simpl.
    rewrite Qe, Hok. reflexivity. }
  unfold exec. rewrite Eq'. simpl. rewrite Qu, Qg, Qd, Qo, Qs. tauto.
Qed.

(** X3 (update_dashboard, failed edit): for such a user, when the transport
    refuses the edit, the failure is absorbed: the call returns, the dashboard is sent as a new
    message right after the failed attempt, and the stored reference becomes
    the identifier of that message. *)
Theorem dashboard_resent_when_edit_fails w u c r dashboard_msg_id :
  users w !! u = Some r ->
  PrimFloat.is_nan (unit_price r) = false ->
  sane_clock E ->
  dashboard_message_id r = Some dashboard_msg_id ->
  edit_succeeds E (edit_attempts w) = false ->
  exists d,
    shows r d
    /\ fst (update_dashboard E u c false w) = Ok tt
    /\ let w' := exec (update_dashboard E u c false) w in
       outbox w' = outbox w ++ [EditMessageText c dashboard_msg_id (DashboardText d) false;
                                SendMessage c (DashboardText d)]
       /\ users w' = <[u := with_dashboard_id (message_ids E (sends w)) r]> (users w)
       /\ usage w' = usage w /\ user_data w' = user_data w.
Proof.
  intros Hr Hnum Hsane Hid Hok.
  destruct (update_dashboard_outcome E w u c false r Hr Hnum Hsane) as (d & w1 & Q & Hd & Eq).
  destruct Q as (Qu & Qg & Qd & Qc & Qo & Qs & Qe).
  exists d. split; [exact Hd|].
  assert (Eq' : update_dashboard E u c false w
                = (Ok tt, with_users (alter (with_dashboard_id (message_ids E (sends w1))) u)
                     (tick_sends (with_outbox (fun o => o ++ [SendMessage c (DashboardText d)])
                        (tick_edits (with_outbox
                           (fun o => o ++ [EditMessageText c dashboard_msg_id
                                             (DashboardText d) false]) w1)))))).
  { rewrite Eq, Hid. unfold bind, ret, edit_message_text. simpl.
    rewrite Qe, Hok. reflexivity. }
  unfold exec. rewrite Eq'. simpl.
  rewrite Qu, Qg, Qd, Qo, Qs, <- app_assoc. rewrite (alter_existing _ _ _ _ Hr). tauto.
Qed.

End RenderCases.

(** ** Invariants of the whole state *)

Section WorldInvariant.

Context `{PyRuntime} (E : environment).

(** A property of the state that the handlers keep when they act for the
    user [actor] in the chat [chat]: it is kept by each effect of a handler,
    under the guard the handler has checked before it.  [adding] holds of the
    amounts the update may add to the stock.  [I_stranded] is the write of
    the stock that is not followed by a usage row, because the product of
    the price and the quantity raises. *)
Variable I : world -> Prop.
Variables actor chat : Z.
Variable adding : Z -> Prop.
Hypothesis I_clock : forall w, I w -> I (tick_clock w).
Hypothesis I_answer : forall w, I w -> I (exec answer_callback_query w).
Hypothesis I_send : forall w t, I w -> I (exec (send_message E chat t) w).
Hypothesis I_edit : forall w i t, I w -> I (exec (edit_message_text E chat i t) w).
Hypothesis I_dashboard : forall w d,
    I w -> I (exec (msg_id <- send_message E chat (DashboardText d) ;;
                    update_dashboard_message_id actor msg_id) w).
Hypothesis I_conversation : forall w s,
    I w -> I (with_conversations (insert (chat, actor) s) w).
Hypothesis I_end : forall w, I w -> I (with_conversations (delete (chat, actor)) w).
Hypothesis I_create : forall w p,
    users w !! actor = None -> le0 p = false ->
    I w -> I (with_users (insert actor (mkuser p 0 None None)) w).
Hypothesis I_price : forall w p,
    gt0 p = true -> I w -> I (exec (update_user_price actor p) w).
Hypothesis I_start : forall w d,
    date_valid d = true ->
    I w -> I (exec (update_user_start_date actor (date_isoformat d)) w).
Hypothesis I_add : forall w r n,
    users w !! actor = Some r -> adding n ->
    I w -> I (exec (update_user_stock actor (stock r + n)) w).
Hypothesis I_consume : forall w r q c,
    users w !! actor = Some r -> 0 < q <= stock r ->
    (q = 1 /\ c = unit_price r)
    \/ (PrimFloat.is_nan (unit_price r) = false /\ c = mul_int (unit_price r) q) ->
    I w -> I (exec (log_smoke_event E actor q c)
                (exec (update_user_stock actor (stock r - q)) w)).
Hypothesis I_stranded : forall w r q,
    users w !! actor = Some r -> 0 < q <= stock r ->
    PrimFloat.is_nan (unit_price r) = true ->
    I w -> I (exec (update_user_stock actor (stock r - q)) w).
Hypothesis I_flag_set : forall w k,
    is_Some (users w !! actor) -> I w -> I (exec (user_data_set actor k) w).
Hypothesis I_flag_pop : forall w k, I w -> I (exec (user_data_pop actor k) w).

#[local] Instance keeps_refl : Reflexive (keeps I).
Proof. intros w Hw. exact Hw. Qed.

#[local] Instance keeps_trans : Transitive (keeps I).
Proof. intros a b c Hab Hbc Ha. apply Hbc, Hab, Ha. Qed.

Lemma keeps_bind_at {A B} (m : M A) (k : A -> M B) w :
  keeps I w (exec m w) -> (forall a, respects (keeps I) (k a)) ->
  keeps I w (exec (bind m k) w).
Proof.
  intros Hm Hk. rewrite exec_bind. unfold exec in Hm.
  destruct (m w) as [[a|e] w1]; simpl in Hm; [|exact Hm].
  transitivity w1; [exact Hm | apply Hk].
Qed.

Lemma datetime_now_keeps : respects (keeps I) (datetime_now E).
Proof. intros w. unfold keeps. apply I_clock. Qed.

Lemma send_message_keeps t : respects (keeps I) (send_message E chat t).
Proof. intros w. unfold keeps. apply I_send. Qed.

Lemma answer_callback_query_keeps : respects (keeps I) answer_callback_query.
Proof. intros w. unfold keeps. apply I_answer. Qed.

Ltac keeps_step :=
  first
    [ apply (respects_ret (keeps I))
    | apply datetime_now_keeps
    | apply send_message_keeps
    | apply answer_callback_query_keeps
    | apply (respects_gets (keeps I))
    | apply (respects_bind (keeps I)); [ | intros ? ] ].

Lemma get_aggregates_keeps u : respects (keeps I) (get_aggregates E u).
Proof.
  unfold get_aggregates, _aggregate_usage.
  apply (respects_bind (keeps I)); [keeps_step|]. intros now.
  destruct (minus_timedelta_days 7 now); [repeat keeps_step|].
  apply (respects_raise (keeps I)).
Qed.

Lemma calculate_forecast_keeps c : respects (keeps I) (calculate_forecast E c).
Proof. unfold calculate_forecast, date_today. destruct (le0 c); repeat keeps_step. Qed.

Lemma theoretical_spent_since_start_keeps u s :
  respects (keeps I) (theoretical_spent_since_start E u s).
Proof.
  unfold theoretical_spent_since_start, date_today.
  destruct s as [s|]; [|keeps_step].
  destruct (falsy (Some s)); [keeps_step|].
  destruct (strptime_ymd s); [|keeps_step].
  apply (respects_bind (keeps I)); [apply get_aggregates_keeps|]. intros aggr.
  apply (respects_bind (keeps I)); [repeat keeps_step|]. intros today.
  destruct (date_gtb _ today); keeps_step.
Qed.

(** The refresh of the dashboard: readings of the clock, then one edit, or
    one message sent and recorded, or the edit and then the message. *)
Lemma update_dashboard_keeps b : respects (keeps I) (update_dashboard E actor chat b).
Proof.
  unfold update_dashboard, get_user.
  apply (respects_bind (keeps I)); [keeps_step|].
  intros [r|]; [|keeps_step].
  apply (respects_bind (keeps I)); [apply get_aggregates_keeps|]. intros aggr.
  apply (respects_bind (keeps I)); [apply calculate_forecast_keeps|]. intros forecast_val.
  apply (respects_bind (keeps I)); [apply theoretical_spent_since_start_keeps|].
  intros theoretical_total.
  assert (Hsend : forall d, respects (keeps I)
            (msg_id <- send_message E chat (DashboardText d) ;;
             update_dashboard_message_id actor msg_id)).
  { intros d w. unfold keeps. apply I_dashboard. }
  destruct (PrimFloat.is_nan (unit_price r)); [apply (respects_raise (keeps I))|].
  destruct b; [apply Hsend|].
  destruct (dashboard_message_id r); [|apply Hsend].
  apply (respects_bind (keeps I)); [intros w; unfold keeps; apply I_edit|].
  intros [|]; [keeps_step | apply Hsend].
Qed.

Lemma create_user_keeps p : le0 p = false -> respects (keeps I) (create_user actor p).
Proof.
  intros Hp. unfold create_user, get_user. apply respects_bind_gets. intros w.
  destruct (users w !! actor) eqn:Eu; [reflexivity|].
  intros Hw. by apply I_create.
Qed.

Lemma start_keeps : respects (keeps I) (start E actor chat).
Proof.
  unfold start, get_user. apply (respects_bind (keeps I)); [keeps_step|].
  intros [r|]; [|repeat keeps_step].
  apply (respects_bind (keeps I)); [apply update_dashboard_keeps|]. intros _. keeps_step.
Qed.

Lemma ask_unit_price_keeps t : respects (keeps I) (ask_unit_price E actor chat t).
Proof.
  unfold ask_unit_price. destruct (py_float _) as [p|]; [|repeat keeps_step].
  destruct (le0 p) eqn:Ep; [repeat keeps_step|].
  apply (respects_bind (keeps I)); [by apply create_user_keeps|].
  intros _. repeat keeps_step.
Qed.

Lemma ask_start_date_keeps t : respects (keeps I) (ask_start_date E actor chat t).
Proof.
  assert (Hshow : respects (keeps I) (update_dashboard E actor chat true ;;; ret END)).
  { apply (respects_bind (keeps I)); [apply update_dashboard_keeps|]. intros _. keeps_step. }
  unfold ask_start_date.
  destruct (String.eqb _ _); [exact Hshow|].
  destruct (strptime_ymd _) as [d|] eqn:Ed; [|repeat keeps_step].
  apply strptime_ymd_valid in Ed.
  apply (respects_bind (keeps I)); [intros w; unfold keeps; by apply I_start|].
  intros _. exact Hshow.
Qed.

Lemma cancel_keeps : respects (keeps I) (cancel actor).
Proof.
  unfold cancel.
  apply (respects_bind (keeps I)); [intros w; unfold keeps; apply I_flag_pop|]. intros _.
  apply (respects_bind (keeps I)); [intros w; unfold keeps; apply I_flag_pop|]. intros _.
  keeps_step.
Qed.

Lemma menu_callback_keeps d :
  (forall n, added_by (CallbackQuery actor chat d) = Some n -> adding n) ->
  respects (keeps I) (menu_callback E actor chat d).
Proof.
  intros Hadd. unfold menu_callback, get_user.
  apply (respects_bind (keeps I)); [keeps_step|]. intros _.
  apply respects_bind_gets. intros w.
  destruct (users w !! actor) as [r|] eqn:Er; [|reflexivity].
  fold (keeps I w). simpl in Hadd.
  destruct (String.eqb d "ADD_PACK").
  { apply keeps_bind_at; [|intros _; apply update_dashboard_keeps].
    unfold keeps. apply (I_add w r 20 Er). by apply Hadd. }
  destruct (String.eqb d "ADD_CIG").
  { apply keeps_bind_at; [|intros _; apply update_dashboard_keeps].
    unfold keeps. apply (I_add w r 1 Er). by apply Hadd. }
  destruct (String.eqb d "SMOKE_ONE").
  { apply keeps_bind_at; [|intros _; apply update_dashboard_keeps].
    destruct (0 <? stock r) eqn:Epos; [|reflexivity].
    apply Z.ltb_lt in Epos. rewrite exec_bind. unfold keeps.
    apply (I_consume w r 1 (unit_price r) Er); [lia | by left]. }
  destruct (String.eqb d "SMOKE_MORE").
  { unfold keeps. apply I_flag_set. by rewrite Er. }
  destruct (String.eqb d "CHANGE_PRICE").
  { unfold keeps. apply I_flag_set. by rewrite Er. }
  apply update_dashboard_keeps.
Qed.

Lemma handle_text_message_keeps t :
  respects (keeps I) (handle_text_message E actor chat t).
Proof.
  assert (Hpop : forall k, respects (keeps I)
            (user_data_pop actor k ;;; update_dashboard E actor chat false)).
  { intros k. apply (respects_bind (keeps I)); [intros w; unfold keeps; apply I_flag_pop|].
    intros _. apply update_dashboard_keeps. }
  unfold handle_text_message, user_data_get, get_user.
  apply (respects_bind (keeps I)); [keeps_step|].
  intros [|].
  - apply (respects_bind (keeps I)); [|intros _; apply Hpop].
    destruct (py_float _) as [p|]; [|keeps_step].
    destruct (gt0 p) eqn:Ep; [|keeps_step]. intros w. unfold keeps. by apply I_price.
  - apply (respects_bind (keeps I)); [keeps_step|].
    intros [|]; [|keeps_step].
    apply respects_bind_gets. intros w.
    destruct (users w !! actor) as [r|] eqn:Er; [|reflexivity].
    apply keeps_bind_at; [|intros _; apply Hpop].
    destruct (py_int _) as [q|]; [|reflexivity].
    destruct ((0 <? q) && (q <=? stock r)) eqn:Eq; [|reflexivity].
    apply andb_true_iff in Eq as [Hq1 Hq2].
    apply Z.ltb_lt in Hq1. apply Z.leb_le in Hq2. rewrite exec_bind. unfold keeps.
    destruct (PrimFloat.is_nan (unit_price r)) eqn:En.
    + apply (I_stranded w r q Er); [lia | exact En].
    + apply (I_consume w r q _ Er); [lia | by right].
Qed.

Lemma run_conversation_keeps (cb : M conversation_state) :
  respects (keeps I) cb -> respects (keeps I) (run_conversation chat actor cb).
Proof.
  intros Hcb w Hw. specialize (Hcb w Hw). unfold exec, run_conversation in *.
  destruct (cb w) as [[[| |]|e] w1]; simpl in *;
    first [exact Hcb | by apply I_conversation | by apply I_end].
Qed.

(** Such a property is kept by every update of the actor in the chat. *)
Lemma process_update_effects upd :
  update_user upd = actor -> update_chat upd = chat ->
  (forall n, added_by upd = Some n -> adding n) ->
  respects (keeps I) (process_update E upd).
Proof.
  destruct upd as [u c|u c|u c t|u c d]; simpl; intros -> -> Hadd.
  - apply run_conversation_keeps, start_keeps.
  - apply (respects_bind (keeps I)); [keeps_step|].
    intros [s|]; [apply run_conversation_keeps, cancel_keeps | keeps_step].
  - apply (respects_bind (keeps I)); [keeps_step|].
    intros [[| |]|].
    + apply run_conversation_keeps, ask_unit_price_keeps.
    + apply run_conversation_keeps, ask_start_date_keeps.
    + apply handle_text_message_keeps.
    + apply handle_text_message_keeps.
  - by apply menu_callback_keeps.
Qed.

End WorldInvariant.

(** ** Invariants of the tables and the flags *)

Section StoredInvariant.

Context `{PyRuntime} (E : environment).

(** A property that does not depend on what [stored] leaves out: the calls on
    the transport, the counters and the dashboard reference of the actor. *)
Variable I : world -> Prop.
Variables actor chat : Z.
Variable adding : Z -> Prop.
Hypothesis I_frame : forall w w', same_on (stored actor) w w' -> I w -> I w'.
Hypothesis I_conversation : forall w s,
    I w -> I (with_conversations (insert (chat, actor) s) w).
Hypothesis I_end : forall w, I w -> I (with_conversations (delete (chat, actor)) w).
Hypothesis I_create : forall w p,
    users w !! actor = None -> le0 p = false ->
    I w -> I (with_users (insert actor (mkuser p 0 None None)) w).
Hypothesis I_price : forall w p,
    gt0 p = true -> I w -> I (exec (update_user_price actor p) w).
Hypothesis I_start : forall w d,
    date_valid d = true ->
    I w -> I (exec (update_user_start_date actor (date_isoformat d)) w).
Hypothesis I_add : forall w r n,
    users w !! actor = Some r -> adding n ->
    I w -> I (exec (update_user_stock actor (stock r + n)) w).
Hypothesis I_consume : forall w r q c,
    users w !! actor = Some r -> 0 < q <= stock r ->
    (q = 1 /\ c = unit_price r)
    \/ (PrimFloat.is_nan (unit_price r) = false /\ c = mul_int (unit_price r) q) ->
    I w -> I (exec (log_smoke_event E actor q c)
                (exec (update_user_stock actor (stock r - q)) w)).
Hypothesis I_stranded : forall w r q,
    users w !! actor = Some r -> 0 < q <= stock r ->
    PrimFloat.is_nan (unit_price r) = true ->
    I w -> I (exec (update_user_stock actor (stock r - q)) w).
Hypothesis I_flag_set : forall w k,
    is_Some (users w !! actor) -> I w -> I (exec (user_data_set actor k) w).
Hypothesis I_flag_pop : forall w k, I w -> I (exec (user_data_pop actor k) w).

Lemma stored_persisted u w w' : same_on (stored u) w w' -> same_on persisted w w'.
Proof. apply (same_on_coarser (stored u) persisted snd). reflexivity. Qed.

Lemma update_dashboard_message_id_stored w i :
  same_on (stored actor) w (exec (update_dashboard_message_id actor i) w).
Proof.
  unfold same_on, stored, persisted, exec, update_dashboard_message_id, modify, with_users.
  simpl. rewrite delete_alter_eq, fmap_alter_same; [done | by intros []].
Qed.

(** Such a property is kept by every update of the actor in the chat. *)
Lemma process_update_keeps upd :
  update_user upd = actor -> update_chat upd = chat ->
  (forall n, added_by upd = Some n -> adding n) ->
  respects (keeps I) (process_update E upd).
Proof.
  apply (process_update_effects E I actor chat adding); try assumption.
  - intros w. apply I_frame. reflexivity.
  - intros w. apply I_frame. reflexivity.
  - intros w t. apply I_frame. reflexivity.
  - intros w i t. apply I_frame. reflexivity.
  - intros w d. apply I_frame. rewrite exec_bind. unfold send_message at 1.
    etransitivity; [|apply update_dashboard_message_id_stored]. reflexivity.
Qed.

End StoredInvariant.

(** ** Invariants of the reachable states *)

Section Reachable.

Context `{PyRuntime} (E : environment).

Lemma stored_lookup a w w' u :
  same_on (stored a) w w' ->
  profile_of <$> (users w' !! u) = profile_of <$> (users w !! u).
Proof. intros Hs. by apply records_lookup, persisted_records, (stored_persisted a). Qed.

Lemma stored_is_Some a w w' u :
  same_on (stored a) w w' -> is_Some (users w !! u) -> is_Some (users w' !! u).
Proof.
  intros Hs Hu. pose proof (stored_lookup _ _ _ u Hs) as Hl.
  destruct Hu as [r Hr]. rewrite Hr in Hl.
  destruct (users w' !! u); [eauto | discriminate].
Qed.

Lemma stored_usage a w w' : same_on (stored a) w w' -> usage w' = usage w.
Proof. intros Hs. by apply records_usage, persisted_records, (stored_persisted a). Qed.

Lemma persisted_flag_set w w' u k :
  same_on persisted w w' -> flag_set u k w' = flag_set u k w.
Proof. unfold same_on, persisted, flag_set. intros [= _ _ Hd _]. by rewrite Hd. Qed.

Lemma stored_flag_set a w w' u k :
  same_on (stored a) w w' -> flag_set u k w' = flag_set u k w.
Proof. intros Hs. by apply persisted_flag_set, (stored_persisted a). Qed.

Lemma stored_belongings a v c w w' :
  v <> a -> same_on (stored a) w w' -> belongings v c w' = belongings v c w.
Proof.
  intros Hne Hs. unfold same_on, stored, persisted in Hs.
  injection Hs as Hu _ Hg Hd Hc. unfold belongings. rewrite Hg, Hd, Hc.
  apply (f_equal (fun m => m !! v)) in Hu. rewrite !lookup_delete_ne in Hu by done.
  by rewrite Hu.
Qed.

Lemma alter_users_is_Some (g : user_row -> user_row) u v w :
  is_Some (users w !! v) -> is_Some (users (with_users (alter g u) w) !! v).
Proof. simpl. by rewrite lookup_alter_is_Some. Qed.

Lemma insert_users_is_Some r u v w :
  is_Some (users w !! v) -> is_Some (users (with_users (insert u r) w) !! v).
Proof. simpl. rewrite lookup_insert_is_Some'. by right. Qed.

Lemma flag_set_after_set u k v k' w :
  flag_set v k' (exec (user_data_set u k) w) = true ->
  v = u \/ flag_set v k' w = true.
Proof.
  unfold flag_set, exec, user_data_set, modify. simpl.
  destruct (decide (u = v)) as [->|Hne]; [by left|].
  rewrite lookup_insert_ne by done. by right.
Qed.

Lemma flag_set_after_pop u k v k' w :
  flag_set v k' (exec (user_data_pop u k) w) = true -> flag_set v k' w = true.
Proof.
  unfold flag_set, exec, user_data_pop, modify. simpl.
  destruct (decide (u = v)) as [->|Hne]; [|by rewrite lookup_alter_ne].
  rewrite lookup_alter_eq. destruct (user_data w !! v) as [d|]; simpl; [|done].
  destruct (decide (k = k')) as [->|Hk].
  - by rewrite lookup_delete_eq.
  - by rewrite lookup_delete_ne.
Qed.

(** A value greater than 0 is not at most 0. *)
Lemma gt0_not_le0 x : gt0 x = true -> le0 x = false.
Proof.
  unfold le0, gt0. rewrite FloatAxioms.leb_spec, FloatAxioms.ltb_spec.
  change (Prim2SF PrimFloat.zero) with (S754_zero false).
  destruct (Prim2SF x) as [s|s| |s m e]; try destruct s;
    cbv [SFleb SFltb SFcompare]; simpl; congruence.
Qed.

(** A value greater than 0 is a number. *)
Lemma gt0_is_number x : gt0 x = true -> PrimFloat.is_nan x = false.
Proof.
  unfold PrimFloat.is_nan, gt0. rewrite FloatAxioms.eqb_spec, FloatAxioms.ltb_spec.
  change (Prim2SF PrimFloat.zero) with (S754_zero false).
  destruct (Prim2SF x) as [s|s| |s m e]; try destruct s;
    cbv [SFeqb SFltb SFcompare]; simpl; try congruence.
  intros _. rewrite Z.compare_refl.
  change (PosDef.Pos.compare_cont Eq m m) with (Pos.compare m m).
  by rewrite Pos.compare_refl.
Qed.

Lemma largest_usage_id rows a :
  map usage_id rows = map Z.of_nat (seq (S a) (length rows)) ->
  fold_right (fun r acc => Z.max (usage_id r) acc) 0 rows
  = match rows with [] => 0 | _ => Z.of_nat (a + length rows) end.
Proof.
  revert a. induction rows as [|r rs IH]; intros a; [reflexivity|].
  simpl. intros [= Hr Hrs]. rewrite (IH (S a) Hrs), Hr.
  destruct rs; simpl; lia.
Qed.

Lemma next_usage_id_numbered rows :
  map usage_id rows = map Z.of_nat (seq 1 (length rows)) ->
  next_usage_id rows = Z.of_nat (S (length rows)).
Proof.
  intros Hn. unfold next_usage_id. rewrite (largest_usage_id rows 0 Hn).
  destruct rows; simpl; lia.
Qed.

Lemma added_by_positive upd n : added_by upd = Some n -> 0 < n.
Proof.
  destruct upd as [| | |u c d]; simpl; try discriminate.
  destruct (String.eqb d "ADD_PACK"); [intros [= <-]; lia|].
  destruct (String.eqb d "ADD_CIG"); [intros [= <-]; lia | discriminate].
Qed.

(** X4 (all handlers): no update deletes a profile. *)
Theorem profiles_are_never_deleted w upd u :
  is_Some (users w !! u) -> is_Some (users (step E w upd) !! u).
Proof.
  apply (process_update_keeps E (fun w => is_Some (users w !! u))
           (update_user upd) (update_chat upd) (fun n => 0 < n));
    try reflexivity; try apply added_by_positive; clear w.
  - intros w w' Hs. by apply (stored_is_Some _ _ _ _ Hs).
  - intros w s Hu. exact Hu.
  - intros w Hu. exact Hu.
  - intros w p _ _. apply insert_users_is_Some.
  - intros w p _. apply alter_users_is_Some.
  - intros w d _. apply alter_users_is_Some.
  - intros w r n _ _. apply alter_users_is_Some.
  - intros w r q c _ _ _. apply alter_users_is_Some.
  - intros w r q _ _ _. apply alter_users_is_Some.
  - intros w k _ Hu. exact Hu.
  - intros w k Hu. exact Hu.
Qed.

Lemma flags_have_profile_step w upd :
  flags_have_profile w -> flags_have_profile (step E w upd).
Proof.
  apply (process_update_keeps E flags_have_profile
           (update_user upd) (update_chat upd) (fun n => 0 < n));
    try reflexivity; try apply added_by_positive; clear w.
  - intros w w' Hs Hw u k. rewrite (stored_flag_set _ _ _ u k Hs).
    intros Hf. apply (stored_is_Some _ _ _ u Hs), (Hw u k Hf).
  - intros w s Hw. exact Hw.
  - intros w Hw. exact Hw.
  - intros w p _ _ Hw u k Hf. apply insert_users_is_Some, (Hw u k Hf).
  - intros w p _ Hw u k Hf. apply alter_users_is_Some, (Hw u k Hf).
  - intros w d _ Hw u k Hf. apply alter_users_is_Some, (Hw u k Hf).
  - intros w r n _ _ Hw u k Hf. apply alter_users_is_Some, (Hw u k Hf).
  - intros w r q c _ _ _ Hw u k Hf. apply alter_users_is_Some, (Hw u k Hf).
  - intros w r q _ _ _ Hw u k Hf. apply alter_users_is_Some, (Hw u k Hf).
  - intros w k Hv Hw u k' Hf.
    destruct (flag_set_after_set _ _ _ _ _ Hf) as [->|Hf']; [exact Hv | exact (Hw u k' Hf')].
  - intros w k Hw u k' Hf. exact (Hw u k' (flag_set_after_pop _ _ _ _ _ Hf)).
Qed.

(** X5 (menu_callback, handle_text_message): in every state of the running
    bot, a pending flag belongs to a user with a profile; so the test
    [if not user_row: return] of the consume-more branch never fires. *)
Theorem pending_flag_has_profile w u k :
  reachable E w -> flag_set u k w = true -> is_Some (users w !! u).
Proof.
  intros Hreach. revert u k. change (flags_have_profile w).
  induction Hreach as [|w upd Hreach IH]; [|by apply flags_have_profile_step].
  intros u k. unfold flag_set, initial_world. simpl. by rewrite lookup_empty.
Qed.

Lemma prices_pass_guard_step w upd :
  prices_pass_guard w -> prices_pass_guard (step E w upd).
Proof.
  assert (Halter : forall (g : user_row -> user_row) u w,
             (forall r, le0 (unit_price r) = false -> le0 (unit_price (g r)) = false) ->
             prices_pass_guard w -> prices_pass_guard (with_users (alter g u) w)).
  { intros g u w0 Hg Hw v r. simpl. destruct (decide (u = v)) as [->|Hne].
    - rewrite lookup_alter_eq. destruct (users w0 !! v) as [r0|] eqn:Er0; [|done].
      intros [= <-]. apply Hg, (Hw _ _ Er0).
    - rewrite lookup_alter_ne by done. apply Hw. }
  apply (process_update_keeps E prices_pass_guard
           (update_user upd) (update_chat upd) (fun n => 0 < n));
    try reflexivity; try apply added_by_positive; clear w.
  - intros w w' Hs Hw u r Hr. pose proof (stored_lookup _ _ _ u Hs) as Hl.
    rewrite Hr in Hl. destruct (users w !! u) as [r0|] eqn:Er0; [|discriminate].
    simpl in Hl. injection Hl as Hp _ _. rewrite Hp. exact (Hw _ _ Er0).
  - intros w s Hw. exact Hw.
  - intros w Hw. exact Hw.
  - intros w p _ Hp Hw u r. simpl. destruct (decide (update_user upd = u)) as [->|Hne].
    + rewrite lookup_insert_eq. by intros [= <-].
    + rewrite lookup_insert_ne by done. apply Hw.
  - intros w p Hp. apply Halter. intros r _. by apply gt0_not_le0.
  - intros w d _. by apply Halter.
  - intros w r n _ _. by apply Halter.
  - intros w r q c _ _ _ Hw.
    exact (Halter (fun r0 => mkuser (unit_price r0) (stock r - q) (dashboard_message_id r0)
                               (start_smoking_date r0)) _ w (fun _ Hle => Hle) Hw).
  - intros w r q _ _ _. by apply Halter.
  - intros w k _ Hw. exact Hw.
  - intros w k Hw. exact Hw.
Qed.

(** X6 (ask_unit_price, handle_text_message): in every state of the running
    bot a stored unit price that is a number (not NaN) is greater than 0: a
    price is written only after the test [price <= 0] has failed or the test
    [new_price > 0] has passed. *)
Theorem stored_price_is_positive w u r :
  reachable E w -> users w !! u = Some r ->
  PrimFloat.is_nan (unit_price r) = false -> gt0 (unit_price r) = true.
Proof.
  intros Hreach Hr Hnan. apply not_le0_gt0; [exact Hnan|].
  assert (Hg : prices_pass_guard w).
  { clear u r Hr Hnan.
    induction Hreach as [|w upd Hreach IH]; [|by apply prices_pass_guard_step].
    intros u r. unfold initial_world. simpl. by rewrite lookup_empty. }
  exact (Hg u r Hr).
Qed.

Lemma usage_sound_step w upd : usage_sound w -> usage_sound (step E w upd).
Proof.
  assert (Husers : forall (f : gmap Z user_row -> gmap Z user_row) w,
             (forall v, is_Some (users w !! v) -> is_Some (f (users w) !! v)) ->
             usage_sound w -> usage_sound (with_users f w)).
  { intros f w0 Hf [Hn Hall]. split; [exact Hn|]. simpl.
    eapply Forall_impl; [exact Hall|]. intros row [Hq Hu]. split; [exact Hq | by apply Hf]. }
  apply (process_update_keeps E usage_sound
           (update_user upd) (update_chat upd) (fun n => 0 < n));
    try reflexivity; try apply added_by_positive; clear w.
  - intros w w' Hs [Hn Hall]. unfold usage_sound. rewrite (stored_usage _ _ _ Hs).
    split; [exact Hn|]. eapply Forall_impl; [exact Hall|].
    intros row [Hq Hu]. split; [exact Hq | by apply (stored_is_Some _ _ _ _ Hs)].
  - intros w s Hw. exact Hw.
  - intros w Hw. exact Hw.
  - intros w p _ _. apply Husers. intros x. apply (insert_users_is_Some _ _ x w).
  - intros w p _. apply Husers. intros x. apply (alter_users_is_Some _ _ x w).
  - intros w d _. apply Husers. intros x. apply (alter_users_is_Some _ _ x w).
  - intros w r n _ _. apply Husers. intros x. apply (alter_users_is_Some _ _ x w).
  - intros w r q c Hr Hq _ Hw.
    apply (Husers (alter (fun r0 => mkuser (unit_price r0) (stock r - q)
                                      (dashboard_message_id r0) (start_smoking_date r0))
                     (update_user upd)))
      in Hw; [|intros x; apply (alter_users_is_Some _ _ x w)].
    destruct Hw as [Hn Hall]. unfold usage_sound, exec, log_smoke_event, bind, modify,
      datetime_now, update_user_stock. simpl in *.
    rewrite !length_app, !map_app. simpl. split.
    + rewrite Nat.add_1_r, seq_S, map_app, <- Hn. simpl.
      by rewrite (next_usage_id_numbered _ Hn).
    + apply Forall_app. split; [exact Hall|]. apply Forall_cons. split; [|done]. simpl.
      split; [lia|]. rewrite lookup_alter_is_Some. by rewrite Hr.
  - intros w r q _ _ _. apply Husers. intros x. apply (alter_users_is_Some _ _ x w).
  - intros w k _ Hw. exact Hw.
  - intros w k Hw. exact Hw.
Qed.

(** X7 (log_smoke_event and its callers): in every state of the running bot
    the usage rows are numbered 1, 2, ... in the order they were appended,
    each records at least one cigarette, and each belongs to a user who has
    a profile. *)
Theorem usage_rows_are_sound w : reachable E w -> usage_sound w.
Proof.
  induction 1 as [|w upd Hreach IH]; [|by apply usage_sound_step].
  split; [reflexivity | constructor].
Qed.

Lemma filter_other_user v a rows row :
  v <> a -> usage_user_id row = a ->
  List.filter (fun x => Z.eqb (usage_user_id x) v) (rows ++ [row])
  = List.filter (fun x => Z.eqb (usage_user_id x) v) rows.
Proof.
  intros Hne Hrow. rewrite List.filter_app. simpl. rewrite Hrow.
  replace (a =? v) with false by (symmetry; apply Z.eqb_neq; congruence).
  apply app_nil_r.
Qed.

(** X8 (all handlers): an update changes nothing that belongs to a user
    other than its sender: not the profile, dashboard reference included,
    not the flags, not the usage rows, not a conversation. *)
Theorem update_leaves_other_users_alone w upd v c :
  v <> update_user upd ->
  belongings v c (step E w upd) = belongings v c w.
Proof.
  intros Hne.
  apply (process_update_keeps E (fun w' => belongings v c w' = belongings v c w)
           (update_user upd) (update_chat upd) (fun n => True));
    try reflexivity; try done.
  - intros w1 w2 Hs <-. by apply (stored_belongings (update_user upd)).
  - intros w1 s <-. unfold belongings. simpl.
    rewrite lookup_insert_ne by congruence. reflexivity.
  - intros w1 <-. unfold belongings. simpl.
    rewrite lookup_delete_ne by congruence. reflexivity.
  - intros w1 p _ _ <-. unfold belongings. simpl. by rewrite lookup_insert_ne.
  - intros w1 p _ <-. unfold belongings. simpl. by rewrite lookup_alter_ne.
  - intros w1 d _ <-. unfold belongings. simpl. by rewrite lookup_alter_ne.
  - intros w1 r n _ _ <-. unfold belongings. simpl. by rewrite lookup_alter_ne.
  - intros w1 r q x _ _ _ <-. unfold belongings. simpl.
    rewrite lookup_alter_ne by done. by rewrite (filter_other_user v (update_user upd)).
  - intros w1 r q _ _ _ <-. unfold belongings. simpl. by rewrite lookup_alter_ne.
  - intros w1 k _ <-. unfold belongings. simpl. by rewrite lookup_insert_ne.
  - intros w1 k <-. unfold belongings. simpl. by rewrite lookup_alter_ne.
Qed.

(** X9 (menu_callback, handle_text_message): an update other than the two
    add buttons, from a sender whose unit price (if there is a profile) is a
    number, keeps for every user the number of cigarettes in stock plus the
    number recorded as smoked: a cigarette leaves the stock only by being
    recorded in the usage history. *)
Theorem cigarettes_are_accounted_for w upd u :
  added_by upd = None ->
  (forall r, users w !! update_user upd = Some r ->
             PrimFloat.is_nan (unit_price r) = false) ->
  accounted u (step E w upd) = accounted u w.
Proof.
  intros Hnone Hnum.
  set (usable := fun r : user_row => PrimFloat.is_nan (unit_price r) = false \/ stock r = 0).
  set (I := fun w' => accounted u w' = accounted u w
                      /\ forall r, users w' !! update_user upd = Some r -> usable r).
  assert (Halter : forall (g : user_row -> user_row) w1,
             (forall r, stock (g r) = stock r) ->
             (forall r, users w1 !! update_user upd = Some r -> usable r -> usable (g r)) ->
             I w1 -> I (with_users (alter g (update_user upd)) w1)).
  { intros g w1 Hg Hu [Ha Hrow]. split.
    - rewrite <- Ha. unfold accounted, consumed. simpl.
      destruct (decide (update_user upd = u)) as [->|Hne]; [|by rewrite lookup_alter_ne].
      rewrite lookup_alter_eq. destruct (users w1 !! u); simpl; [by rewrite Hg | done].
    - simpl. intros r'. rewrite lookup_alter_eq.
      destruct (users w1 !! update_user upd) as [r|] eqn:Er; simpl; [|discriminate].
      intros [= <-]. apply (Hu r eq_refl), (Hrow r eq_refl). }
  assert (Hw : I w) by (split; [reflexivity | intros r Hr; left; by apply Hnum]).
  enough (HI : I (step E w upd)) by apply HI.
  revert Hw.
  apply (process_update_keeps E I (update_user upd) (update_chat upd) (fun n => False));
    try reflexivity; try (intros n; congruence).
  - intros w1 w2 Hs [Ha Hrow]. split.
    + rewrite <- Ha. unfold accounted, consumed.
      rewrite (stored_usage _ _ _ Hs). f_equal.
      pose proof (stored_lookup _ _ _ u Hs) as Hl.
      destruct (users w2 !! u) as [r2|], (users w1 !! u) as [r1|]; simpl in Hl;
        try discriminate; [|reflexivity].
      by injection Hl.
    + intros r2 Hr2. pose proof (stored_lookup _ _ _ (update_user upd) Hs) as Hl.
      rewrite Hr2 in Hl.
      destruct (users w1 !! update_user upd) as [r1|] eqn:Er1; simpl in Hl; [|discriminate].
      injection Hl as Hp Hst _. unfold usable. rewrite Hp, Hst. exact (Hrow r1 eq_refl).
  - intros w1 s Hw. exact Hw.
  - intros w1 Hw. exact Hw.
  - intros w1 p Hfresh _ [Ha Hrow]. split.
    + rewrite <- Ha. unfold accounted, consumed. simpl.
      destruct (decide (update_user upd = u)) as [<-|Hne]; [|by rewrite lookup_insert_ne].
      by rewrite lookup_insert_eq, Hfresh.
    + simpl. intros r. rewrite lookup_insert_eq. intros [= <-]. by right.
  - intros w1 p Hp. apply Halter; [done|]. intros r _ _. left. by apply gt0_is_number.
  - intros w1 d _. apply Halter; [done|]. intros r _ Hr. exact Hr.
  - intros w1 r n _ [].
  - intros w1 r q x Hr Hq _ [Ha Hrow]. split.
    + rewrite <- Ha. unfold accounted, consumed. simpl.
      rewrite List.filter_app, map_app, fold_right_app. simpl.
      destruct (decide (update_user upd = u)) as [<-|Hne].
      * rewrite lookup_alter_eq, Hr, Z.eqb_refl. simpl.
        generalize (List.filter (fun row => usage_user_id row =? update_user upd)
                      (usage w1)).
        intros rows. induction rows as [|y ys IH]; simpl in *; lia.
      * rewrite lookup_alter_ne by done.
        replace (update_user upd =? u) with false by (symmetry; by apply Z.eqb_neq).
        reflexivity.
    + simpl. intros r'. rewrite lookup_alter_eq, Hr. simpl. intros [= <-].
      destruct (Hrow r Hr) as [Hn|Hz]; [by left | lia].
  - intros w1 r q Hr Hq Hnan [Ha Hrow].
    destruct (Hrow r Hr) as [Hn|Hz]; [congruence | lia].
  - intros w1 k _ Hw. exact Hw.
  - intros w1 k Hw. exact Hw.
Qed.

End Reachable.

(** ** Buttons and follow-up texts *)

Section Buttons.

Context `{PyRuntime} (E : environment).

(** The refresh ends with the dashboard of the row as the last call. *)
Lemma update_dashboard_shows w u c b r :
  users w !! u = Some r ->
  PrimFloat.is_nan (unit_price r) = false ->
  sane_clock E ->
  exists d, shows r d /\ last_shown (exec (update_dashboard E u c b) w) = Some d.
Proof.
  intros Hr Hnum Hsane.
  destruct (update_dashboard_outcome E w u c b r Hr Hnum Hsane) as (d & w1 & Q & Hd & Eq).
  exists d. split; [exact Hd|]. unfold exec. rewrite Eq. unfold last_shown.
  destruct b; [simpl; by rewrite last_snoc|].
  destruct (dashboard_message_id r) as [i|]; [|simpl; by rewrite last_snoc].
  unfold bind, ret, edit_message_text. simpl.
  destruct (edit_succeeds E (edit_attempts w1)); simpl; by rewrite last_snoc.
Qed.

Lemma keys_differ u : awaiting_new_price_key u <> awaiting_smoked_more_key u.
Proof.
  unfold awaiting_new_price_key, awaiting_smoked_more_key.
  rewrite !string_app_cons. congruence.
Qed.

Lemma menu_callback_add w u c r data n :
  users w !! u = Some r ->
  (data = "ADD_PACK"%string /\ n = 20) \/ (data = "ADD_CIG"%string /\ n = 1) ->
  exec (menu_callback E u c data) w
  = exec (update_dashboard E u c false)
      (exec (update_user_stock u (stock r + n))
         (with_outbox (fun o => o ++ [AnswerCallbackQuery]) w)).
Proof.
  intros Hr Hd. unfold menu_callback.
  rewrite exec_bind. unfold answer_callback_query at 1, modify at 1.
  rewrite exec_bind. unfold get_user at 1, gets at 1. simpl users. rewrite Hr.
  destruct Hd as [[-> ->]|[-> ->]]; reflexivity.
Qed.

(** X10 (menu_callback, ADD_PACK and ADD_CIG): for a user with a profile, the
    button ADD_PACK raises the stored stock by exactly 20 and ADD_CIG by
    exactly 1; the unit price, the start date, every other profile, the usage
    history and the flags are as before; and when the clock is sane and the
    unit price is a number the call ends with a dashboard that shows the new
    stock. *)
Theorem add_buttons_raise_the_stock w u c r data n :
  users w !! u = Some r ->
  (data = "ADD_PACK"%string /\ n = 20) \/ (data = "ADD_CIG"%string /\ n = 1) ->
  let w' := exec (menu_callback E u c data) w in
  profile_of <$> users w'
    = <[u := (unit_price r, stock r + n, start_smoking_date r)]> (profile_of <$> users w)
  /\ usage w' = usage w /\ user_data w' = user_data w
  /\ (sane_clock E -> PrimFloat.is_nan (unit_price r) = false ->
      exists d, last_shown w' = Some d /\ shown_stock d = stock r + n
                /\ shown_unit_price d = unit_price r).
Proof.
  intros Hr Hd w'. subst w'. rewrite (menu_callback_add _ _ _ _ _ _ Hr Hd).
  set (w1 := exec (update_user_stock u (stock r + n)) _).
  assert (Hr1 : users w1 !! u
                = Some (mkuser (unit_price r) (stock r + n) (dashboard_message_id r)
                               (start_smoking_date r))).
  { subst w1. unfold exec, update_user_stock, modify. simpl.
    by rewrite lookup_alter_eq, Hr. }
  pose proof (update_dashboard_persisted E u c false w1) as Hp.
  unfold same_on, persisted in Hp. injection Hp as Hu Hg Hf _.
  split; [|split; [|split]].
  - rewrite Hu. subst w1. unfold exec, update_user_stock, modify. simpl.
    rewrite (alter_existing _ _ _ _ Hr), fmap_insert. reflexivity.
  - rewrite Hg. reflexivity.
  - rewrite Hf. reflexivity.
  - intros Hsane Hnum.
    destruct (update_dashboard_shows w1 u c false _ Hr1 Hnum Hsane)
      as (d & (Hs & Hpr & _) & Hl).
    exists d. split; [exact Hl|]. split; [exact Hs | exact Hpr].
Qed.

Lemma menu_callback_smoke_one w u c r :
  users w !! u = Some r ->
  0 < stock r ->
  exec (menu_callback E u c "SMOKE_ONE") w
  = exec (update_dashboard E u c false)
      (exec (log_smoke_event E u 1 (unit_price r))
         (exec (update_user_stock u (stock r - 1))
            (with_outbox (fun o => o ++ [AnswerCallbackQuery]) w))).
Proof.
  intros Hr Hpos. unfold menu_callback.
  rewrite exec_bind. unfold answer_callback_query at 1, modify at 1.
  rewrite exec_bind. unfold get_user at 1, gets at 1. simpl users. rewrite Hr.
  simpl String.eqb. cbv iota.
  replace (0 <? stock r) with true by (symmetry; by apply Z.ltb_lt).
  reflexivity.
Qed.

(** X11 (menu_callback, SMOKE_ONE): for a user with a profile and a stock
    above 0, the button SMOKE_ONE lowers the stored stock by exactly 1 and
    appends exactly one usage row: for this user, stamped with the clock
    reading, of quantity 1 and of cost the unit price; nothing else of the
    profiles or of the flags changes. *)
Theorem smoke_one_records_one_cigarette w u c r :
  users w !! u = Some r ->
  0 < stock r ->
  let w' := exec (menu_callback E u c "SMOKE_ONE") w in
  profile_of <$> users w'
    = <[u := (unit_price r, stock r - 1, start_smoking_date r)]> (profile_of <$> users w)
  /\ usage w' = usage w ++
       [mkusage (next_usage_id (usage w)) u (isoformat (clock E (clock_reads w))) 1
                (unit_price r)]
  /\ user_data w' = user_data w.
Proof.
  intros Hr Hpos w'. subst w'. rewrite (menu_callback_smoke_one _ _ _ _ Hr Hpos).
  match goal with |- context [exec (update_dashboard _ _ _ _) ?w2] =>
    pose proof (update_dashboard_persisted E u c false w2) as Hp end.
  unfold same_on, persisted in Hp. injection Hp as Hu Hg Hf _.
  rewrite Hu, Hg, Hf. split; [|split]; [|reflexivity..].
  unfold exec, log_smoke_event, update_user_stock, bind, modify, datetime_now. simpl.
  rewrite (alter_existing _ _ _ _ Hr), fmap_insert. reflexivity.
Qed.

Lemma menu_callback_flag w u c r data key :
  users w !! u = Some r ->
  (data = "SMOKE_MORE"%string /\ key = awaiting_smoked_more_key u)
  \/ (data = "CHANGE_PRICE"%string /\ key = awaiting_new_price_key u) ->
  menu_callback E u c data w
  = (Ok tt,
     with_user_data (fun ud => <[u := <[key := true]> (default ∅ (ud !! u))]> ud)
       (with_outbox (fun o => o ++ [AnswerCallbackQuery]) w)).
Proof.
  intros Hr Hd. unfold menu_callback.
  unfold bind at 1. unfold answer_callback_query at 1, modify at 1. cbv beta iota.
  unfold bind at 1. unfold get_user at 1, gets at 1.
  change (users (with_outbox _ w)) with (users w). rewrite Hr.
  destruct Hd as [[-> ->]|[-> ->]]; reflexivity.
Qed.

(** X12 (menu_callback, SMOKE_MORE and CHANGE_PRICE): for a user with a
    profile, each of the two buttons returns after setting its own flag of
    this user: the only call on the transport is the acknowledgement (no
    dashboard is sent or edited), the tables are untouched, and every other
    flag, of this user or of another, reads as before; in particular the flag
    of the other button stays pending if it was. *)
Theorem flag_buttons_only_set_their_flag w u c r data key :
  users w !! u = Some r ->
  (data = "SMOKE_MORE"%string /\ key = awaiting_smoked_more_key u)
  \/ (data = "CHANGE_PRICE"%string /\ key = awaiting_new_price_key u) ->
  fst (menu_callback E u c data w) = Ok tt
  /\ let w' := exec (menu_callback E u c data) w in
     flag_set u key w' = true
     /\ (forall v k, (v, k) <> (u, key) -> flag_set v k w' = flag_set v k w)
     /\ users w' = users w /\ usage w' = usage w
     /\ outbox w' = outbox w ++ [AnswerCallbackQuery]
     /\ sends w' = sends w /\ edit_attempts w' = edit_attempts w.
Proof.
  intros Hr Hd. unfold exec. rewrite (menu_callback_flag _ _ _ _ _ _ Hr Hd). simpl.
  split; [reflexivity|]. split; [|split; [|tauto]].
  - unfold flag_set. simpl. by rewrite !lookup_insert_eq.
  - intros v k Hne. unfold flag_set. simpl.
    destruct (decide (u = v)) as [<-|Hv]; [|by rewrite lookup_insert_ne].
    rewrite lookup_insert_eq.
    rewrite lookup_insert_ne by congruence.
    destruct (user_data w !! u); simpl; [reflexivity | by rewrite lookup_empty].
Qed.

End Buttons.

(** ** The text that follows CHANGE_PRICE, and texts nobody waits for *)

Section Texts.

Context `{PyRuntime} (E : environment).

Lemma flag_set_pop_eq u k w : flag_set u k (exec (user_data_pop u k) w) = false.
Proof.
  unfold flag_set, exec, user_data_pop, modify. simpl. rewrite lookup_alter_eq.
  destruct (user_data w !! u); simpl; [by rewrite lookup_delete_eq | done].
Qed.

Lemma flag_set_pop_ne u k v k' w :
  (v, k') <> (u, k) -> flag_set v k' (exec (user_data_pop u k) w) = flag_set v k' w.
Proof.
  intros Hne. unfold flag_set, exec, user_data_pop, modify. simpl.
  destruct (decide (u = v)) as [<-|Hv]; [|by rewrite lookup_alter_ne].
  rewrite lookup_alter_eq. destruct (user_data w !! u); simpl; [|done].
  rewrite lookup_delete_ne by congruence. reflexivity.
Qed.

(** The state in which the dashboard is refreshed after a text that was
    awaited as a price. *)
Lemma handle_text_message_price w u c t :
  flag_set u (awaiting_new_price_key u) w = true ->
  exec (handle_text_message E u c t) w
  = exec (update_dashboard E u c false)
      (exec (user_data_pop u (awaiting_new_price_key u))
         (match py_float (str_lower (str_strip t)) with
          | Some p => if gt0 p then exec (update_user_price u p) w else w
          | None => w
          end)).
Proof.
  intros Hprice. unfold handle_text_message.
  rewrite exec_bind. unfold user_data_get at 1, gets at 1. rewrite Hprice.
  rewrite exec_bind.
  destruct (py_float _) as [p|]; [destruct (gt0 p)|]; reflexivity.
Qed.

(** X13 (handle_text_message, new price): while the change-price flag of a
    user with a profile is pending, a text that [float] reads as a value
    greater than 0 becomes the unit price, whether or not the consume-more
    flag is pending too; the stock, the start date, every other profile and
    the usage history are as before, the change-price flag is cleared, every
    other flag reads as before, and when the clock is sane the call ends with
    a dashboard that shows the new price. *)
Theorem new_price_is_stored w u c t r p :
  users w !! u = Some r ->
  flag_set u (awaiting_new_price_key u) w = true ->
  py_float (str_lower (str_strip t)) = Some p ->
  gt0 p = true ->
  let w' := exec (handle_text_message E u c t) w in
  profile_of <$> users w'
    = <[u := (p, stock r, start_smoking_date r)]> (profile_of <$> users w)
  /\ usage w' = usage w
  /\ flag_set u (awaiting_new_price_key u) w' = false
  /\ (forall v k, (v, k) <> (u, awaiting_new_price_key u) ->
                  flag_set v k w' = flag_set v k w)
  /\ (sane_clock E ->
      exists d, last_shown w' = Some d /\ shown_unit_price d = p
                /\ shown_stock d = stock r).
Proof.
  intros Hr Hflag Hp Hgt w'. subst w'.
  rewrite (handle_text_message_price _ _ _ _ Hflag), Hp, Hgt.
  set (w1 := exec (update_user_price u p) w).
  set (w2 := exec (user_data_pop u (awaiting_new_price_key u)) w1).
  assert (Hr2 : users w2 !! u
                = Some (mkuser p (stock r) (dashboard_message_id r) (start_smoking_date r))).
  { subst w2 w1. unfold exec, update_user_price, user_data_pop, modify. simpl.
    by rewrite lookup_alter_eq, Hr. }
  pose proof (update_dashboard_persisted E u c false w2) as Hp2.
  pose proof (persisted_flag_set _ _ u (awaiting_new_price_key u) Hp2) as Hf.
  assert (Hfs : forall v k, flag_set v k (exec (update_dashboard E u c false) w2)
                            = flag_set v k w2)
    by (intros v k; by apply persisted_flag_set).
  unfold same_on, persisted in Hp2. injection Hp2 as Hu Hg _ _.
  split; [|split; [|split; [|split]]].
  - rewrite Hu. subst w2 w1. unfold exec, update_user_price, user_data_pop, modify. simpl.
    rewrite (alter_existing _ _ _ _ Hr), fmap_insert. reflexivity.
  - rewrite Hg. reflexivity.
  - rewrite Hfs. apply flag_set_pop_eq.
  - intros v k Hne. rewrite Hfs. subst w2. by rewrite flag_set_pop_ne.
  - intros Hsane.
    destruct (update_dashboard_shows E w2 u c false _ Hr2 (gt0_is_number p Hgt) Hsane)
      as (d & (Hs & Hpr & _) & Hl).
    exists d. split; [exact Hl|]. split; [exact Hpr | exact Hs].
Qed.

(** X14 (handle_text_message, rejected price): while the change-price flag is
    pending, a text that [float] does not read, or reads as a value that is
    not greater than 0 (zero, a negative value, NaN), changes no profile and
    no usage row; the flag is cleared all the same, so the next text is no
    longer read as a price, and every other flag reads as before. *)
Theorem rejected_price_only_clears_the_flag w u c t :
  flag_set u (awaiting_new_price_key u) w = true ->
  (forall p, py_float (str_lower (str_strip t)) = Some p -> gt0 p = false) ->
  let w' := exec (handle_text_message E u c t) w in
  profile_of <$> users w' = profile_of <$> users w
  /\ usage w' = usage w
  /\ flag_set u (awaiting_new_price_key u) w' = false
  /\ (forall v k, (v, k) <> (u, awaiting_new_price_key u) ->
                  flag_set v k w' = flag_set v k w).
Proof.
  intros Hflag Hbad w'. subst w'.
  rewrite (handle_text_message_price _ _ _ _ Hflag).
  assert (Hw : match py_float (str_lower (str_strip t)) with
               | Some p => if gt0 p then exec (update_user_price u p) w else w
               | None => w
               end = w).
  { destruct (py_float _) as [p|]; [|reflexivity]. by rewrite (Hbad p eq_refl). }
  rewrite Hw.
  set (w2 := exec (user_data_pop u (awaiting_new_price_key u)) w).
  pose proof (update_dashboard_persisted E u c false w2) as Hp2.
  assert (Hfs : forall v k, flag_set v k (exec (update_dashboard E u c false) w2)
                            = flag_set v k w2)
    by (intros v k; by apply persisted_flag_set).
  unfold same_on, persisted in Hp2. injection Hp2 as Hu Hg _ _.
  split; [|split; [|split]].
  - rewrite Hu. reflexivity.
  - rewrite Hg. reflexivity.
  - rewrite Hfs. apply flag_set_pop_eq.
  - intros v k Hne. rewrite Hfs. subst w2. by rewrite flag_set_pop_ne.
Qed.

(** X15 (handle_text_message, main): a text from a user who is in no
    onboarding step and has no pending flag is ignored: the update returns
    and the state is the same, no message is sent and nothing is stored. *)
Theorem unexpected_text_is_ignored w u c t :
  conversation_of c u w = None ->
  flag_set u (awaiting_new_price_key u) w = false ->
  flag_set u (awaiting_smoked_more_key u) w = false ->
  process_update E (TextMessage u c t) w = (Ok tt, w).
Proof.
  intros Hconv Hprice Hmore. simpl.
  unfold bind at 1. unfold gets at 1. rewrite Hconv.
  unfold handle_text_message.
  unfold bind at 1. unfold user_data_get at 1, gets at 1. rewrite Hprice.
  unfold bind at 1. unfold user_data_get at 1, gets at 1. rewrite Hmore.
  reflexivity.
Qed.

(** X16 (ask_unit_price, create_user): at the price step, an acceptable
    price from a user who already has a profile makes [create_user] raise
    IntegrityError; the handler does not catch it, so the update ends there:
    the profile is not overwritten, no message is sent, and the conversation
    stays at the price step. *)
Theorem price_step_of_existing_user_raises w u c t r p :
  conversation_of c u w = Some ASKING_UNIT_PRICE ->
  users w !! u = Some r ->
  py_float (str_strip t) = Some p ->
  le0 p = false ->
  process_update E (TextMessage u c t) w = (Raised IntegrityError, w).
Proof.
  intros Hconv Hr Hp Hle. simpl.
  unfold bind at 1. unfold gets at 1. rewrite Hconv.
  unfold run_conversation, ask_unit_price. rewrite Hp, Hle.
  unfold bind at 1. unfold create_user at 1. unfold bind at 1.
  unfold get_user at 1, gets at 1. rewrite Hr. reflexivity.
Qed.

(** X17 (ask_start_date, invalid date): at the start-date step, a text that
    is not "skip" and that [strptime] does not parse, or whose fields are no
    calendar date, stores nothing: the only effect is the message that asks
    again, and the conversation stays at the start-date step. *)
Theorem invalid_start_date_asks_again w u c t :
  conversation_of c u w = Some ASKING_START_DATE ->
  accepted_start_date t = None ->
  process_update E (TextMessage u c t) w
  = (Ok tt,
     with_conversations (insert (c, u) ASKING_START_DATE)
       (tick_sends (with_outbox (fun o => o ++ [SendMessage c InvalidDateText]) w))).
Proof.
  intros Hconv Hbad. simpl.
  unfold bind at 1. unfold gets at 1. rewrite Hconv.
  unfold run_conversation, ask_start_date. unfold accepted_start_date in Hbad.
  destruct (String.eqb _ _); [discriminate|].
  destruct (strptime_ymd _); [discriminate|]. reflexivity.
Qed.

End Texts.

(** ** The onboarding conversation *)

Section Onboarding.

Context `{PyRuntime} (E : environment).

(** The dashboard sent as a new message. *)
Lemma update_dashboard_new w u c r :
  users w !! u = Some r ->
  PrimFloat.is_nan (unit_price r) = false ->
  sane_clock E ->
  exists d w1,
    quiet w w1 /\ shows r d
    /\ update_dashboard E u c true w
       = (Ok tt, with_users (alter (with_dashboard_id (message_ids E (sends w))) u)
                   (tick_sends (with_outbox
                      (fun o => o ++ [SendMessage c (DashboardText d)]) w1))).
Proof.
  intros Hr Hnum Hsane.
  destruct (update_dashboard_outcome E w u c true r Hr Hnum Hsane)
    as (d & w1 & Q & Hd & Eq).
  exists d, w1. split; [exact Q|]. split; [exact Hd|]. rewrite Eq.
  destruct Q as (_ & _ & _ & _ & _ & Qs & _).
  unfold bind, ret, send_message, update_dashboard_message_id, modify. simpl.
  by rewrite Qs.
Qed.

Lemma conversation_of_ended c u w :
  conversation_of c u (with_conversations (delete (c, u)) w) = None.
Proof. unfold conversation_of. simpl. by rewrite lookup_delete_eq. Qed.

Lemma start_existing w u c r :
  users w !! u = Some r ->
  PrimFloat.is_nan (unit_price r) = false ->
  sane_clock E ->
  exists d w1,
    quiet w w1 /\ shows r d
    /\ process_update E (CommandStart u c) w
       = (Ok tt,
          with_conversations (delete (c, u))
            (with_users (alter (with_dashboard_id (message_ids E (sends w))) u)
               (tick_sends (with_outbox
                  (fun o => o ++ [SendMessage c (DashboardText d)]) w1)))).
Proof.
  intros Hr Hnum Hsane.
  destruct (update_dashboard_new w u c r Hr Hnum Hsane) as (d & w1 & Q & Hd & Eq).
  exists d, w1. split; [exact Q|]. split; [exact Hd|].
  simpl. unfold run_conversation, start.
  unfold bind at 1. unfold get_user at 1, gets at 1. rewrite Hr.
  unfold bind at 1. rewrite Eq. reflexivity.
Qed.

(** X18 (start, existing user): the command /start from a user who has a
    profile with a unit price that is a number, in whatever step of the onboarding the chat is, sends the
    dashboard as a new message even when a dashboard message is on record,
    stores the identifier of the new message, and ends the conversation. *)
Theorem start_of_existing_user_sends_dashboard w u c r :
  users w !! u = Some r ->
  PrimFloat.is_nan (unit_price r) = false ->
  sane_clock E ->
  exists d,
    shows r d
    /\ fst (process_update E (CommandStart u c) w) = Ok tt
    /\ let w' := step E w (CommandStart u c) in
       outbox w' = outbox w ++ [SendMessage c (DashboardText d)]
       /\ users w' = <[u := with_dashboard_id (message_ids E (sends w)) r]> (users w)
       /\ conversation_of c u w' = None
       /\ usage w' = usage w /\ user_data w' = user_data w.
Proof.
  intros Hr Hnum Hsane.
  destruct (start_existing w u c r Hr Hnum Hsane) as (d & w1 & Q & Hd & Eq).
  destruct Q as (Qu & Qg & Qd & Qc & Qo & Qs & Qe).
  exists d. split; [exact Hd|]. unfold step, exec. rewrite Eq. simpl.
  rewrite Qu, Qg, Qd, Qo, (alter_existing _ _ _ _ Hr).
  split; [reflexivity|]. split; [reflexivity|]. split; [reflexivity|].
  split; [apply conversation_of_ended | tauto].
Qed.

Lemma step_start_new w u c :
  users w !! u = None ->
  step E w (CommandStart u c)
  = with_conversations (insert (c, u) ASKING_UNIT_PRICE)
      (tick_sends (with_outbox (fun o => o ++ [SendMessage c AskUnitPriceText]) w)).
Proof.
  intros Hnone. unfold step, exec. simpl. unfold run_conversation, start.
  unfold bind at 1. unfold get_user at 1, gets at 1. rewrite Hnone. reflexivity.
Qed.

(** The start-date step on an answer it accepts. *)
Lemma start_date_accepted w u c t r answer :
  conversation_of c u w = Some ASKING_START_DATE ->
  users w !! u = Some r ->
  PrimFloat.is_nan (unit_price r) = false ->
  sane_clock E ->
  accepted_start_date t = Some answer ->
  exists d w1,
    quiet (with_users (alter (with_start_date answer) u) w) w1
    /\ shows (with_start_date answer r) d
    /\ process_update E (TextMessage u c t) w
       = (Ok tt,
          with_conversations (delete (c, u))
            (with_users (alter (with_dashboard_id (message_ids E (sends w))) u)
               (tick_sends (with_outbox
                  (fun o => o ++ [SendMessage c (DashboardText d)]) w1)))).
Proof.
  intros Hconv Hr Hnum Hsane Hans.
  set (w0 := with_users (alter (with_start_date answer) u) w).
  assert (Hnum0 : PrimFloat.is_nan (unit_price (with_start_date answer r)) = false)
    by (by destruct answer).
  assert (Hr0 : users w0 !! u = Some (with_start_date answer r))
    by (subst w0; simpl; by rewrite lookup_alter_eq, Hr).
  destruct (update_dashboard_new w0 u c _ Hr0 Hnum0 Hsane) as (d & w1 & Q & Hd & Eq).
  exists d, w1. split; [exact Q|]. split; [exact Hd|].
  simpl. unfold bind at 1. unfold gets at 1. rewrite Hconv.
  unfold run_conversation, ask_start_date. unfold accepted_start_date in Hans.
  destruct (String.eqb _ _).
  - injection Hans as <-.
    assert (Hw0 : w0 = w).
    { subst w0. destruct w as [us ? ? ? ? ? ? ?]. unfold with_users. simpl. f_equal.
      apply map_eq. intros i. destruct (decide (u = i)) as [->|Hne].
      - rewrite lookup_alter_eq. by destruct (us !! i).
      - by rewrite lookup_alter_ne. }
    rewrite Hw0 in Eq. unfold bind at 1. rewrite Eq. reflexivity.
  - destruct (strptime_ymd _) as [dt|]; [|discriminate]. injection Hans as <-.
    unfold bind at 1. unfold update_user_start_date at 1, modify at 1. cbv beta iota.
    unfold bind at 1.
    change (update_dashboard E u c true (with_users _ w))
      with (update_dashboard E u c true w0).
    rewrite Eq. reflexivity.
Qed.

(** X19 (ask_start_date, accepted answer): at the start-date step of a user
    with a profile whose unit price is a number, the answer "skip" (in any case, with blanks around it)
    stores no start date and a text that parses as a calendar date stores its
    ISO form; nothing else of the row changes but the dashboard reference,
    the dashboard is sent as a new message that shows the stored start date,
    and the conversation ends. *)
Theorem start_date_step_stores_the_answer w u c t r answer :
  conversation_of c u w = Some ASKING_START_DATE ->
  users w !! u = Some r ->
  PrimFloat.is_nan (unit_price r) = false ->
  sane_clock E ->
  accepted_start_date t = Some answer ->
  exists d,
    shows (with_start_date answer r) d
    /\ fst (process_update E (TextMessage u c t) w) = Ok tt
    /\ let w' := step E w (TextMessage u c t) in
       users w' = <[u := with_dashboard_id (message_ids E (sends w))
                            (with_start_date answer r)]> (users w)
       /\ outbox w' = outbox w ++ [SendMessage c (DashboardText d)]
       /\ conversation_of c u w' = None
       /\ usage w' = usage w.
Proof.
  intros Hconv Hr Hnum Hsane Hans.
  destruct (start_date_accepted w u c t r answer Hconv Hr Hnum Hsane Hans)
    as (d & w1 & Q & Hd & Eq).
  destruct Q as (Qu & Qg & Qd & Qc & Qo & Qs & Qe).
  exists d. split; [exact Hd|]. unfold step, exec. rewrite Eq. simpl in *.
  rewrite Qu, Qg, Qo.
  split; [reflexivity|]. split; [|split; [reflexivity|]].
  - rewrite alter_alter_eq, (alter_existing _ _ _ _ Hr). reflexivity.
  - split; [apply conversation_of_ended | reflexivity].
Qed.

(** X20 (start, ask_unit_price, ask_start_date, main): the onboarding as a
    whole.  From a user without a profile, the command /start, then a text
    that [float] reads as a value greater than 0, then an answer the
    start-date step accepts, create exactly the profile with that unit price,
    stock 0, that start date and the reference to the dashboard sent; the
    three messages go out in order; the conversation is over and no usage is
    recorded. *)
Theorem onboarding_creates_the_profile w u c t1 t2 p answer :
  users w !! u = None ->
  sane_clock E ->
  py_float (str_strip t1) = Some p ->
  gt0 p = true ->
  accepted_start_date t2 = Some answer ->
  let w' := run E [CommandStart u c; TextMessage u c t1; TextMessage u c t2] w in
  exists d,
    users w' = <[u := mkuser p 0 (Some (message_ids E (S (S (sends w))))) answer]> (users w)
    /\ outbox w' = outbox w ++ [SendMessage c AskUnitPriceText;
                                SendMessage c (UnitPriceSetText p);
                                SendMessage c (DashboardText d)]
    /\ shown_unit_price d = p /\ shown_stock d = 0 /\ shown_start_date d = answer
    /\ conversation_of c u w' = None
    /\ usage w' = usage w.
Proof.
  intros Hnone Hsane Hp Hgt Hans w'. subst w'. unfold run. simpl fold_left.
  pose proof (gt0_not_le0 p Hgt) as Hle.
  rewrite (step_start_new _ _ _ Hnone).
  set (w1 := with_conversations _ _).
  assert (Hc1 : conversation_of c u w1 = Some ASKING_UNIT_PRICE)
    by (subst w1; unfold conversation_of; simpl; by rewrite lookup_insert_eq).
  rewrite (step_price_accepted E w1 u c t1 p Hc1 Hnone Hp Hle).
  set (w2 := with_conversations _ _).
  assert (Hc2 : conversation_of c u w2 = Some ASKING_START_DATE)
    by (subst w2; unfold conversation_of; simpl; by rewrite lookup_insert_eq).
  assert (Hr2 : users w2 !! u = Some (mkuser p 0 None None))
    by (subst w2; simpl; by rewrite lookup_insert_eq).
  destruct (start_date_accepted w2 u c t2 _ answer Hc2 Hr2 (gt0_is_number p Hgt) Hsane Hans)
    as (d & w3 & Q & (Hs & Hpr & Hsd) & Eq).
  destruct Q as (Qu & Qg & Qd & Qc & Qo & Qs & Qe).
  exists d. unfold step, exec. rewrite Eq. simpl in *.
  rewrite Qu, Qg, Qo, Hs, Hpr, Hsd, <- !app_assoc.
  split; [|split; [reflexivity|]].
  - rewrite alter_alter_eq, (alter_existing _ _ _ _ (lookup_insert_eq _ _ _)).
    rewrite insert_insert_eq. by destruct answer.
  - split; [by destruct answer|]. split; [by destruct answer|].
    split; [by destruct answer|].
    split; [apply conversation_of_ended | reflexivity].
Qed.

(** X21 (menu_callback, cancel, main): outside the onboarding the command
    /cancel clears nothing: after SMOKE_MORE or CHANGE_PRICE from a user with
    a profile who is in no onboarding step, followed by /cancel, the flag of
    the button is still pending. *)
Theorem cancel_outside_onboarding_keeps_flags w u c r data key :
  conversation_of c u w = None ->
  users w !! u = Some r ->
  (data = "SMOKE_MORE"%string /\ key = awaiting_smoked_more_key u)
  \/ (data = "CHANGE_PRICE"%string /\ key = awaiting_new_price_key u) ->
  let w' := run E [CallbackQuery u c data; CommandCancel u c] w in
  w' = step E w (CallbackQuery u c data) /\ flag_set u key w' = true.
Proof.
  intros Hconv Hr Hd w'. subst w'. unfold run. simpl fold_left.
  assert (Hw1 : step E w (CallbackQuery u c data)
                = with_user_data (fun ud => <[u := <[key := true]> (default ∅ (ud !! u))]> ud)
                    (with_outbox (fun o => o ++ [AnswerCallbackQuery]) w)).
  { unfold step, exec. simpl. by rewrite (menu_callback_flag E _ _ _ _ _ _ Hr Hd). }
  rewrite Hw1. set (w1 := with_user_data _ _).
  assert (Hc1 : conversation_of c u w1 = None) by exact Hconv.
  split.
  - unfold step, exec. simpl. unfold bind at 1. unfold gets at 1. by rewrite Hc1.
  - unfold step, exec. simpl. unfold bind at 1. unfold gets at 1. rewrite Hc1. simpl.
    unfold flag_set. simpl. by rewrite !lookup_insert_eq.
Qed.

End Onboarding.

(** ** The four windows of the dashboard *)

Section Windows.

Context `{PyRuntime} (E : environment).

Lemma ascii_compare_lt_trans x y z :
  Ascii.compare x y = Lt -> Ascii.compare y z = Lt -> Ascii.compare x z = Lt.
Proof. unfold Ascii.compare. rewrite !N.compare_lt_iff. lia. Qed.

Lemma string_compare_le_trans a b c :
  String.compare a b <> Gt -> String.compare b c <> Gt -> String.compare a c <> Gt.
Proof.
  revert b c. induction a as [|x a IH]; intros [|y b] [|z c]; simpl; try congruence.
  destruct (Ascii.compare x y) eqn:Exy; [|clear IH|congruence];
    destruct (Ascii.compare y z) eqn:Eyz; try congruence.
  - apply Ascii.compare_eq_iff in Exy, Eyz. subst. rewrite ascii_compare_refl. apply IH.
  - apply Ascii.compare_eq_iff in Exy. subst. by rewrite Eyz.
  - apply Ascii.compare_eq_iff in Eyz. subst. by rewrite Exy.
  - by rewrite (ascii_compare_lt_trans _ _ _ Exy Eyz).
Qed.

Lemma string_leb_trans a b c :
  String.leb a b = true -> String.leb b c = true -> String.leb a c = true.
Proof.
  unfold String.leb. intros Hab Hbc.
  pose proof (string_compare_le_trans a b c) as Ht.
  destruct (String.compare a b), (String.compare b c), (String.compare a c);
    try discriminate; try reflexivity; exfalso; apply Ht; congruence.
Qed.

(** A window that starts earlier selects at least the same rows. *)
Lemma in_window_wider u s1 s2 e r :
  String.leb s2 s1 = true -> in_window u s1 e r = true -> in_window u s2 e r = true.
Proof.
  unfold in_window. rewrite !andb_true_iff. intros Hs [[Hu H1] H2].
  split; [split|]; [exact Hu | | exact H2]. by apply (string_leb_trans s2 s1).
Qed.

Lemma fst_sum_rows rows : fst (sum_rows rows) = fold_right Z.add 0 (map quantity rows).
Proof. by destruct rows. Qed.

Lemma count_filter_le (P Q : usage_row -> bool) rows :
  (forall r, P r = true -> Q r = true) ->
  Forall (fun r => 0 <= quantity r) rows ->
  0 <= fst (sum_rows (List.filter P rows)) <= fst (sum_rows (List.filter Q rows)).
Proof.
  intros HPQ Hall. rewrite !fst_sum_rows.
  induction Hall as [|r rows Hr Hall IH]; simpl; [lia|].
  destruct (P r) eqn:EP.
  - rewrite (HPQ r EP). simpl. lia.
  - destruct (Q r); simpl; lia.
Qed.

Lemma aggregate_rows_wider u a b stop rows :
  datetime_valid a = true -> datetime_valid b = true ->
  datetime_leb b a = true ->
  Forall (fun r => 0 <= quantity r) rows ->
  0 <= fst (aggregate_rows u a stop rows) <= fst (aggregate_rows u b stop rows).
Proof.
  intros Ha Hb Hle Hall. unfold aggregate_rows. apply count_filter_le; [|exact Hall].
  intros r. apply in_window_wider. by rewrite isoformat_leb.
Qed.

Lemma midnight_after_week_start now weekly_start :
  datetime_valid now = true -> datetime_valid weekly_start = true ->
  toordinal (dt_date weekly_start) = toordinal (dt_date now) - 7 ->
  datetime_leb weekly_start (replace_midnight now) = true.
Proof.
  intros Hn Hw Hord. apply datetime_fields in Hn as (Hdn & _).
  apply datetime_fields in Hw as (Hdw & _).
  unfold datetime_leb, datetime_compare, replace_midnight. simpl.
  rewrite (date_compare_toordinal _ _ Hdw Hdn).
  replace (toordinal (dt_date weekly_start) ?= toordinal (dt_date now)) with Lt
    by (symmetry; apply Z.compare_lt_iff; lia).
  reflexivity.
Qed.

Lemma midnight_after_first_of_month now :
  datetime_valid now = true ->
  datetime_leb (replace_first_of_month now) (replace_midnight now) = true.
Proof.
  intros Hn. apply datetime_fields in Hn as (Hdn & _).
  apply valid_fields in Hdn as (_ & _ & Hd).
  assert (Hc : (1 ?= day (dt_date now)) <> Gt) by (rewrite Z.compare_gt_iff; lia).
  unfold datetime_leb, datetime_compare, date_compare, replace_first_of_month,
    replace_midnight.
  cbn [dt_date year month day hour minute second microsecond].
  rewrite !Z.compare_refl.
  destruct (1 ?= day (dt_date now)); [reflexivity..|congruence].
Qed.

Lemma first_of_month_after_first_of_year now :
  datetime_valid now = true ->
  datetime_leb (replace_first_of_year now) (replace_first_of_month now) = true.
Proof.
  intros Hn. apply datetime_fields in Hn as (Hdn & _).
  apply valid_fields in Hdn as (_ & Hm & _).
  assert (Hc : (1 ?= month (dt_date now)) <> Gt) by (rewrite Z.compare_gt_iff; lia).
  unfold datetime_leb, datetime_compare, date_compare, replace_first_of_month,
    replace_first_of_year.
  cbn [dt_date year month day hour minute second microsecond].
  rewrite !Z.compare_refl.
  destruct (1 ?= month (dt_date now)); [reflexivity..|congruence].
Qed.

(** X22 (get_aggregates, _aggregate_usage): when no usage row has a negative
    quantity and the clock reads a valid instant after the first week of year
    1, the four counts of the dashboard are consistent: the count of the day
    is not negative and is at most the count of the last seven days and at
    most the count of the month, which is at most the count of the year. *)
Theorem aggregate_counts_are_nested w u :
  let now := clock E (clock_reads w) in
  Forall (fun r => 0 <= quantity r) (usage w) ->
  datetime_valid now = true -> 7 < toordinal (dt_date now) ->
  exists aggr,
    get_aggregates E u w = (Ok aggr, tick_clock w)
    /\ 0 <= fst (daily aggr) <= fst (weekly aggr)
    /\ fst (daily aggr) <= fst (monthly aggr) <= fst (yearly aggr).
Proof.
  intros now Hall Hv Hord.
  destruct (minus_timedelta_days_7 now Hv Hord) as (ws & Hws & Hwv & Hwo & _).
  eexists. split; [apply (get_aggregates_eq E w u ws Hws)|]. simpl. fold now.
  pose proof (replace_midnight_valid now Hv) as Hmid.
  pose proof (replace_first_of_month_valid now Hv) as Hmon.
  pose proof (replace_first_of_year_valid now Hv) as Hyear.
  pose proof (aggregate_rows_wider u _ _ now (usage w) Hmid Hwv
                (midnight_after_week_start now ws Hv Hwv Hwo) Hall).
  pose proof (aggregate_rows_wider u _ _ now (usage w) Hmid Hmon
                (midnight_after_first_of_month now Hv) Hall).
  pose proof (aggregate_rows_wider u _ _ now (usage w) Hmon Hyear
                (first_of_month_after_first_of_year now Hv) Hall).
  lia.
Qed.

Lemma datetime_compare_eq a b : datetime_compare a b = Eq -> a = b.
Proof.
  destruct a as [[ya ma da] ha mia sa ua], b as [[yb mb db] hb mib sb ub].
  unfold datetime_compare, date_compare. simpl.
  repeat match goal with
         | |- context [?x ?= ?y] =>
           destruct (Z.compare_spec x y); [subst | discriminate | discriminate]
         end.
  reflexivity.
Qed.

(** X23 (log_smoke_event, _aggregate_usage): the text form of a valid
    instant that [log_smoke_event] stores determines the instant, and the
    text order read by BETWEEN is the order of the instants; this is what
    makes the comparison of the TEXT column a comparison of times. *)
Theorem timestamps_order_as_instants a b :
  datetime_valid a = true -> datetime_valid b = true ->
  String.leb (isoformat a) (isoformat b) = datetime_leb a b
  /\ (isoformat a = isoformat b -> a = b).
Proof.
  intros Ha Hb. split; [by apply isoformat_leb|].
  intros Heq. apply datetime_compare_eq.
  rewrite <- (isoformat_compare a b Ha Hb), Heq. apply string_compare_refl.
Qed.

(** X24 (log_smoke_event, all handlers): the usage history is append-only:
    whatever the updates, the rows on record stay as they are and in place,
    and the rows that follow them are stamped with readings of the clock. *)
Theorem usage_history_is_append_only us w :
  exists rows,
    usage (run E us w) = usage w ++ rows
    /\ Forall (fun r => exists n, timestamp r = isoformat (clock E n)) rows.
Proof.
  revert w. induction us as [|upd us IH]; intros w.
  - exists []. split; [by rewrite app_nil_r | constructor].
  - destruct (IH (step E w upd)) as (rows2 & Hu2 & Hs2).
    destruct (process_update_appends E upd w) as (rows1 & Hu1 & Hs1).
    exists (rows1 ++ rows2). split; [|by apply Forall_app].
    change (run E (upd :: us) w) with (run E us (step E w upd)).
    rewrite Hu2. unfold step. rewrite Hu1. by rewrite app_assoc.
Qed.

End Windows.

(** ** A button and the text that follows it *)

Section Flows.

Context `{PyRuntime} (E : environment).

Lemma step_flag_button w u c r data key :
  users w !! u = Some r ->
  (data = "SMOKE_MORE"%string /\ key = awaiting_smoked_more_key u)
  \/ (data = "CHANGE_PRICE"%string /\ key = awaiting_new_price_key u) ->
  step E w (CallbackQuery u c data)
  = with_user_data (fun ud => <[u := <[key := true]> (default ∅ (ud !! u))]> ud)
      (with_outbox (fun o => o ++ [AnswerCallbackQuery]) w).
Proof.
  intros Hr Hd. unfold step, exec. simpl.
  by rewrite (menu_callback_flag E _ _ _ _ _ _ Hr Hd).
Qed.

Lemma step_text_outside_onboarding w u c t :
  conversation_of c u w = None ->
  step E w (TextMessage u c t) = exec (handle_text_message E u c t) w.
Proof.
  intros Hconv. unfold step. simpl. rewrite exec_bind. unfold gets at 1.
  by rewrite Hconv.
Qed.

Lemma flag_after_button u key w :
  flag_set u key
    (with_user_data (fun ud => <[u := <[key := true]> (default ∅ (ud !! u))]> ud) w)
  = true.
Proof. unfold flag_set. simpl. by rewrite !lookup_insert_eq. Qed.

Lemma other_flag_after_button u key k w :
  k <> key ->
  flag_set u k
    (with_user_data (fun ud => <[u := <[key := true]> (default ∅ (ud !! u))]> ud) w)
  = flag_set u k w.
Proof.
  intros Hne. unfold flag_set. simpl. rewrite lookup_insert_eq, lookup_insert_ne by done.
  destruct (user_data w !! u); simpl; [reflexivity | by rewrite lookup_empty].
Qed.

(** X25 (menu_callback, handle_text_message, main): the change of price as a
    whole.  From a user with a profile who is in no onboarding step, the
    button CHANGE_PRICE and then a text that [float] reads as a value greater
    than 0 set the unit price to that value; the stock, the start date and
    the usage history are as before, and the flag is no longer pending. *)
Theorem change_price_then_text_sets_the_price w u c r t p :
  conversation_of c u w = None ->
  users w !! u = Some r ->
  py_float (str_lower (str_strip t)) = Some p ->
  gt0 p = true ->
  let w' := run E [CallbackQuery u c "CHANGE_PRICE"; TextMessage u c t] w in
  profile_of <$> (users w' !! u) = Some (p, stock r, start_smoking_date r)
  /\ usage w' = usage w
  /\ flag_set u (awaiting_new_price_key u) w' = false.
Proof.
  intros Hconv Hr Hp Hgt w'. subst w'. unfold run. simpl fold_left.
  rewrite (step_flag_button w u c r "CHANGE_PRICE" (awaiting_new_price_key u) Hr)
    by (right; done).
  set (w1 := with_user_data _ _).
  assert (Hc1 : conversation_of c u w1 = None) by exact Hconv.
  assert (Hf1 : flag_set u (awaiting_new_price_key u) w1 = true)
    by apply flag_after_button.
  rewrite (step_text_outside_onboarding _ _ _ _ Hc1).
  rewrite (handle_text_message_price E _ _ _ _ Hf1), Hp, Hgt.
  match goal with |- context [exec (update_dashboard _ _ _ _) ?w2] =>
    pose proof (update_dashboard_persisted E u c false w2) as Hp2;
    set (w3 := exec (update_dashboard E u c false) w2) in * end.
  pose proof (persisted_flag_set _ _ u (awaiting_new_price_key u) Hp2) as Hf.
  pose proof (records_lookup _ _ u (persisted_records _ _ Hp2)) as Hl.
  pose proof (records_usage _ _ (persisted_records _ _ Hp2)) as Hg.
  split; [|split].
  - rewrite Hl. unfold exec, update_user_price, user_data_pop, modify. simpl.
    by rewrite lookup_alter_eq, Hr.
  - rewrite Hg. reflexivity.
  - rewrite Hf. apply flag_set_pop_eq.
Qed.

(** X26 (menu_callback, handle_text_message, main): the consumption of
    several cigarettes as a whole.  From a user with a profile and a unit
    price that is a number, who is in no onboarding step and has no change of
    price pending, the button SMOKE_MORE
    and then a text that [int] reads as a quantity between 1 and the stock
    lower the stock by that quantity and append one usage row of that
    quantity, at the cost of the unit price times the quantity; the flag is
    no longer pending. *)
Theorem smoke_more_then_text_consumes w u c r t q :
  conversation_of c u w = None ->
  users w !! u = Some r ->
  PrimFloat.is_nan (unit_price r) = false ->
  flag_set u (awaiting_new_price_key u) w = false ->
  py_int (str_lower (str_strip t)) = Some q ->
  1 <= q <= stock r ->
  let w' := run E [CallbackQuery u c "SMOKE_MORE"; TextMessage u c t] w in
  profile_of <$> (users w' !! u) = Some (unit_price r, stock r - q, start_smoking_date r)
  /\ usage w' = usage w ++
       [mkusage (next_usage_id (usage w)) u (isoformat (clock E (clock_reads w))) q
                (mul_int (unit_price r) q)]
  /\ flag_set u (awaiting_smoked_more_key u) w' = false.
Proof.
  intros Hconv Hr Hnum Hprice Hq Hrange w'. subst w'. unfold run. simpl fold_left.
  rewrite (step_flag_button w u c r "SMOKE_MORE" (awaiting_smoked_more_key u) Hr)
    by (left; done).
  set (w1 := with_user_data _ _).
  assert (Hc1 : conversation_of c u w1 = None) by exact Hconv.
  assert (Hr1 : users w1 !! u = Some r) by exact Hr.
  assert (Hm1 : flag_set u (awaiting_smoked_more_key u) w1 = true)
    by apply flag_after_button.
  assert (Hp1 : flag_set u (awaiting_new_price_key u) w1 = false).
  { subst w1. rewrite other_flag_after_button; [exact Hprice | apply keys_differ]. }
  rewrite (step_text_outside_onboarding _ _ _ _ Hc1).
  rewrite (handle_text_message_consume E _ _ _ _ _ _ Hr1 Hnum Hm1 Hp1 Hq Hrange).
  match goal with |- context [exec (update_dashboard _ _ _ _) ?w2] =>
    pose proof (update_dashboard_persisted E u c false w2) as Hp2;
    set (w3 := exec (update_dashboard E u c false) w2) in * end.
  pose proof (persisted_flag_set _ _ u (awaiting_smoked_more_key u) Hp2) as Hf.
  pose proof (records_lookup _ _ u (persisted_records _ _ Hp2)) as Hl.
  pose proof (records_usage _ _ (persisted_records _ _ Hp2)) as Hg.
  split; [|split].
  - rewrite Hl. unfold exec, update_user_stock, log_smoke_event, user_data_pop, bind,
      modify, datetime_now. simpl.
    by rewrite lookup_alter_eq, Hr.
  - rewrite Hg. reflexivity.
  - rewrite Hf. apply flag_set_pop_eq.
Qed.

(** X27 (ask_unit_price, rejected price): at the price step, a text that
    [float] does not read, or reads as a value at most 0, creates no profile:
    the only effect is the message that asks again, and the conversation
    stays at the price step. *)
Theorem rejected_price_asks_again w u c t :
  conversation_of c u w = Some ASKING_UNIT_PRICE ->
  (forall p, py_float (str_strip t) = Some p -> le0 p = true) ->
  process_update E (TextMessage u c t) w
  = (Ok tt,
     with_conversations (insert (c, u) ASKING_UNIT_PRICE)
       (tick_sends (with_outbox (fun o => o ++ [SendMessage c InvalidNumberText]) w))).
Proof.
  intros Hconv Hbad. simpl.
  unfold bind at 1. unfold gets at 1. rewrite Hconv.
  unfold run_conversation. by rewrite (ask_unit_price_rejects E _ _ _ _ Hbad).
Qed.

End Flows.

(** ** The further properties on the runs *)

Section OnScenarios.

Import Examples Scenarios.

Lemma in_june_sane : sane_clock in_june.
Proof. intros n. split; reflexivity. Qed.

Lemma edits_fail_sane : sane_clock edits_fail.
Proof. intros n. split; reflexivity. Qed.

Lemma onboarded_profile : users onboarded !! 7 = Some profile_7.
Proof. vm_compute. reflexivity. Qed.

Lemma profile_7_price : PrimFloat.is_nan (unit_price profile_7) = false.
Proof. reflexivity. Qed.

Lemma dashboard_sent_as_new_message_witness :
  users onboarded !! 7 = Some profile_7
  /\ PrimFloat.is_nan (unit_price profile_7) = false
  /\ sane_clock in_june
  /\ (true = true \/ dashboard_message_id profile_7 = None)
  /\ users (exec (@update_dashboard Reference.runtime in_june 7 7 true) onboarded)
     = <[7 := mkuser 1.5%float 0 (Some 4) None]> (users onboarded).
Proof.
  assert (Hnew : true = true \/ dashboard_message_id profile_7 = None) by (left; reflexivity).
  split; [exact onboarded_profile|]. split; [exact profile_7_price|].
  split; [exact in_june_sane|]. split; [exact Hnew|].
  destruct (@dashboard_sent_as_new_message Reference.runtime in_june onboarded 7 7 true
              profile_7 onboarded_profile profile_7_price in_june_sane Hnew)
    as (d & _ & _ & _ & Hu & _).
  exact Hu.
Defined.

Lemma dashboard_edited_in_place_witness :
  users onboarded !! 7 = Some profile_7
  /\ PrimFloat.is_nan (unit_price profile_7) = false
  /\ sane_clock in_june
  /\ dashboard_message_id profile_7 = Some 3
  /\ edit_succeeds in_june (edit_attempts onboarded) = true
  /\ users (exec (@update_dashboard Reference.runtime in_june 7 7 false) onboarded)
     = users onboarded
  /\ sends (exec (@update_dashboard Reference.runtime in_june 7 7 false) onboarded)
     = sends onboarded.
Proof.
  assert (Hid : dashboard_message_id profile_7 = Some 3) by reflexivity.
  assert (Hok : edit_succeeds in_june (edit_attempts onboarded) = true) by reflexivity.
  split; [exact onboarded_profile|]. split; [exact profile_7_price|].
  split; [exact in_june_sane|]. split; [exact Hid|]. split; [exact Hok|].
  destruct (@dashboard_edited_in_place Reference.runtime in_june onboarded 7 7 profile_7 3
              onboarded_profile profile_7_price in_june_sane Hid Hok)
    as (d & _ & _ & _ & Hu & _ & _ & Hs).
  split; [exact Hu | exact Hs].
Defined.

Lemma dashboard_resent_when_edit_fails_witness :
  users onboarded !! 7 = Some profile_7
  /\ PrimFloat.is_nan (unit_price profile_7) = false
  /\ sane_clock edits_fail
  /\ dashboard_message_id profile_7 = Some 3
  /\ edit_succeeds edits_fail (edit_attempts onboarded) = false
  /\ fst (@update_dashboard Reference.runtime edits_fail 7 7 false onboarded) = Ok tt
  /\ users (exec (@update_dashboard Reference.runtime edits_fail 7 7 false) onboarded)
     = <[7 := mkuser 1.5%float 0 (Some 4) None]> (users onboarded).
Proof.
  assert (Hid : dashboard_message_id profile_7 = Some 3) by reflexivity.
  assert (Hok : edit_succeeds edits_fail (edit_attempts onboarded) = false) by reflexivity.
  split; [exact onboarded_profile|]. split; [exact profile_7_price|].
  split; [exact edits_fail_sane|]. split; [exact Hid|]. split; [exact Hok|].
  destruct (@dashboard_resent_when_edit_fails Reference.runtime edits_fail onboarded 7 7
              profile_7 3 onboarded_profile profile_7_price edits_fail_sane Hid Hok)
    as (d & _ & Hret & _ & Hu & _).
  split; [exact Hret | exact Hu].
Defined.

Lemma profiles_are_never_deleted_witness :
  is_Some (users onboarded !! 7)
  /\ is_Some (users (@step Reference.runtime in_june onboarded (CommandCancel 7 7)) !! 7).
Proof.
  assert (Hu : is_Some (users onboarded !! 7)) by (rewrite onboarded_profile; eauto).
  split; [exact Hu|].
  exact (@profiles_are_never_deleted Reference.runtime in_june onboarded
           (CommandCancel 7 7) 7 Hu).
Defined.

Lemma pending_flag_has_profile_witness :
  @reachable Reference.runtime in_june awaiting_quantity
  /\ flag_set 7 (awaiting_smoked_more_key 7) awaiting_quantity = true
  /\ is_Some (users awaiting_quantity !! 7).
Proof.
  assert (Hr : @reachable Reference.runtime in_june awaiting_quantity)
    by apply run_in_reachable.
  assert (Hf : flag_set 7 (awaiting_smoked_more_key 7) awaiting_quantity = true)
    by (vm_compute; reflexivity).
  split; [exact Hr|]. split; [exact Hf|].
  exact (@pending_flag_has_profile Reference.runtime in_june awaiting_quantity 7
           (awaiting_smoked_more_key 7) Hr Hf).
Defined.

Lemma stored_price_is_positive_witness :
  @reachable Reference.runtime in_june onboarded
  /\ users onboarded !! 7 = Some profile_7
  /\ PrimFloat.is_nan (unit_price profile_7) = false
  /\ gt0 (unit_price profile_7) = true.
Proof.
  assert (Hr : @reachable Reference.runtime in_june onboarded) by apply run_in_reachable.
  assert (Hn : PrimFloat.is_nan (unit_price profile_7) = false) by reflexivity.
  split; [exact Hr|]. split; [exact onboarded_profile|]. split; [exact Hn|].
  exact (@stored_price_is_positive Reference.runtime in_june onboarded 7 profile_7
           Hr onboarded_profile Hn).
Defined.

Lemma usage_rows_are_sound_witness :
  @reachable Reference.runtime in_june three_smoked
  /\ map usage_id (usage three_smoked) = [1; 2; 3]
  /\ usage_sound three_smoked.
Proof.
  assert (Hr : @reachable Reference.runtime in_june three_smoked) by apply run_in_reachable.
  split; [exact Hr|]. split; [vm_compute; reflexivity|].
  exact (@usage_rows_are_sound Reference.runtime in_june three_smoked Hr).
Defined.

Lemma update_leaves_other_users_alone_witness :
  7 <> update_user (CallbackQuery 8 8 "ADD_PACK")
  /\ belongings 7 7 (@step Reference.runtime in_june awaiting_quantity
                       (CallbackQuery 8 8 "ADD_PACK"))
     = belongings 7 7 awaiting_quantity.
Proof.
  assert (Hne : 7 <> update_user (CallbackQuery 8 8 "ADD_PACK")) by (simpl; lia).
  split; [exact Hne|].
  exact (@update_leaves_other_users_alone Reference.runtime in_june awaiting_quantity
           (CallbackQuery 8 8 "ADD_PACK") 7 7 Hne).
Defined.

Lemma cigarettes_are_accounted_for_witness :
  added_by (CallbackQuery 7 7 "SMOKE_ONE") = None
  /\ (forall r, users with_pack !! update_user (CallbackQuery 7 7 "SMOKE_ONE") = Some r ->
                PrimFloat.is_nan (unit_price r) = false)
  /\ accounted 7 with_pack = 20
  /\ accounted 7 (@step Reference.runtime in_june with_pack (CallbackQuery 7 7 "SMOKE_ONE"))
     = accounted 7 with_pack.
Proof.
  assert (Hn : added_by (CallbackQuery 7 7 "SMOKE_ONE") = None) by reflexivity.
  assert (Hp : forall r, users with_pack !! update_user (CallbackQuery 7 7 "SMOKE_ONE")
                         = Some r -> PrimFloat.is_nan (unit_price r) = false).
  { intros r Hr. vm_compute in Hr. injection Hr as <-. reflexivity. }
  split; [exact Hn|]. split; [exact Hp|]. split; [vm_compute; reflexivity|].
  exact (@cigarettes_are_accounted_for Reference.runtime in_june with_pack
           (CallbackQuery 7 7 "SMOKE_ONE") 7 Hn Hp).
Defined.

Lemma add_buttons_raise_the_stock_witness :
  users onboarded !! 7 = Some profile_7
  /\ (("ADD_PACK" = "ADD_PACK")%string /\ 20 = 20
      \/ ("ADD_PACK" = "ADD_CIG")%string /\ 20 = 1)
  /\ profile_of <$> users (exec (@menu_callback Reference.runtime in_june 7 7 "ADD_PACK")
                             onboarded)
     = <[7 := (1.5%float, 20, None)]> (profile_of <$> users onboarded).
Proof.
  assert (Hd : ("ADD_PACK" = "ADD_PACK")%string /\ 20 = 20
               \/ ("ADD_PACK" = "ADD_CIG")%string /\ 20 = 1)
    by (left; split; reflexivity).
  split; [exact onboarded_profile|]. split; [exact Hd|].
  destruct (@add_buttons_raise_the_stock Reference.runtime in_june onboarded 7 7 profile_7
              "ADD_PACK" 20 onboarded_profile Hd) as (Hu & _).
  exact Hu.
Defined.

Lemma with_pack_profile : users with_pack !! 7 = Some (mkuser 1.5%float 20 (Some 3) None).
Proof. vm_compute. reflexivity. Qed.

Lemma smoke_one_records_one_cigarette_witness :
  users with_pack !! 7 = Some (mkuser 1.5%float 20 (Some 3) None)
  /\ 0 < stock (mkuser 1.5%float 20 (Some 3) None)
  /\ usage (exec (@menu_callback Reference.runtime in_june 7 7 "SMOKE_ONE") with_pack)
     = [mkusage 1 7 "2024-06-15T12:00:00" 1 1.5%float].
Proof.
  assert (Hpos : 0 < stock (mkuser 1.5%float 20 (Some 3) None)) by reflexivity.
  split; [exact with_pack_profile|]. split; [exact Hpos|].
  destruct (@smoke_one_records_one_cigarette Reference.runtime in_june with_pack 7 7 _
              with_pack_profile Hpos) as (_ & Hg & _).
  etransitivity; [exact Hg|]. vm_compute. reflexivity.
Defined.

Lemma flag_buttons_only_set_their_flag_witness :
  users onboarded !! 7 = Some profile_7
  /\ (("SMOKE_MORE" = "SMOKE_MORE")%string
      /\ awaiting_smoked_more_key 7 = awaiting_smoked_more_key 7
      \/ ("SMOKE_MORE" = "CHANGE_PRICE")%string
         /\ awaiting_smoked_more_key 7 = awaiting_new_price_key 7)
  /\ flag_set 7 (awaiting_smoked_more_key 7)
       (exec (@menu_callback Reference.runtime in_june 7 7 "SMOKE_MORE") onboarded) = true
  /\ outbox (exec (@menu_callback Reference.runtime in_june 7 7 "SMOKE_MORE") onboarded)
     = outbox onboarded ++ [AnswerCallbackQuery].
Proof.
  assert (Hd : ("SMOKE_MORE" = "SMOKE_MORE")%string
               /\ awaiting_smoked_more_key 7 = awaiting_smoked_more_key 7
               \/ ("SMOKE_MORE" = "CHANGE_PRICE")%string
                  /\ awaiting_smoked_more_key 7 = awaiting_new_price_key 7)
    by (left; split; reflexivity).
  split; [exact onboarded_profile|]. split; [exact Hd|].
  destruct (@flag_buttons_only_set_their_flag Reference.runtime in_june onboarded 7 7
              profile_7 "SMOKE_MORE" (awaiting_smoked_more_key 7) onboarded_profile Hd)
    as (_ & Hf & _ & _ & _ & Ho & _).
  split; [exact Hf | exact Ho].
Defined.

Lemma awaiting_both_profile :
  users awaiting_both !! 7 = Some (mkuser 1.5%float 20 (Some 3) None).
Proof. vm_compute. reflexivity. Qed.

Lemma new_price_is_stored_witness :
  users awaiting_both !! 7 = Some (mkuser 1.5%float 20 (Some 3) None)
  /\ flag_set 7 (awaiting_new_price_key 7) awaiting_both = true
  /\ @py_float Reference.runtime
       (@str_lower Reference.runtime (@str_strip Reference.runtime " 2.5 "))
     = Some 2.5%float
  /\ gt0 2.5%float = true
  /\ profile_of <$> users (exec (@handle_text_message Reference.runtime in_june 7 7 " 2.5 ")
                             awaiting_both)
     = <[7 := (2.5%float, 20, None)]> (profile_of <$> users awaiting_both)
  /\ flag_set 7 (awaiting_smoked_more_key 7)
       (exec (@handle_text_message Reference.runtime in_june 7 7 " 2.5 ") awaiting_both)
     = true.
Proof.
  assert (Hf : flag_set 7 (awaiting_new_price_key 7) awaiting_both = true)
    by (vm_compute; reflexivity).
  assert (Hp : @py_float Reference.runtime
                 (@str_lower Reference.runtime (@str_strip Reference.runtime " 2.5 "))
               = Some 2.5%float) by (vm_compute; reflexivity).
  assert (Hgt : gt0 2.5%float = true) by reflexivity.
  split; [exact awaiting_both_profile|]. split; [exact Hf|]. split; [exact Hp|].
  split; [exact Hgt|].
  destruct (@new_price_is_stored Reference.runtime in_june awaiting_both 7 7 " 2.5 " _
              2.5%float awaiting_both_profile Hf Hp Hgt) as (Hu & _ & _ & Hother & _).
  split; [exact Hu|].
  etransitivity; [apply Hother|].
  - intros Hk. apply (keys_differ 7). congruence.
  - vm_compute. reflexivity.
Defined.

Lemma rejected_price_only_clears_the_flag_witness :
  flag_set 7 (awaiting_new_price_key 7) awaiting_both = true
  /\ (forall p, @py_float Reference.runtime
                  (@str_lower Reference.runtime (@str_strip Reference.runtime "NaN"))
                = Some p -> gt0 p = false)
  /\ profile_of <$> users (exec (@handle_text_message Reference.runtime in_june 7 7 "NaN")
                             awaiting_both)
     = profile_of <$> users awaiting_both
  /\ flag_set 7 (awaiting_new_price_key 7)
       (exec (@handle_text_message Reference.runtime in_june 7 7 "NaN") awaiting_both)
     = false.
Proof.
  assert (Hf : flag_set 7 (awaiting_new_price_key 7) awaiting_both = true)
    by (vm_compute; reflexivity).
  assert (Hbad : forall p, @py_float Reference.runtime
                   (@str_lower Reference.runtime (@str_strip Reference.runtime "NaN"))
                 = Some p -> gt0 p = false).
  { intros p Hp. vm_compute in Hp. injection Hp as <-. reflexivity. }
  split; [exact Hf|]. split; [exact Hbad|].
  destruct (@rejected_price_only_clears_the_flag Reference.runtime in_june awaiting_both
              7 7 "NaN" Hf Hbad) as (Hu & _ & Hc & _).
  split; [exact Hu | exact Hc].
Defined.

Lemma unexpected_text_is_ignored_witness :
  conversation_of 7 7 onboarded = None
  /\ flag_set 7 (awaiting_new_price_key 7) onboarded = false
  /\ flag_set 7 (awaiting_smoked_more_key 7) onboarded = false
  /\ @process_update Reference.runtime in_june (TextMessage 7 7 "hello") onboarded
     = (Ok tt, onboarded).
Proof.
  assert (Hc : conversation_of 7 7 onboarded = None) by (vm_compute; reflexivity).
  assert (Hp : flag_set 7 (awaiting_new_price_key 7) onboarded = false)
    by (vm_compute; reflexivity).
  assert (Hm : flag_set 7 (awaiting_smoked_more_key 7) onboarded = false)
    by (vm_compute; reflexivity).
  split; [exact Hc|]. split; [exact Hp|]. split; [exact Hm|].
  exact (@unexpected_text_is_ignored Reference.runtime in_june onboarded 7 7 "hello"
           Hc Hp Hm).
Defined.

Lemma price_step_of_existing_user_raises_witness :
  conversation_of 8 7 two_chats = Some ASKING_UNIT_PRICE
  /\ users two_chats !! 7 = Some (mkuser 1.5%float 0 None None)
  /\ @py_float Reference.runtime (@str_strip Reference.runtime "2") = Some 2%float
  /\ le0 2%float = false
  /\ @process_update Reference.runtime in_june (TextMessage 7 8 "2") two_chats
     = (Raised IntegrityError, two_chats).
Proof.
  assert (Hc : conversation_of 8 7 two_chats = Some ASKING_UNIT_PRICE)
    by (vm_compute; reflexivity).
  assert (Hu : users two_chats !! 7 = Some (mkuser 1.5%float 0 None None))
    by (vm_compute; reflexivity).
  assert (Hp : @py_float Reference.runtime (@str_strip Reference.runtime "2") = Some 2%float)
    by (vm_compute; reflexivity).
  assert (Hle : le0 2%float = false) by reflexivity.
  split; [exact Hc|]. split; [exact Hu|]. split; [exact Hp|]. split; [exact Hle|].
  exact (@price_step_of_existing_user_raises Reference.runtime in_june two_chats 7 8 "2" _
           2%float Hc Hu Hp Hle).
Defined.

Lemma invalid_start_date_asks_again_witness :
  conversation_of 7 7 asked_date = Some ASKING_START_DATE
  /\ @accepted_start_date Reference.runtime "2023-02-29" = None
  /\ users (@step Reference.runtime in_june asked_date (TextMessage 7 7 "2023-02-29"))
     = users asked_date
  /\ conversation_of 7 7
       (@step Reference.runtime in_june asked_date (TextMessage 7 7 "2023-02-29"))
     = Some ASKING_START_DATE.
Proof.
  assert (Hc : conversation_of 7 7 asked_date = Some ASKING_START_DATE)
    by (vm_compute; reflexivity).
  assert (Hbad : @accepted_start_date Reference.runtime "2023-02-29" = None)
    by (vm_compute; reflexivity).
  split; [exact Hc|]. split; [exact Hbad|].
  unfold step, exec.
  rewrite (@invalid_start_date_asks_again Reference.runtime in_june asked_date 7 7
             "2023-02-29" Hc Hbad).
  split; [reflexivity | vm_compute; reflexivity].
Defined.


Lemma start_of_existing_user_sends_dashboard_witness :
  users onboarded !! 7 = Some profile_7
  /\ PrimFloat.is_nan (unit_price profile_7) = false
  /\ sane_clock in_june
  /\ users (@step Reference.runtime in_june onboarded (CommandStart 7 7))
     = <[7 := mkuser 1.5%float 0 (Some 4) None]> (users onboarded)
  /\ conversation_of 7 7 (@step Reference.runtime in_june onboarded (CommandStart 7 7))
     = None.
Proof.
  split; [exact onboarded_profile|]. split; [exact profile_7_price|].
  split; [exact in_june_sane|].
  destruct (@start_of_existing_user_sends_dashboard Reference.runtime in_june onboarded 7 7
              profile_7 onboarded_profile profile_7_price in_june_sane)
    as (d & _ & _ & _ & Hu & Hc & _).
  split; [exact Hu | exact Hc].
Defined.

Lemma asked_date_profile : users asked_date !! 7 = Some (mkuser 1.5%float 0 None None).
Proof. vm_compute. reflexivity. Qed.

Lemma start_date_step_stores_the_answer_witness :
  conversation_of 7 7 asked_date = Some ASKING_START_DATE
  /\ users asked_date !! 7 = Some (mkuser 1.5%float 0 None None)
  /\ PrimFloat.is_nan (unit_price (mkuser 1.5%float 0 None None)) = false
  /\ sane_clock in_june
  /\ @accepted_start_date Reference.runtime " 2020-02-29 " = Some (Some "2020-02-29")
  /\ users (@step Reference.runtime in_june asked_date (TextMessage 7 7 " 2020-02-29 "))
     = <[7 := mkuser 1.5%float 0 (Some 3) (Some "2020-02-29")]> (users asked_date).
Proof.
  assert (Hc : conversation_of 7 7 asked_date = Some ASKING_START_DATE)
    by (vm_compute; reflexivity).
  assert (Ha : @accepted_start_date Reference.runtime " 2020-02-29 "
               = Some (Some "2020-02-29")) by (vm_compute; reflexivity).
  assert (Hn : PrimFloat.is_nan (unit_price (mkuser 1.5%float 0 None None)) = false)
    by reflexivity.
  split; [exact Hc|]. split; [exact asked_date_profile|]. split; [exact Hn|].
  split; [exact in_june_sane|]. split; [exact Ha|].
  destruct (@start_date_step_stores_the_answer Reference.runtime in_june asked_date 7 7
              " 2020-02-29 " _ _ Hc asked_date_profile Hn in_june_sane Ha)
    as (d & _ & _ & Hu & _).
  exact Hu.
Defined.

Lemma onboarding_creates_the_profile_witness :
  users initial_world !! 7 = None
  /\ sane_clock in_june
  /\ @py_float Reference.runtime (@str_strip Reference.runtime " 1.5") = Some 1.5%float
  /\ gt0 1.5%float = true
  /\ @accepted_start_date Reference.runtime " Skip " = Some None
  /\ users (@run Reference.runtime in_june
              [CommandStart 7 7; TextMessage 7 7 " 1.5"; TextMessage 7 7 " Skip "]
              initial_world)
     = {[ 7 := mkuser 1.5%float 0 (Some 3) None ]}.
Proof.
  assert (Hn : users initial_world !! 7 = None) by reflexivity.
  assert (Hp : @py_float Reference.runtime (@str_strip Reference.runtime " 1.5")
               = Some 1.5%float) by (vm_compute; reflexivity).
  assert (Hle : gt0 1.5%float = true) by reflexivity.
  assert (Ha : @accepted_start_date Reference.runtime " Skip " = Some None)
    by (vm_compute; reflexivity).
  split; [exact Hn|]. split; [exact in_june_sane|]. split; [exact Hp|].
  split; [exact Hle|]. split; [exact Ha|].
  destruct (@onboarding_creates_the_profile Reference.runtime in_june initial_world 7 7
              " 1.5" " Skip " 1.5%float None Hn in_june_sane Hp Hle Ha) as (d & Hu & _).
  etransitivity; [exact Hu|]. vm_compute. reflexivity.
Defined.

Lemma cancel_outside_onboarding_keeps_flags_witness :
  conversation_of 7 7 onboarded = None
  /\ users onboarded !! 7 = Some profile_7
  /\ (("SMOKE_MORE" = "SMOKE_MORE")%string
      /\ awaiting_smoked_more_key 7 = awaiting_smoked_more_key 7
      \/ ("SMOKE_MORE" = "CHANGE_PRICE")%string
         /\ awaiting_smoked_more_key 7 = awaiting_new_price_key 7)
  /\ flag_set 7 (awaiting_smoked_more_key 7)
       (@run Reference.runtime in_june [CallbackQuery 7 7 "SMOKE_MORE"; CommandCancel 7 7]
          onboarded)
     = true.
Proof.
  assert (Hc : conversation_of 7 7 onboarded = None) by (vm_compute; reflexivity).
  assert (Hd : ("SMOKE_MORE" = "SMOKE_MORE")%string
               /\ awaiting_smoked_more_key 7 = awaiting_smoked_more_key 7
               \/ ("SMOKE_MORE" = "CHANGE_PRICE")%string
                  /\ awaiting_smoked_more_key 7 = awaiting_new_price_key 7)
    by (left; split; reflexivity).
  split; [exact Hc|]. split; [exact onboarded_profile|]. split; [exact Hd|].
  destruct (@cancel_outside_onboarding_keeps_flags Reference.runtime in_june onboarded 7 7
              profile_7 "SMOKE_MORE" (awaiting_smoked_more_key 7) Hc onboarded_profile Hd)
    as (_ & Hf).
  exact Hf.
Defined.

Lemma aggregate_counts_are_nested_witness :
  Forall (fun r => 0 <= quantity r) (usage three_smoked)
  /\ datetime_valid (clock in_june (clock_reads three_smoked)) = true
  /\ 7 < toordinal (dt_date (clock in_june (clock_reads three_smoked)))
  /\ exists aggr,
       @get_aggregates Reference.runtime in_june 7 three_smoked
       = (Ok aggr, tick_clock three_smoked)
       /\ 0 <= fst (daily aggr) <= fst (weekly aggr)
       /\ fst (daily aggr) <= fst (monthly aggr) <= fst (yearly aggr).
Proof.
  assert (Hall : Forall (fun r => 0 <= quantity r) (usage three_smoked)).
  { vm_compute. repeat constructor; discriminate. }
  assert (Hv : datetime_valid (clock in_june (clock_reads three_smoked)) = true)
    by reflexivity.
  assert (Ho : 7 < toordinal (dt_date (clock in_june (clock_reads three_smoked))))
    by reflexivity.
  split; [exact Hall|]. split; [exact Hv|]. split; [exact Ho|].
  exact (@aggregate_counts_are_nested Reference.runtime in_june three_smoked 7 Hall Hv Ho).
Defined.

Lemma timestamps_order_as_instants_witness :
  datetime_valid june_15 = true /\ datetime_valid december_31 = true
  /\ String.leb (isoformat june_15) (isoformat december_31)
     = datetime_leb june_15 december_31
  /\ (isoformat june_15 = isoformat december_31 -> june_15 = december_31).
Proof.
  assert (Ha : datetime_valid june_15 = true) by reflexivity.
  assert (Hb : datetime_valid december_31 = true) by reflexivity.
  split; [exact Ha|]. split; [exact Hb|].
  exact (timestamps_order_as_instants june_15 december_31 Ha Hb).
Defined.

Lemma change_price_then_text_sets_the_price_witness :
  conversation_of 7 7 with_pack = None
  /\ users with_pack !! 7 = Some (mkuser 1.5%float 20 (Some 3) None)
  /\ @py_float Reference.runtime
       (@str_lower Reference.runtime (@str_strip Reference.runtime "2.5")) = Some 2.5%float
  /\ gt0 2.5%float = true
  /\ profile_of <$> (users (@run Reference.runtime in_june
                              [CallbackQuery 7 7 "CHANGE_PRICE"; TextMessage 7 7 "2.5"]
                              with_pack) !! 7)
     = Some (2.5%float, 20, None).
Proof.
  assert (Hc : conversation_of 7 7 with_pack = None) by (vm_compute; reflexivity).
  assert (Hp : @py_float Reference.runtime
                 (@str_lower Reference.runtime (@str_strip Reference.runtime "2.5"))
               = Some 2.5%float) by (vm_compute; reflexivity).
  assert (Hgt : gt0 2.5%float = true) by reflexivity.
  split; [exact Hc|]. split; [exact with_pack_profile|]. split; [exact Hp|].
  split; [exact Hgt|].
  destruct (@change_price_then_text_sets_the_price Reference.runtime in_june with_pack 7 7
              _ "2.5" 2.5%float Hc with_pack_profile Hp Hgt) as (Hu & _).
  exact Hu.
Defined.

Lemma smoke_more_then_text_consumes_witness :
  conversation_of 7 7 with_pack = None
  /\ users with_pack !! 7 = Some (mkuser 1.5%float 20 (Some 3) None)
  /\ PrimFloat.is_nan (unit_price (mkuser 1.5%float 20 (Some 3) None)) = false
  /\ flag_set 7 (awaiting_new_price_key 7) with_pack = false
  /\ @py_int Reference.runtime
       (@str_lower Reference.runtime (@str_strip Reference.runtime "3")) = Some 3
  /\ 1 <= 3 <= stock (mkuser 1.5%float 20 (Some 3) None)
  /\ profile_of <$> (users (@run Reference.runtime in_june
                              [CallbackQuery 7 7 "SMOKE_MORE"; TextMessage 7 7 "3"]
                              with_pack) !! 7)
     = Some (1.5%float, 17, None)
  /\ usage (@run Reference.runtime in_june
              [CallbackQuery 7 7 "SMOKE_MORE"; TextMessage 7 7 "3"] with_pack)
     = [mkusage 1 7 "2024-06-15T12:00:00" 3 4.5%float].
Proof.
  assert (Hc : conversation_of 7 7 with_pack = None) by (vm_compute; reflexivity).
  assert (Hf : flag_set 7 (awaiting_new_price_key 7) with_pack = false)
    by (vm_compute; reflexivity).
  assert (Hq : @py_int Reference.runtime
                 (@str_lower Reference.runtime (@str_strip Reference.runtime "3")) = Some 3)
    by (vm_compute; reflexivity).
  assert (Hr : 1 <= 3 <= stock (mkuser 1.5%float 20 (Some 3) None)) by (simpl; lia).
  assert (Hn : PrimFloat.is_nan (unit_price (mkuser 1.5%float 20 (Some 3) None)) = false)
    by reflexivity.
  split; [exact Hc|]. split; [exact with_pack_profile|]. split; [exact Hn|].
  split; [exact Hf|]. split; [exact Hq|]. split; [exact Hr|].
  destruct (@smoke_more_then_text_consumes Reference.runtime in_june with_pack 7 7 _ "3" 3
              Hc with_pack_profile Hn Hf Hq Hr) as (Hu & Hg & _).
  split; [exact Hu|]. etransitivity; [exact Hg|]. vm_compute. reflexivity.
Defined.

Lemma rejected_price_asks_again_witness :
  conversation_of 7 7 asked_price = Some ASKING_UNIT_PRICE
  /\ (forall p, @py_float Reference.runtime (@str_strip Reference.runtime "-1") = Some p ->
                le0 p = true)
  /\ users (@step Reference.runtime in_june asked_price (TextMessage 7 7 "-1"))
     = users asked_price
  /\ conversation_of 7 7 (@step Reference.runtime in_june asked_price (TextMessage 7 7 "-1"))
     = Some ASKING_UNIT_PRICE.
Proof.
  assert (Hc : conversation_of 7 7 asked_price = Some ASKING_UNIT_PRICE)
    by (vm_compute; reflexivity).
  assert (Hbad : forall p, @py_float Reference.runtime (@str_strip Reference.runtime "-1")
                           = Some p -> le0 p = true).
  { intros p Hp. vm_compute in Hp. injection Hp as <-. reflexivity. }
  split; [exact Hc|]. split; [exact Hbad|].
  unfold step, exec.
  rewrite (@rejected_price_asks_again Reference.runtime in_june asked_price 7 7 "-1" Hc Hbad).
  split; [reflexivity | vm_compute; reflexivity].
Defined.

(** C1 on two inputs.  The text "3" that follows SMOKE_MORE, with a stock of
    20, is recorded as the claim says when nothing else is pending: the stock
    becomes 17 and one usage row of quantity 3 and cost 3 * 1.5 is appended.
    It is not when CHANGE_PRICE was pressed before SMOKE_MORE: the text is
    read as a price, the unit price becomes 3.0, the stock stays 20, no usage
    row is appended and the flag of SMOKE_MORE stays pending.  It is not
    either for the profile that the price step creates on "nan": the stock
    is written as 17, then the product of the price and the quantity raises
    [TypeError], so that no usage row is appended and the flag stays
    pending. *)
Theorem smoke_more_text_is_not_always_a_consumption :
  (let w' := @step Reference.runtime in_june awaiting_quantity (TextMessage 7 7 "3") in
   users awaiting_quantity !! 7 = Some (mkuser 1.5%float 20 (Some 3) None)
   /\ users w' !! 7 = Some (mkuser 1.5%float 17 (Some 3) None)
   /\ usage w' = [mkusage 1 7 "2024-06-15T12:00:00" 3 4.5%float])
  /\ (let w' := @step Reference.runtime in_june awaiting_both (TextMessage 7 7 "3") in
      @reachable Reference.runtime in_june awaiting_both
      /\ users awaiting_both !! 7 = Some (mkuser 1.5%float 20 (Some 3) None)
      /\ flag_set 7 (awaiting_smoked_more_key 7) awaiting_both = true
      /\ Reference.int_of_string (Reference.lower (Reference.strip "3")) = Some 3
      /\ users w' !! 7 = Some (mkuser 3%float 20 (Some 3) None)
      /\ usage w' = []
      /\ flag_set 7 (awaiting_smoked_more_key 7) w' = true)
  /\ (let w' := @step Reference.runtime in_june null_price_smoker (TextMessage 7 7 "3") in
      @reachable Reference.runtime in_june null_price_smoker
      /\ users null_price_smoker !! 7 = Some (mkuser PrimFloat.nan 20 None None)
      /\ conversation_of 7 7 null_price_smoker = None
      /\ flag_set 7 (awaiting_smoked_more_key 7) null_price_smoker = true
      /\ flag_set 7 (awaiting_new_price_key 7) null_price_smoker = false
      /\ fst (@process_update Reference.runtime in_june (TextMessage 7 7 "3")
                null_price_smoker) = Raised TypeError
      /\ users w' !! 7 = Some (mkuser PrimFloat.nan 17 None None)
      /\ usage w' = []
      /\ flag_set 7 (awaiting_smoked_more_key 7) w' = true).
Proof.
  split; [vm_compute; repeat split; reflexivity|].
  split.
  - cbv zeta. split; [apply run_in_reachable|]. vm_compute. repeat split; reflexivity.
  - cbv zeta. split; [apply run_in_reachable|]. vm_compute. repeat split; reflexivity.
Qed.

End OnScenarios.

(** ** The calls on the transport *)

Section Transport.

Context `{PyRuntime} (E : environment).

(** X28 (all handlers): whatever an update makes the bot send or edit goes to
    the chat of that update: the calls it adds to those made before are
    addressed to its chat, or acknowledge its button. *)
Theorem replies_go_to_the_chat_of_the_update w upd :
  exists calls,
    outbox (step E w upd) = outbox w ++ calls
    /\ Forall (addressed_to (update_chat upd)) calls.
Proof.
  set (I := fun w' => exists calls, outbox w' = outbox w ++ calls
                                    /\ Forall (addressed_to (update_chat upd)) calls).
  assert (Hcall : forall w1 o, addressed_to (update_chat upd) o ->
                               I w1 -> I (with_outbox (fun l => l ++ [o]) w1)).
  { intros w1 o Ho (calls & Hc & Ha). exists (calls ++ [o]). simpl.
    rewrite Hc, app_assoc. split; [reflexivity|]. apply Forall_app.
    split; [exact Ha | by constructor]. }
  assert (Hw : I w) by (exists []; split; [by rewrite app_nil_r | constructor]).
  revert Hw.
  apply (process_update_effects E I (update_user upd) (update_chat upd) (fun _ => True));
    try reflexivity; try done.
  - intros w1. by apply (Hcall w1 AnswerCallbackQuery).
  - intros w1 t. by apply (Hcall w1 (SendMessage (update_chat upd) t)).
  - intros w1 i t. by apply (Hcall w1 (EditMessageText (update_chat upd) i t _)).
  - intros w1 d. by apply (Hcall w1 (SendMessage (update_chat upd) (DashboardText d))).
Qed.

Lemma sent_from_app k a b :
  sent_from E k (a ++ b) = sent_from E k a ++ sent_from E (k + count_sends a) b.
Proof.
  revert k. induction a as [|o a IH]; intros k; simpl.
  - by rewrite Nat.add_0_r.
  - destruct o; simpl; rewrite ?IH; rewrite ?Nat.add_succ_r; reflexivity.
Qed.

Lemma count_sends_app a b : count_sends (a ++ b) = (count_sends a + count_sends b)%nat.
Proof. induction a as [|o a IH]; simpl; [reflexivity|]. destruct o; simpl; lia. Qed.

Lemma references_sent_call w o :
  references_sent E w ->
  references_sent E
    (match o with
     | SendMessage _ _ => tick_sends (with_outbox (fun l => l ++ [o]) w)
     | _ => with_outbox (fun l => l ++ [o]) w
     end).
Proof.
  intros [Hn Hrefs]. split.
  - destruct o; simpl; rewrite count_sends_app; simpl; lia.
  - intros u r i Hr Hi.
    assert (Hu : users w !! u = Some r) by (destruct o; exact Hr).
    destruct (Hrefs u r i Hu Hi) as (c & d & Hin). exists c, d.
    assert (Hin' : In (i, c, DashboardText d) (sent_from E 0 (outbox w ++ [o])))
      by (rewrite sent_from_app; apply in_or_app; by left).
    destruct o; exact Hin'.
Qed.

Lemma references_sent_users (f : gmap Z user_row -> gmap Z user_row) w :
  (forall u r', f (users w) !! u = Some r' ->
                dashboard_message_id r' = None
                \/ exists r, users w !! u = Some r
                             /\ dashboard_message_id r' = dashboard_message_id r) ->
  references_sent E w -> references_sent E (with_users f w).
Proof.
  intros Hf [Hn Hrefs]. split; [exact Hn|]. simpl. intros u r' i Hr' Hi.
  destruct (Hf u r' Hr') as [Hnone|(r & Hr & Heq)]; [congruence|].
  apply (Hrefs u r i Hr). congruence.
Qed.

Lemma references_sent_alter (g : user_row -> user_row) a w :
  (forall r, dashboard_message_id (g r) = dashboard_message_id r) ->
  references_sent E w -> references_sent E (with_users (alter g a) w).
Proof.
  intros Hg. apply references_sent_users. intros u r'.
  destruct (decide (a = u)) as [->|Hne].
  - rewrite lookup_alter_eq. destruct (users w !! u) as [r|]; simpl; [|discriminate].
    intros [= <-]. right. exists r. by rewrite Hg.
  - rewrite lookup_alter_ne by done. intros Hr. right. by exists r'.
Qed.

Lemma references_sent_step w upd :
  references_sent E w -> references_sent E (step E w upd).
Proof.
  apply (process_update_effects E (references_sent E) (update_user upd) (update_chat upd)
           (fun _ => True)); try reflexivity; try (intros; exact Logic.I).
  - intros w1 Hw. exact Hw.
  - intros w1. apply (references_sent_call w1 AnswerCallbackQuery).
  - intros w1 t. apply (references_sent_call w1 (SendMessage (update_chat upd) t)).
  - intros w1 i t. apply (references_sent_call w1 (EditMessageText (update_chat upd) i t _)).
  - intros w1 d Hw. destruct Hw as [Hn Hrefs]. split.
    + simpl. rewrite count_sends_app. simpl. lia.
    + simpl. intros u r' i. rewrite sent_from_app. simpl. rewrite <- Hn.
      destruct (decide (update_user upd = u)) as [->|Hne].
      * rewrite lookup_alter_eq. destruct (users w1 !! u) as [r|]; simpl; [|discriminate].
        intros [= <-]. simpl. intros [= <-]. exists (update_chat upd), d.
        apply in_or_app. right. by left.
      * rewrite lookup_alter_ne by done. intros Hr Hi.
        destruct (Hrefs u r' i Hr Hi) as (c & d' & Hin). exists c, d'.
        apply in_or_app. by left.
  - intros w1 s Hw. exact Hw.
  - intros w1 Hw. exact Hw.
  - intros w1 p Hfresh _. apply references_sent_users. intros u r'.
    destruct (decide (update_user upd = u)) as [->|Hne].
    + rewrite lookup_insert_eq. intros [= <-]. by left.
    + rewrite lookup_insert_ne by done. intros Hr. right. by exists r'.
  - intros w1 p _. by apply references_sent_alter.
  - intros w1 d _. by apply references_sent_alter.
  - intros w1 r n _ _. by apply references_sent_alter.
  - intros w1 r q c _ _ _ Hw.
    exact (references_sent_alter
             (fun r0 => mkuser (unit_price r0) (stock r - q) (dashboard_message_id r0)
                               (start_smoking_date r0)) _ w1 (fun _ => eq_refl) Hw).
  - intros w1 r q _ _ _. by apply references_sent_alter.
  - intros w1 k _ Hw. exact Hw.
  - intros w1 k Hw. exact Hw.
Qed.

(** X29 (update_dashboard, update_dashboard_message_id): in every state of
    the running bot, the dashboard reference stored for a user is the
    identifier the transport returned for a dashboard message the bot sent:
    it is written only from the message just sent. *)
Theorem dashboard_reference_names_a_sent_dashboard w u r i :
  reachable E w ->
  users w !! u = Some r -> dashboard_message_id r = Some i ->
  exists c d, In (i, c, DashboardText d) (sent_from E 0 (outbox w)).
Proof.
  intros Hreach.
  assert (Hw : references_sent E w).
  { induction Hreach as [|w upd Hreach IH]; [|by apply references_sent_step].
    split; [reflexivity|]. intros v x j. unfold initial_world. simpl.
    by rewrite lookup_empty. }
  apply Hw.
Qed.

End Transport.

Section OnTransport.

Import Examples Scenarios.

Lemma dashboard_reference_names_a_sent_dashboard_witness :
  @reachable Reference.runtime in_june onboarded
  /\ users onboarded !! 7 = Some profile_7
  /\ dashboard_message_id profile_7 = Some 3
  /\ exists c d, In (3, c, DashboardText d) (sent_from in_june 0 (outbox onboarded)).
Proof.
  assert (Hr : @reachable Reference.runtime in_june onboarded) by apply run_in_reachable.
  assert (Hi : dashboard_message_id profile_7 = Some 3) by reflexivity.
  split; [exact Hr|]. split; [exact onboarded_profile|]. split; [exact Hi|].
  exact (@dashboard_reference_names_a_sent_dashboard Reference.runtime in_june onboarded 7
           profile_7 3 Hr onboarded_profile Hi).
Defined.

End OnTransport.
